(** * Atlas self-production pipeline: gap analysis, generation, validation,
      review queue and integration

    A shallow embedding of [src/self-production] (gap analyzer, code
    generator, AXIS validator, review queue, integrator and engine) together
    with the properties the specification states about them and further
    properties of the code: error paths, invariants, round trips and the
    way the operations compose.

    Conventions of the embedding:
    - JavaScript numbers that hold measurements (closure, scope, scores) are
      IEEE-754 binary64 values, modelled by Rocq's primitive [float];
      timestamps ([Date.getTime()]), counters and lengths are integers.
      The ages and review times [getStats] returns are differences and
      sums of time values computed as numbers, and are [float] too.
    - Every method that reads the clock takes the reading as an argument
      ([now], in milliseconds); one reading is used for the whole call.
    - Strings are byte strings; [toLowerCase]/[toUpperCase] act on ASCII.
    - Objects held by a JavaScript [Map] are modelled by a list in insertion
      order; the file system is a finite map from paths to contents,
      the paths being those [path.join] returns on a POSIX system.
    - A method that may throw runs in the monad [M], which threads the
      mutable state and returns either the thrown error or the result. *)

From Stdlib Require Import ZArith List String Ascii Bool Lia Floats DecimalString.
From Stdlib Require Import DecimalZ DecimalPos FinFun.
From Stdlib Require Import Sorting.Sorted Sorting.Permutation.
From stdpp Require Import gmap strings fin_maps.
Import ListNotations.

Set Warnings "-inexact-float".
Local Open Scope Z_scope.

(* ================================================================== *)
(** * JavaScript primitives used by the sources *)
(* ================================================================== *)

Module JS.

(** [a > b] on numbers. *)
Definition gt (a b : float) : bool := PrimFloat.ltb b a.

(** [Math.max(a, b)]: NaN if either argument is NaN, and [+0] is larger
    than [-0]. *)
Definition Math_max (a b : float) : float :=
  if PrimFloat.is_nan a || PrimFloat.is_nan b then PrimFloat.nan
  else if PrimFloat.ltb a b then b
  else if PrimFloat.ltb b a then a
  else if PrimFloat.is_zero a && PrimFloat.get_sign a then b else a.

(** [Math.min(a, b)], with [-0] smaller than [+0]. *)
Definition Math_min (a b : float) : float :=
  if PrimFloat.is_nan a || PrimFloat.is_nan b then PrimFloat.nan
  else if PrimFloat.ltb a b then a
  else if PrimFloat.ltb b a then b
  else if PrimFloat.is_zero a && negb (PrimFloat.get_sign a) then b else a.

(** Number of a non-negative integer (array lengths, counts). *)
Definition of_nat (n : nat) : float :=
  PrimFloat.of_uint63 (Uint63.of_Z (Z.of_nat n)).

(** Number of an integer time value ([getTime()], [Date.now()]): a time
    value is at most 8.64e15 in magnitude, below 2^53, and has a number
    of its own. *)
Definition of_Z (z : Z) : float :=
  if z <? 0 then (- PrimFloat.of_uint63 (Uint63.of_Z (- z)))%float
  else PrimFloat.of_uint63 (Uint63.of_Z z).

(** Decimal rendering of an integer inside a template string. *)
Definition string_of_Z (z : Z) : string :=
  NilZero.string_of_int (Z.to_int z).

Definition lower_ascii (c : ascii) : ascii :=
  let n := nat_of_ascii c in
  if (65 <=? n)%nat && (n <=? 90)%nat then ascii_of_nat (n + 32) else c.

Definition upper_ascii (c : ascii) : ascii :=
  let n := nat_of_ascii c in
  if (97 <=? n)%nat && (n <=? 122)%nat then ascii_of_nat (n - 32) else c.

Fixpoint map_string (f : ascii -> ascii) (s : string) : string :=
  match s with
  | EmptyString => EmptyString
  | String c s' => String (f c) (map_string f s')
  end.

Definition toLowerCase : string -> string := map_string lower_ascii.
Definition toUpperCase : string -> string := map_string upper_ascii.

(** [s.indexOf(sub)]; [None] stands for [-1]. *)
Fixpoint indexOf (s sub : string) : option nat :=
  if String.prefix sub s then Some 0%nat
  else match s with
       | EmptyString => None
       | String _ s' => option_map S (indexOf s' sub)
       end.

(** [s.includes(sub)]. *)
Definition includes (s sub : string) : bool :=
  match indexOf s sub with Some _ => true | None => false end.

(** [s.slice(0, n)] and [s.slice(n)] for [0 <= n]. *)
Fixpoint take (n : nat) (s : string) : string :=
  match n, s with
  | S n', String c s' => String c (take n' s')
  | _, _ => EmptyString
  end.

Fixpoint drop (n : nat) (s : string) : string :=
  match n, s with
  | S n', String _ s' => drop n' s'
  | _, _ => s
  end.

(** [l.join(sep)]. *)
Definition join (sep : string) (l : list string) : string :=
  String.concat sep l.

(** A string used as a condition: the empty string is falsy. *)
Definition truthy (s : string) : bool :=
  match s with EmptyString => false | _ => true end.

(** An optional string used as a condition ([undefined] and [''] are
    falsy). *)
Definition present (o : option string) : bool :=
  match o with Some s => truthy s | None => false end.

(** [o || dflt] for an optional string. *)
Definition or_default (o : option string) (dflt : string) : string :=
  match o with
  | Some s => if truthy s then s else dflt
  | None => dflt
  end.

(** The replacement text of [String.prototype.replace] with a string
    pattern (ECMAScript GetSubstitution without captures): [$$] is a
    dollar, [$&] the matched text, [$`] the text before the match and
    [$'] the text after it; any other character stands for itself. *)
Fixpoint getSubstitution (matched before after template : string) : string :=
  match template with
  | EmptyString => EmptyString
  | String "$" (String "$" rest) =>
      String "$" (getSubstitution matched before after rest)
  | String "$" (String "&" rest) =>
      matched +:+ getSubstitution matched before after rest
  | String "$" (String "`" rest) =>
      before +:+ getSubstitution matched before after rest
  | String "$" (String "'" rest) =>
      after +:+ getSubstitution matched before after rest
  | String c rest => String c (getSubstitution matched before after rest)
  end.

(** [s.replace(pattern, replacement)] with a string pattern: the first
    occurrence only, and [s] itself when the pattern does not occur. *)
Definition replace (s pattern replacement : string) : string :=
  match indexOf s pattern with
  | None => s
  | Some i =>
      let before := take i s in
      let after := drop (i + String.length pattern) s in
      before +:+ getSubstitution pattern before after replacement +:+ after
  end.

(** [[...new Set(l)]]: the first occurrence of each element, in order. *)
Fixpoint uniq_from {A} (eqb : A -> A -> bool) (seen l : list A) : list A :=
  match l with
  | [] => []
  | x :: l' =>
      if existsb (eqb x) seen then uniq_from eqb seen l'
      else x :: uniq_from eqb (x :: seen) l'
  end.

Definition uniq {A} (eqb : A -> A -> bool) (l : list A) : list A :=
  uniq_from eqb [] l.

(** [l.sort(cmp)]: the sort is stable, so it is the insertion of each
    element, from the last to the first, before the first element that
    does not compare below it. *)
Fixpoint insert_sorted {A} (cmp : A -> A -> Z) (x : A) (l : list A) : list A :=
  match l with
  | [] => [x]
  | y :: l' => if cmp x y <=? 0 then x :: l else y :: insert_sorted cmp x l'
  end.

Fixpoint sort {A} (cmp : A -> A -> Z) (l : list A) : list A :=
  match l with
  | [] => []
  | x :: l' => insert_sorted cmp x (sort cmp l')
  end.

End JS.

(* ================================================================== *)
(** * Core types ([src/core]) *)
(* ================================================================== *)

(** The four strata, in their canonical order. *)
Inductive Stratum := MATTER | LIFE | SENTIENCE | LOGOS.

Definition Stratum_eqb (a b : Stratum) : bool :=
  match a, b with
  | MATTER, MATTER | LIFE, LIFE | SENTIENCE, SENTIENCE | LOGOS, LOGOS => true
  | _, _ => false
  end.

Definition Stratum_name (s : Stratum) : string :=
  match s with
  | MATTER => "MATTER" | LIFE => "LIFE"
  | SENTIENCE => "SENTIENCE" | LOGOS => "LOGOS"
  end.

(** [StrataSet]: one flag per stratum. *)
Record StrataSet := {
  strata_MATTER : bool;
  strata_LIFE : bool;
  strata_SENTIENCE : bool;
  strata_LOGOS : bool
}.

(** The eight domains. *)
Inductive Domain :=
  INERT | LIVING | SENTIENT | SYMBOLIC | COLLECTIVE | IDEAL | EPHEMERAL
| ARTIFICIAL.

Inductive Capability :=
  PERSIST | SELF_PRODUCE | FEEL | EVALUATE | REPRESENT | NORM.

Record EntityRelation := {
  rel_type : string;
  rel_targetId : string;
  rel_strength : float
}.

(** [Config(E) = { C, S, Sigma, K, R, U }]. *)
Record EntityConfiguration := {
  closure : float;
  scope : float;
  strata : StrataSet;
  capabilities : list Capability;
  relations : list EntityRelation;
  uncertainty : float
}.

Record Entity := {
  entity_id : string;
  entity_name : string;
  entity_domain : Domain;
  config : EntityConfiguration
}.

(* ================================================================== *)
(** * Gaps ([gap-analyzer.ts]) *)
(* ================================================================== *)

Inductive GapType :=
  domain_misfit | capability_missing | relation_pattern | stratum_boundary
| source_coverage | axiom_tension | clustering_anomaly.

Inductive Severity := low | medium | high | critical.

Inductive ActionType :=
  new_domain | new_capability | new_relation | new_connector | axiom_review
| manual_review.

(** The parameter bag of a suggested action, one shape per use in the
    sources. *)
Inductive ActionParameters :=
| DomainParameters (suggestedName : string) (characteristics : list string)
    (exampleEntities : list string)
| CapabilityParameters (name description : string)
    (emergentFromStratum : Stratum) (exampleEntities : list string)
| RelationParameters (name : string) (occurrences : nat)
    (examples : list string)
| ConnectorParameters (sourceName sourceUrl queryFormat : string)
| TensionParameters (closure scope : float)
| NestingParameters (currentStrata missingStrata : list Stratum)
| ReviewParameters (entities : list string).

(** Evidence of a gap. The free-text [context] is not modelled: no
    operation reads it. *)
Record GapEvidence := {
  ev_entityId : option string;
  ev_entityName : option string;
  ev_metric : string;
  ev_value : float;
  ev_threshold : float
}.

(** The free-text [description] of the action is not modelled. *)
Record SuggestedAction := {
  action_type : ActionType;
  action_parameters : ActionParameters;
  action_confidence : float
}.

(** A detected gap. The free-text [description] is not modelled. *)
Record Gap := {
  gap_id : string;
  gap_type : GapType;
  gap_severity : Severity;
  gap_evidence : list GapEvidence;
  suggestedAction : SuggestedAction;
  detectedAt : Z
}.

Module GapAnalyzer.

Record GapAnalyzerConfig := {
  confidenceThreshold : float;
  domainMinClusterSize : nat;
  domainMisfitThreshold : float;
  relationMinOccurrences : nat
}.

Definition DEFAULT_CONFIG : GapAnalyzerConfig := {|
  confidenceThreshold := 0.7;
  domainMinClusterSize := 5;
  domainMisfitThreshold := 0.4;
  relationMinOccurrences := 3
|}.

(** The table [domainCharacteristics] of [calculateDomainFitScore]. *)
Definition typicalClosure (d : Domain) : float :=
  match d with
  | INERT => 0.3 | LIVING => 0.7 | SENTIENT => 0.8 | SYMBOLIC => 0.5
  | COLLECTIVE => 0.6 | IDEAL => 0.2 | EPHEMERAL => 0.4 | ARTIFICIAL => 0.5
  end.

Definition typicalScope (d : Domain) : float :=
  match d with
  | INERT => 0.2 | LIVING => 0.4 | SENTIENT => 0.5 | SYMBOLIC => 0.7
  | COLLECTIVE => 0.8 | IDEAL => 0.9 | EPHEMERAL => 0.3 | ARTIFICIAL => 0.6
  end.

(** [calculateDomainFitScore]. Every [Domain] has an entry in the table,
    so the fallback [0.5] of the source is never taken. *)
Definition calculateDomainFitScore (entity : Entity) : float :=
  let closureDiff :=
    PrimFloat.abs (closure (config entity) - typicalClosure (entity_domain entity)) in
  let scopeDiff :=
    PrimFloat.abs (scope (config entity) - typicalScope (entity_domain entity)) in
  (1 - (closureDiff + scopeDiff) / 2)%float.

(** The test of the first loop of [analyzeDomainMisfits]. *)
Definition isMisfit (cfg : GapAnalyzerConfig) (entity : Entity) : bool :=
  PrimFloat.ltb (calculateDomainFitScore entity) (domainMisfitThreshold cfg).

(** The list [misfits] built by the first loop of
    [analyzeDomainMisfits]. *)
Definition selectMisfits (cfg : GapAnalyzerConfig) (entities : list Entity)
  : list Entity :=
  List.filter (isMisfit cfg) entities.

Definition order : list Stratum := [MATTER; LIFE; SENTIENCE; LOGOS].

Definition has (l : list Stratum) (s : Stratum) : bool :=
  existsb (Stratum_eqb s) l.

Definition getActiveStrata (entity : Entity) : list Stratum :=
  let s := strata (config entity) in
  (if strata_MATTER s then [MATTER] else [])
  ++ (if strata_LIFE s then [LIFE] else [])
  ++ (if strata_SENTIENCE s then [SENTIENCE] else [])
  ++ (if strata_LOGOS s then [LOGOS] else []).

Definition hasUnusualStratumCombination (l : list Stratum) : bool :=
  if has l LOGOS && negb (has l SENTIENCE) then true
  else if has l SENTIENCE && negb (has l LIFE) then true
  else if has l LIFE && negb (has l MATTER) then true
  else false.

(** The loop of [respectsStratalNesting] over the strata still to visit,
    with its two flags; [false] is the early [return false]. *)
Fixpoint nestingLoop (l todo : list Stratum) (foundGap sawHigher : bool) : bool :=
  match todo with
  | [] => true
  | s :: todo' =>
      if has l s then
        if foundGap then false else nestingLoop l todo' foundGap true
      else if sawHigher then nestingLoop l todo' true sawHigher
      else nestingLoop l todo' foundGap sawHigher
  end.

Definition respectsStratalNesting (l : list Stratum) : bool :=
  nestingLoop l order false false.

(** Position in [order]. *)
Definition indexOf (s : Stratum) : nat :=
  match s with MATTER => 0 | LIFE => 1 | SENTIENCE => 2 | LOGOS => 3 end%nat.

(** [getMissingStrata]: the strata of [order] up to the highest active one
    that are not active (none when no stratum is active, the maximum of
    the empty list being minus infinity). *)
Definition getMissingStrata (l : list Stratum) : list Stratum :=
  match l with
  | [] => []
  | _ =>
      let highestIdx := fold_right Nat.max 0%nat (map indexOf l) in
      List.filter (fun s => negb (has l s)) (firstn (S highestIdx) order)
  end.

(** [generateGapId], with the incremented counter. *)
Definition generateGapId (now : Z) (gapCounter : nat) : string * nat :=
  let n := S gapCounter in
  ("gap_" +:+ JS.string_of_Z now +:+ "_" +:+ JS.string_of_Z (Z.of_nat n), n).

(** The gap pushed for the closure-scope tension (A3). *)
Definition closureScopeGap (now : Z) (id : string) (entity : Entity) : Gap := {|
  gap_id := id;
  gap_type := axiom_tension;
  gap_severity := low;
  gap_evidence := [ {|
    ev_entityId := Some (entity_id entity);
    ev_entityName := Some (entity_name entity);
    ev_metric := "closure_scope_product";
    ev_value := (closure (config entity) * scope (config entity))%float;
    ev_threshold := 0.64 |} ];
  suggestedAction := {|
    action_type := manual_review;
    action_parameters :=
      TensionParameters (closure (config entity)) (scope (config entity));
    action_confidence := 0.6 |};
  detectedAt := now
|}.

(** The gap pushed for a stratal nesting violation (A4). *)
Definition nestingGap (now : Z) (id : string) (entity : Entity) : Gap :=
  let activeStrata := getActiveStrata entity in {|
  gap_id := id;
  gap_type := axiom_tension;
  gap_severity := critical;
  gap_evidence := [ {|
    ev_entityId := Some (entity_id entity);
    ev_entityName := Some (entity_name entity);
    ev_metric := "stratal_nesting";
    ev_value := 0;
    ev_threshold := 1 |} ];
  suggestedAction := {|
    action_type := axiom_review;
    action_parameters :=
      NestingParameters activeStrata (getMissingStrata activeStrata);
    action_confidence := 0.95 |};
  detectedAt := now
|}.

(** One iteration of the loop of [analyzeAxiomTensions]: the gaps pushed
    for [entity] and the counter afterwards. An IDEAL entity leaves the
    iteration at once ([continue]). *)
Definition tensionsOf (now : Z) (gapCounter : nat) (entity : Entity)
  : list Gap * nat :=
  match entity_domain entity with
  | IDEAL => ([], gapCounter)
  | _ =>
      let '(a3, c1) :=
        if JS.gt (closure (config entity)) 0.8
           && JS.gt (scope (config entity)) 0.8
        then let '(id, c) := generateGapId now gapCounter in
             ([closureScopeGap now id entity], c)
        else ([], gapCounter) in
      let '(a4, c2) :=
        if negb (respectsStratalNesting (getActiveStrata entity))
        then let '(id, c) := generateGapId now c1 in
             ([nestingGap now id entity], c)
        else ([], c1) in
      (a3 ++ a4, c2)
  end.

(** [analyzeAxiomTensions]. *)
Fixpoint analyzeAxiomTensions (now : Z) (gapCounter : nat)
    (entities : list Entity) : list Gap * nat :=
  match entities with
  | [] => ([], gapCounter)
  | entity :: rest =>
      let '(gs, c1) := tensionsOf now gapCounter entity in
      let '(gs', c2) := analyzeAxiomTensions now c1 rest in
      (gs ++ gs', c2)
  end.

(** The test of the loop of [analyzeStratumBoundaries]. *)
Definition isBoundary (entity : Entity) : bool :=
  hasUnusualStratumCombination (getActiveStrata entity).

(** The gap pushed by [analyzeStratumBoundaries]. *)
Definition boundaryGap (now : Z) (id : string) (boundaryEntities : list Entity)
  : Gap := {|
  gap_id := id;
  gap_type := stratum_boundary;
  gap_severity := if (5 <=? length boundaryEntities)%nat then medium else low;
  gap_evidence :=
    map (fun e => {|
           ev_entityId := Some (entity_id e);
           ev_entityName := Some (entity_name e);
           ev_metric := "stratum_combination";
           ev_value := 1;
           ev_threshold := 0 |})
        (firstn 5 boundaryEntities);
  suggestedAction := {|
    action_type := manual_review;
    action_parameters := ReviewParameters (map entity_name boundaryEntities);
    action_confidence := 0.5 |};
  detectedAt := now
|}.

(** [analyzeStratumBoundaries]. *)
Definition analyzeStratumBoundaries (now : Z) (gapCounter : nat)
    (entities : list Entity) : list Gap * nat :=
  let boundaryEntities := List.filter isBoundary entities in
  if (0 <? length boundaryEntities)%nat then
    let '(id, c) := generateGapId now gapCounter in
    ([boundaryGap now id boundaryEntities], c)
  else ([], gapCounter).

(** An entry of the map [relationCounts] of [analyzeRelationPatterns]. *)
Record RelationCount := {
  rc_type : string;
  rc_count : nat;
  rc_examples : list string
}.

(** The body of the counting loop: the entry of [rel.type] is created or
    updated in place; at most five examples are kept. *)
Fixpoint countRelation (relType example : string) (m : list RelationCount)
  : list RelationCount :=
  match m with
  | [] => [ {| rc_type := relType; rc_count := 1; rc_examples := [example] |} ]
  | x :: m' =>
      if String.eqb (rc_type x) relType then
        {| rc_type := relType;
           rc_count := S (rc_count x);
           rc_examples :=
             if (length (rc_examples x) <? 5)%nat
             then rc_examples x ++ [example] else rc_examples x |} :: m'
      else x :: countRelation relType example m'
  end.

(** The counting loops over the entities and their relations. *)
Definition countEntity (m : list RelationCount) (entity : Entity)
  : list RelationCount :=
  fold_left
    (fun acc rel =>
       countRelation (rel_type rel)
         (entity_name entity +:+ " → " +:+ rel_targetId rel) acc)
    (relations (config entity)) m.

Definition relationCounts (entities : list Entity) : list RelationCount :=
  fold_left countEntity entities [].

Definition knownRelations : list string :=
  ["contains"; "part_of"; "produces"; "depends_on"; "regulates";
   "is_a"; "instance_of"; "enables"; "inhibits"; "transforms"].

Definition isKnownRelation (relType : string) : bool :=
  existsb (String.eqb relType) knownRelations.

(** The gap pushed for a relation type outside the vocabulary. *)
Definition relationGap (cfg : GapAnalyzerConfig) (now : Z) (id : string)
    (data : RelationCount) : Gap := {|
  gap_id := id;
  gap_type := relation_pattern;
  gap_severity := if (10 <=? rc_count data)%nat then medium else low;
  gap_evidence :=
    map (fun _ => {|
           ev_entityId := None;
           ev_entityName := None;
           ev_metric := "relation_usage";
           ev_value := JS.of_nat (rc_count data);
           ev_threshold := JS.of_nat (relationMinOccurrences cfg) |})
        (rc_examples data);
  suggestedAction := {|
    action_type := new_relation;
    action_parameters :=
      RelationParameters (rc_type data) (rc_count data) (rc_examples data);
    action_confidence :=
      (0.6 + JS.Math_min 0.3 (JS.of_nat (rc_count data) * 0.02))%float |};
  detectedAt := now
|}.

(** The second loop of [analyzeRelationPatterns], over the entries of the
    map in insertion order. *)
Fixpoint relationGaps (cfg : GapAnalyzerConfig) (now : Z) (gapCounter : nat)
    (m : list RelationCount) : list Gap * nat :=
  match m with
  | [] => ([], gapCounter)
  | data :: m' =>
      if negb (isKnownRelation (rc_type data))
         && (relationMinOccurrences cfg <=? rc_count data)%nat
      then
        let '(id, c) := generateGapId now gapCounter in
        let '(gs, c') := relationGaps cfg now c m' in
        (relationGap cfg now id data :: gs, c')
      else relationGaps cfg now gapCounter m'
  end.

(** [analyzeRelationPatterns]. *)
Definition analyzeRelationPatterns (cfg : GapAnalyzerConfig) (now : Z)
    (gapCounter : nat) (entities : list Entity) : list Gap * nat :=
  relationGaps cfg now gapCounter (relationCounts entities).

(** The summary of an analysis; the two records of counters are functions
    of their key. *)
Record GapSummary := {
  byType : GapType -> nat;
  bySeverity : Severity -> nat;
  totalGaps : nat
}.

Definition GapType_eqb (a b : GapType) : bool :=
  match a, b with
  | domain_misfit, domain_misfit | capability_missing, capability_missing
  | relation_pattern, relation_pattern | stratum_boundary, stratum_boundary
  | source_coverage, source_coverage | axiom_tension, axiom_tension
  | clustering_anomaly, clustering_anomaly => true
  | _, _ => false
  end.

Definition Severity_eqb (a b : Severity) : bool :=
  match a, b with
  | low, low | medium, medium | high, high | critical, critical => true
  | _, _ => false
  end.

(** [byType[gap.type]++; bySeverity[gap.severity]++]. *)
Definition countGap (acc : (GapType -> nat) * (Severity -> nat)) (gap : Gap)
  : (GapType -> nat) * (Severity -> nat) :=
  (fun t => if GapType_eqb t (gap_type gap) then S (fst acc t) else fst acc t,
   fun v => if Severity_eqb v (gap_severity gap) then S (snd acc v)
            else snd acc v).

(** [buildSummary]. *)
Definition buildSummary (gaps : list Gap) : GapSummary :=
  let counters := fold_left countGap gaps (fun _ => 0%nat, fun _ => 0%nat) in
  {| byType := fst counters; bySeverity := snd counters;
     totalGaps := length gaps |}.

Section DomainMisfits.

(** The two features of a cluster are rendered with [toFixed], which is
    left open here; no operation of the analyzer reads them. *)
Variable toFixed : float -> nat -> string.

(** [suggestDomainName]. *)
Definition suggestDomainName (closure scope : float) : string :=
  if JS.gt closure 0.7 && JS.gt scope 0.7 then "AUTONOMOUS_EXTENSIVE"
  else if JS.gt closure 0.7 && PrimFloat.ltb scope 0.3 then "AUTONOMOUS_LOCAL"
  else if PrimFloat.ltb closure 0.3 && JS.gt scope 0.7
  then "DEPENDENT_EXTENSIVE"
  else if PrimFloat.ltb closure 0.3 && PrimFloat.ltb scope 0.3
  then "DEPENDENT_LOCAL"
  else "HYBRID".

(** A cluster of [clusterMisfits]. *)
Record MisfitCluster := {
  cluster_entities : list Entity;
  commonFeatures : list string;
  cluster_suggestedName : string
}.

(** The test [closureSimilar && scopeSimilar] of the inner loop. *)
Definition similar (entity other : Entity) : bool :=
  PrimFloat.ltb
    (PrimFloat.abs (closure (config entity) - closure (config other))) 0.2
  && PrimFloat.ltb
       (PrimFloat.abs (scope (config entity) - scope (config other))) 0.2.

(** The inner loop of [clusterMisfits], over the entities still to visit,
    with the cluster and the set [assigned] of ids. *)
Fixpoint gather (entity : Entity) (others : list Entity)
    (cluster : list Entity) (assigned : list string)
  : list Entity * list string :=
  match others with
  | [] => (cluster, assigned)
  | other :: rest =>
      if existsb (String.eqb (entity_id other)) assigned
      then gather entity rest cluster assigned
      else if similar entity other
      then gather entity rest (cluster ++ [other])
             (assigned ++ [entity_id other])
      else gather entity rest cluster assigned
  end.

(** [cluster.reduce((s, e) => s + f(e), 0) / cluster.length]. *)
Definition average (f : Entity -> float) (cluster : list Entity) : float :=
  (fold_left (fun s e => s + f e) cluster 0 / JS.of_nat (length cluster))%float.

(** The outer loop of [clusterMisfits]. *)
Fixpoint clusterLoop (entities todo : list Entity) (assigned : list string)
  : list MisfitCluster :=
  match todo with
  | [] => []
  | entity :: rest =>
      if existsb (String.eqb (entity_id entity)) assigned
      then clusterLoop entities rest assigned
      else
        let '(cluster, assigned') :=
          gather entity entities [entity] (assigned ++ [entity_id entity]) in
        (if (2 <=? length cluster)%nat then
           let avgClosure := average (fun e => closure (config e)) cluster in
           let avgScope := average (fun e => scope (config e)) cluster in
           [ {| cluster_entities := cluster;
                commonFeatures :=
                  ["closure ~" +:+ toFixed avgClosure 2;
                   "scope ~" +:+ toFixed avgScope 2];
                cluster_suggestedName := suggestDomainName avgClosure avgScope |} ]
         else [])
        ++ clusterLoop entities rest assigned'
  end.

(** [clusterMisfits]. *)
Definition clusterMisfits (entities : list Entity) : list MisfitCluster :=
  clusterLoop entities entities [].

(** The evidence and the gap pushed for a cluster of misfits. *)
Definition misfitEvidence (cfg : GapAnalyzerConfig) (e : Entity)
  : GapEvidence := {|
  ev_entityId := Some (entity_id e);
  ev_entityName := Some (entity_name e);
  ev_metric := "domain_fit_score";
  ev_value := calculateDomainFitScore e;
  ev_threshold := domainMisfitThreshold cfg
|}.

Definition misfitGap (cfg : GapAnalyzerConfig) (now : Z) (id : string)
    (cluster : MisfitCluster) : Gap := {|
  gap_id := id;
  gap_type := domain_misfit;
  gap_severity :=
    if (10 <=? length (cluster_entities cluster))%nat then high else medium;
  gap_evidence := map (misfitEvidence cfg) (cluster_entities cluster);
  suggestedAction := {|
    action_type := new_domain;
    action_parameters :=
      DomainParameters (cluster_suggestedName cluster)
        (commonFeatures cluster)
        (map entity_name (firstn 5 (cluster_entities cluster)));
    action_confidence :=
      JS.Math_min 0.9
        (0.5 + JS.of_nat (length (cluster_entities cluster)) * 0.05)%float |};
  detectedAt := now
|}.

(** The loop of [analyzeDomainMisfits] over the clusters. *)
Fixpoint misfitGaps (cfg : GapAnalyzerConfig) (now : Z) (gapCounter : nat)
    (clusters : list MisfitCluster) : list Gap * nat :=
  match clusters with
  | [] => ([], gapCounter)
  | cluster :: rest =>
      if (domainMinClusterSize cfg <=? length (cluster_entities cluster))%nat
      then
        let '(id, c) := generateGapId now gapCounter in
        let '(gs, c') := misfitGaps cfg now c rest in
        (misfitGap cfg now id cluster :: gs, c')
      else misfitGaps cfg now gapCounter rest
  end.

(** [analyzeDomainMisfits]. *)
Definition analyzeDomainMisfits (cfg : GapAnalyzerConfig) (now : Z)
    (gapCounter : nat) (entities : list Entity) : list Gap * nat :=
  let misfits := selectMisfits cfg entities in
  if (domainMinClusterSize cfg <=? length misfits)%nat
  then misfitGaps cfg now gapCounter (clusterMisfits misfits)
  else ([], gapCounter).

End DomainMisfits.

End GapAnalyzer.

(* ================================================================== *)
(** * Generated artifacts ([code-generator.ts]) *)
(* ================================================================== *)

Inductive GenerationType :=
  domain | capability | relation | connector | extractor | protocol.

Definition GenerationType_eqb (a b : GenerationType) : bool :=
  match a, b with
  | domain, domain | capability, capability | relation, relation
  | connector, connector | extractor, extractor | protocol, protocol => true
  | _, _ => false
  end.

(** Where to insert the generated code. *)
Record InsertionPoint := {
  ins_file : string;
  ins_after : option string;
  ins_before : option string;
  ins_replace : option string;
  ins_append : option bool
}.

Inductive JustificationStatus := respected | not_applicable | needs_review.

Record JustifiedAxiom := {
  just_id : string;
  just_status : JustificationStatus;
  just_explanation : string
}.

Record AxiomJustification := {
  just_axioms : list JustifiedAxiom;
  overallCompliance : float
}.

Record GeneratedCode := {
  gen_id : string;
  gen_type : GenerationType;
  gen_name : string;
  gen_description : string;
  code : string;
  targetFile : string;
  insertionPoint : InsertionPoint;
  dependencies : list string;
  axiomJustification : AxiomJustification;
  generatedAt : Z;
  gen_sourceGap : Gap
}.

Module CodeGenerator.

(** The inference helpers of the domain builder. The builders themselves
    render these values into TypeScript source text and are not
    modelled. *)

(** One step of the keyword loop shared by [inferTypicalClosure] and
    [inferTypicalScope]. *)
Definition keywordStep (up down : list string) (score : float) (char : string)
  : float :=
  let lower := JS.toLowerCase char in
  let score1 :=
    if existsb (fun k => JS.includes lower k) up then (score + 0.1)%float
    else score in
  if existsb (fun k => JS.includes lower k) down then (score1 - 0.1)%float
  else score1.

Definition inferTypicalClosure (characteristics : list string) : float :=
  let closureKeywords := ["autonomous"; "independent"; "self-"; "closed"] in
  let openKeywords := ["dependent"; "open"; "connected"; "reliant"] in
  let score :=
    fold_left (keywordStep closureKeywords openKeywords) characteristics
      0.5%float in
  JS.Math_max 0.1 (JS.Math_min 0.9 score).

Definition inferTypicalScope (characteristics : list string) : float :=
  let broadKeywords := ["universal"; "global"; "extensive"; "wide"] in
  let narrowKeywords := ["local"; "specific"; "limited"; "narrow"] in
  let score :=
    fold_left (keywordStep broadKeywords narrowKeywords) characteristics
      0.5%float in
  JS.Math_max 0.1 (JS.Math_min 0.9 score).

Definition inferCompatibleStrata (characteristics : list string)
  : list Stratum :=
  let charString := JS.toLowerCase (JS.join " " characteristics) in
  let strata0 := [MATTER] in
  let strata1 :=
    if JS.includes charString "living" || JS.includes charString "biological"
       || JS.includes charString "metabol"
    then strata0 ++ [LIFE] else strata0 in
  let strata2 :=
    if JS.includes charString "sentient" || JS.includes charString "conscious"
       || JS.includes charString "feel"
    then strata1 ++ [LIFE; SENTIENCE] else strata1 in
  let strata3 :=
    if JS.includes charString "symbolic" || JS.includes charString "language"
       || JS.includes charString "norm"
    then strata2 ++ [LIFE; SENTIENCE; LOGOS] else strata2 in
  JS.uniq Stratum_eqb strata3.

Definition inferRequiredCapabilities (emergentFrom : Stratum) : list string :=
  match emergentFrom with
  | MATTER => []
  | LIFE => ["PERSIST"]
  | SENTIENCE => ["PERSIST"; "SELF_PRODUCE"]
  | LOGOS => ["PERSIST"; "SELF_PRODUCE"; "FEEL"; "EVALUATE"]
  end.

(** The self-assessments the generator attaches to what it builds. *)
Definition justifyDomain (name : string) (characteristics : list string)
  : AxiomJustification := {|
  just_axioms := [
    {| just_id := "A1"; just_status := respected;
       just_explanation :=
         "Domain " +:+ name
         +:+ " defines a class of entities that maintain themselves and make differences" |};
    {| just_id := "A2"; just_status := respected;
       just_explanation :=
         "Domain provides typical Config values for contained entities" |};
    {| just_id := "A3"; just_status := needs_review;
       just_explanation :=
         "Closure-Scope trade-off should be verified for domain members" |};
    {| just_id := "A4"; just_status := not_applicable;
       just_explanation :=
         "Stratal nesting is entity-level, not domain-level" |};
    {| just_id := "A5"; just_status := not_applicable;
       just_explanation :=
         "Capability emergence is entity-level, not domain-level" |};
    {| just_id := "A6"; just_status := respected;
       just_explanation :=
         "Domain is characterizable through the six geometries" |};
    {| just_id := "A7"; just_status := respected;
       just_explanation :=
         "Domain definition acknowledges observer perspective" |};
    {| just_id := "A8"; just_status := respected;
       just_explanation :=
         "Domain boundaries are pragmatically drawn based on characteristics" |};
    {| just_id := "A9"; just_status := not_applicable;
       just_explanation := "Temporal identity is entity-level" |};
    {| just_id := "A10"; just_status := needs_review;
       just_explanation :=
         "Verify domain is minimal necessary categorization" |}
  ];
  overallCompliance := 0.85
|}.

Definition justifyCapability (name : string) (emergentFrom : Stratum)
  : AxiomJustification :=
  let stratumIndex := Z.of_nat (GapAnalyzer.indexOf emergentFrom) in {|
  just_axioms := [
    {| just_id := "A1"; just_status := not_applicable;
       just_explanation :=
         "Capabilities are properties of entities, not entities themselves" |};
    {| just_id := "A2"; just_status := respected;
       just_explanation := "Capability will be part of K in Config(E)" |};
    {| just_id := "A3"; just_status := not_applicable;
       just_explanation := "Capabilities do not have closure/scope" |};
    {| just_id := "A4"; just_status := not_applicable;
       just_explanation := "Capabilities belong to strata, not vice versa" |};
    {| just_id := "A5";
       just_status := if 0 <=? stratumIndex then respected else needs_review;
       just_explanation :=
         "Capability " +:+ name +:+ " emerges from "
         +:+ Stratum_name emergentFrom +:+ " stratum (A5 compliance)" |};
    {| just_id := "A6"; just_status := not_applicable;
       just_explanation :=
         "Capabilities are not directly characterized by geometries" |};
    {| just_id := "A7"; just_status := respected;
       just_explanation :=
         "Capability definition acknowledges observer-dependent detection" |};
    {| just_id := "A8"; just_status := not_applicable;
       just_explanation := "Capabilities are not boundary-based" |};
    {| just_id := "A9"; just_status := not_applicable;
       just_explanation := "Capabilities do not have temporal identity" |};
    {| just_id := "A10"; just_status := needs_review;
       just_explanation :=
         "Verify capability is not reducible to existing capabilities" |}
  ];
  overallCompliance := if 0 <=? stratumIndex then 0.9 else 0.5
|}.

Definition justifyRelation (name : string) : AxiomJustification := {|
  just_axioms := [
    {| just_id := "A1"; just_status := not_applicable;
       just_explanation :=
         "Relations connect entities, are not entities themselves" |};
    {| just_id := "A2"; just_status := respected;
       just_explanation := "Relations are part of R in Config(E)" |};
    {| just_id := "A3"; just_status := not_applicable;
       just_explanation := "Relations do not have closure/scope directly" |};
    {| just_id := "A4"; just_status := not_applicable;
       just_explanation := "Relations are not stratified" |};
    {| just_id := "A5"; just_status := not_applicable;
       just_explanation := "Relations are not capabilities" |};
    {| just_id := "A6"; just_status := respected;
       just_explanation := "Relation maps to Connection geometry" |};
    {| just_id := "A7"; just_status := respected;
       just_explanation := "Relation detection depends on observer" |};
    {| just_id := "A8"; just_status := respected;
       just_explanation := "Relation boundaries are pragmatically defined" |};
    {| just_id := "A9"; just_status := not_applicable;
       just_explanation := "Relations do not have temporal identity" |};
    {| just_id := "A10"; just_status := needs_review;
       just_explanation :=
         "Verify relation is not reducible to existing relations" |}
  ];
  overallCompliance := 0.85
|}.

Definition justifyConnector (name : string) : AxiomJustification := {|
  just_axioms := [
    {| just_id := "A1"; just_status := not_applicable;
       just_explanation := "Connectors are tools, not characterized entities" |};
    {| just_id := "A2"; just_status := not_applicable;
       just_explanation := "Connectors do not have Config" |};
    {| just_id := "A3"; just_status := not_applicable;
       just_explanation := "Connectors do not have closure/scope" |};
    {| just_id := "A4"; just_status := not_applicable;
       just_explanation := "Connectors are infrastructure" |};
    {| just_id := "A5"; just_status := not_applicable;
       just_explanation := "Connectors do not have capabilities" |};
    {| just_id := "A6"; just_status := not_applicable;
       just_explanation := "Connectors are not characterized by geometries" |};
    {| just_id := "A7"; just_status := not_applicable;
       just_explanation := "Connectors are implementation detail" |};
    {| just_id := "A8"; just_status := not_applicable;
       just_explanation := "Connectors do not have boundaries in ECF sense" |};
    {| just_id := "A9"; just_status := not_applicable;
       just_explanation := "Connectors do not have entity identity" |};
    {| just_id := "A10"; just_status := not_applicable;
       just_explanation := "Connectors are not entity characterizations" |}
  ];
  overallCompliance := 1.0
|}.

End CodeGenerator.

(* ================================================================== *)
(** * AXIS validator ([axis-validator.ts]) *)
(* ================================================================== *)

Record AxisAxiom := {
  axiom_id : string;
  axiom_name : string;
  statement : string;
  checkable : bool;
  criticalFor : list GenerationType
}.

Inductive ViolationSeverity := sev_error | sev_fatal.

Record AxiomViolation := {
  viol_axiomId : string;
  viol_axiomName : string;
  viol_description : string;
  viol_severity : ViolationSeverity;
  viol_suggestedFix : option string
}.

Record AxiomWarning := {
  warn_axiomId : string;
  warn_axiomName : string;
  warn_description : string;
  requiresReview : bool
}.

Record ValidationResult := {
  valid : bool;
  score : float;
  violations : list AxiomViolation;
  warnings : list AxiomWarning;
  passed : list string;
  requiresHumanReview : bool;
  reviewReasons : list string
}.

(** What [checkAxiom] returns. *)
Record CheckResult := {
  violated : bool;
  warning : bool;
  reason : string;
  fatal : bool;
  check_requiresReview : bool;
  suggestedFix : option string
}.

Module AxisValidator.

Definition AXIOMS : list AxisAxiom := [
  {| axiom_id := "A1"; axiom_name := "Entity Axiom";
     statement := "An entity is a difference that maintains itself and makes a difference.";
     checkable := false; criticalFor := [domain] |};
  {| axiom_id := "A2"; axiom_name := "Configuration Axiom";
     statement := "Every entity E has a configuration Config(E) = { C, S, Σ, K, R, U }";
     checkable := true; criticalFor := [domain; capability] |};
  {| axiom_id := "A3"; axiom_name := "Closure-Scope Trade-off";
     statement := "High Closure (C) and high Scope (S) create tension.";
     checkable := true; criticalFor := [domain] |};
  {| axiom_id := "A4"; axiom_name := "Stratal Nesting";
     statement := "Higher strata presuppose and include lower strata: LOGOS ⊃ SENTIENCE ⊃ LIFE ⊃ MATTER";
     checkable := true; criticalFor := [capability; domain] |};
  {| axiom_id := "A5"; axiom_name := "Capability Emergence";
     statement := "Each stratum enables new capabilities. Capabilities are cumulative.";
     checkable := true; criticalFor := [capability] |};
  {| axiom_id := "A6"; axiom_name := "Geometric Completeness";
     statement := "Any entity can be fully characterized through the six geometries.";
     checkable := false; criticalFor := [] |};
  {| axiom_id := "A7"; axiom_name := "Observer Entanglement";
     statement := "Characterization depends on observer perspective.";
     checkable := false; criticalFor := [] |};
  {| axiom_id := "A8"; axiom_name := "Boundary Constructivism";
     statement := "Boundaries are drawn, not found.";
     checkable := false; criticalFor := [domain] |};
  {| axiom_id := "A9"; axiom_name := "Temporal Identity";
     statement := "Entity identity persists through change via continuity of organization.";
     checkable := false; criticalFor := [] |};
  {| axiom_id := "A10"; axiom_name := "Minimal Characterization";
     statement := "Prefer simpler characterizations over complex ones.";
     checkable := true; criticalFor := [domain; capability; relation] |}
].

(** The axioms [validate] checks for a generation type: those critical
    for it and those critical for nothing in particular. *)
Definition relevantAxioms (generated : GeneratedCode) : list AxisAxiom :=
  List.filter
    (fun a => existsb (GenerationType_eqb (gen_type generated)) (criticalFor a)
              || (length (criticalFor a) =? 0)%nat)
    AXIOMS.

(** The accumulators of the loop of [validate]. *)
Record Acc := {
  acc_violations : list AxiomViolation;
  acc_warnings : list AxiomWarning;
  acc_passed : list string;
  acc_reviewReasons : list string
}.

Section Validate.

(** The five rule-specific checks match regular expressions against the
    rendered code and format numbers into their messages; [validate]
    only reads the record they return, so they are left open here, as
    is the number formatting [toFixed]. *)
Variable checkA2Configuration : GeneratedCode -> CheckResult.
Variable checkA3ClosureScope : GeneratedCode -> CheckResult.
Variable checkA4StratalNesting : GeneratedCode -> CheckResult.
Variable checkA5CapabilityEmergence : GeneratedCode -> CheckResult.
Variable checkA10MinimalCharacterization : GeneratedCode -> CheckResult.
Variable toFixed : float -> nat -> string.

Definition checkAxiom (axiom : AxisAxiom) (generated : GeneratedCode)
  : CheckResult :=
  if String.eqb (axiom_id axiom) "A2" then checkA2Configuration generated
  else if String.eqb (axiom_id axiom) "A3" then checkA3ClosureScope generated
  else if String.eqb (axiom_id axiom) "A4" then checkA4StratalNesting generated
  else if String.eqb (axiom_id axiom) "A5"
  then checkA5CapabilityEmergence generated
  else if String.eqb (axiom_id axiom) "A10"
  then checkA10MinimalCharacterization generated
  else {|
    violated := false;
    warning := negb (checkable axiom);
    reason := if checkable axiom then "Passed"
              else axiom_name axiom +:+ " requires human judgment";
    fatal := false;
    check_requiresReview :=
      negb (checkable axiom)
      && existsb (GenerationType_eqb (gen_type generated)) (criticalFor axiom);
    suggestedFix := None
  |}.

(** One iteration of the loop of [validate]. *)
Definition checkStep (generated : GeneratedCode) (acc : Acc) (axiom : AxisAxiom)
  : Acc :=
  let result := checkAxiom axiom generated in
  if violated result then
    {| acc_violations := acc_violations acc ++ [ {|
         viol_axiomId := axiom_id axiom;
         viol_axiomName := axiom_name axiom;
         viol_description := reason result;
         viol_severity := if fatal result then sev_fatal else sev_error;
         viol_suggestedFix := suggestedFix result |} ];
       acc_warnings := acc_warnings acc;
       acc_passed := acc_passed acc;
       acc_reviewReasons := acc_reviewReasons acc |}
  else if warning result then
    {| acc_violations := acc_violations acc;
       acc_warnings := acc_warnings acc ++ [ {|
         warn_axiomId := axiom_id axiom;
         warn_axiomName := axiom_name axiom;
         warn_description := reason result;
         requiresReview := check_requiresReview result |} ];
       acc_passed := acc_passed acc;
       acc_reviewReasons :=
         if check_requiresReview result
         then acc_reviewReasons acc
              ++ [axiom_id axiom +:+ ": " +:+ reason result]
         else acc_reviewReasons acc |}
  else
    {| acc_violations := acc_violations acc;
       acc_warnings := acc_warnings acc;
       acc_passed := acc_passed acc ++ [axiom_id axiom];
       acc_reviewReasons := acc_reviewReasons acc |}.

Definition validateJustification (justification : AxiomJustification)
  : list AxiomWarning :=
  (if PrimFloat.ltb (overallCompliance justification) 0.7
   then [ {| warn_axiomId := "META";
             warn_axiomName := "Self-Assessment";
             warn_description :=
               "Generator's self-assessed compliance is low ("
               +:+ toFixed (overallCompliance justification) 2
               +:+ "). Extra scrutiny recommended.";
             requiresReview := true |} ]
   else [])
  ++ map (fun item => {|
            warn_axiomId := just_id item;
            warn_axiomName := "Self-flagged: " +:+ just_id item;
            warn_description := just_explanation item;
            requiresReview := true |})
       (List.filter
          (fun a => match just_status a with needs_review => true | _ => false end)
          (just_axioms justification)).

Definition validate (generated : GeneratedCode) : ValidationResult :=
  let relevant := relevantAxioms generated in
  let acc :=
    fold_left (checkStep generated) relevant
      {| acc_violations := []; acc_warnings := []; acc_passed := [];
         acc_reviewReasons := [] |} in
  let warnings :=
    acc_warnings acc
    ++ validateJustification (axiomJustification generated) in
  let totalChecks := length relevant in
  let passedChecks := length (acc_passed acc) in
  let warningPenalty :=
    (JS.of_nat (length (List.filter requiresReview warnings)) * 0.1)%float in
  let score :=
    JS.Math_max 0
      (JS.of_nat passedChecks / JS.of_nat totalChecks - warningPenalty)%float in
  {| valid := (length (acc_violations acc) =? 0)%nat;
     score := score;
     violations := acc_violations acc;
     warnings := warnings;
     passed := acc_passed acc;
     requiresHumanReview :=
       (0 <? length (acc_reviewReasons acc))%nat
       || existsb
            (fun v => match viol_severity v with
                      | sev_error => true | sev_fatal => false end)
            (acc_violations acc);
     reviewReasons := acc_reviewReasons acc |}.

End Validate.

End AxisValidator.

(* ================================================================== *)
(** * Methods that may throw *)
(* ================================================================== *)

(** The errors thrown by the sources, one constructor per message. *)
Inductive Error :=
| ReviewItemNotFound (id : string)   (* Review item <id> not found *)
| ItemNotPending (id : string)       (* Item <id> is not pending *)
| ItemNotApproved (id : string)      (* Item <id> is not approved *)
| IntegrationNotFound (id : string)  (* Integration <id> not found *)
| CannotRollback (id : string)       (* Integration <id> cannot be rolled back *)
| ENOENT (path : string).            (* the file system: no such file *)

(** A computation over a mutable state [S]: the state it leaves, and either
    the error it threw or its result. *)
Definition M (S A : Type) : Type := S -> (Error + A) * S.

Definition ret {S A} (a : A) : M S A := fun s => (inr a, s).

Definition throw {S A} (e : Error) : M S A := fun s => (inl e, s).

Definition bind {S A B} (m : M S A) (k : A -> M S B) : M S B :=
  fun s =>
    match m s with
    | (inr a, s') => k a s'
    | (inl e, s') => (inl e, s')
    end.

Definition get_state {S} : M S S := fun s => (inr s, s).

Definition put_state {S} (s : S) : M S unit := fun _ => (inr tt, s).

(** [try { m } catch (error) { handler(error) }]. *)
Definition try_catch {S A} (m : M S A) (handler : Error -> M S A) : M S A :=
  fun s =>
    match m s with
    | (inr a, s') => (inr a, s')
    | (inl e, s') => handler e s'
    end.

Declare Scope m_scope.
Delimit Scope m_scope with M.
Notation "x <- m ;; k" := (bind m (fun x => k))
  (at level 100, m at next level, right associativity) : m_scope.
Notation "m ;;; k" := (bind m (fun _ => k))
  (at level 100, right associativity) : m_scope.

(* ================================================================== *)
(** * Review queue ([review-queue.ts]) *)
(* ================================================================== *)

Inductive ReviewStatus := pending | approved | rejected | modified | expired.

Definition ReviewStatus_eqb (a b : ReviewStatus) : bool :=
  match a, b with
  | pending, pending | approved, approved | rejected, rejected
  | modified, modified | expired, expired => true
  | _, _ => false
  end.

(** The [type] of a review item; the third is ['axiom_tension'] in the
    source. *)
Inductive ReviewType := code_generation | gap_detection | axiom_tension_review.

Inductive Decision := decision_approve | decision_reject | decision_modify.

Record ReviewFeedback := {
  decision : Decision;
  fb_reason : string;
  modifications : option string;
  notes : option string
}.

Record ReviewItem := {
  item_id : string;
  item_type : ReviewType;
  status : ReviewStatus;
  sourceGap : Gap;
  generatedCode : option GeneratedCode;
  validation : option ValidationResult;
  createdAt : Z;
  updatedAt : Z;
  expiresAt : Z;
  reviewer : option string;
  reviewedAt : option Z;
  feedback : option ReviewFeedback;
  priority : Severity
}.

Module ReviewQueue.

Record ReviewQueueConfig := {
  expirationTime : Z;
  maxPending : Z;
  lowPriorityTimeout : Z
}.

Definition DEFAULT_CONFIG : ReviewQueueConfig := {|
  expirationTime := 7 * 24 * 60 * 60 * 1000;
  maxPending := 100;
  lowPriorityTimeout := 30 * 24 * 60 * 60 * 1000
|}.

(** The fields of a [ReviewQueue] object. [items] is the
    [Map<string, ReviewItem>], in insertion order; every item is stored
    under its own [id]. *)
Record Queue := {
  queue_config : ReviewQueueConfig;
  items : list ReviewItem;
  itemCounter : nat
}.

(** [new ReviewQueue(config)]. *)
Definition new (cfg : ReviewQueueConfig) : Queue :=
  {| queue_config := cfg; items := []; itemCounter := 0 |}.

(** [items.get(id)]. *)
Definition Map_get (id : string) (l : list ReviewItem) : option ReviewItem :=
  List.find (fun item => String.eqb (item_id item) id) l.

(** [items.set(item.id, item)]: an existing key keeps its position. *)
Fixpoint Map_set (item : ReviewItem) (l : list ReviewItem) : list ReviewItem :=
  match l with
  | [] => [item]
  | x :: l' =>
      if String.eqb (item_id x) (item_id item) then item :: l'
      else x :: Map_set item l'
  end.

(** [items.delete(id)]. *)
Fixpoint Map_delete (id : string) (l : list ReviewItem) : list ReviewItem :=
  match l with
  | [] => []
  | x :: l' =>
      if String.eqb (item_id x) id then l' else x :: Map_delete id l'
  end.

Definition with_items (q : Queue) (l : list ReviewItem) : Queue :=
  {| queue_config := queue_config q; items := l;
     itemCounter := itemCounter q |}.

(** [item.status = 'expired'; item.updatedAt = new Date()]. *)
Definition expire (now : Z) (item : ReviewItem) : ReviewItem := {|
  item_id := item_id item; item_type := item_type item;
  status := expired;
  sourceGap := sourceGap item; generatedCode := generatedCode item;
  validation := validation item;
  createdAt := createdAt item; updatedAt := now;
  expiresAt := expiresAt item;
  reviewer := reviewer item; reviewedAt := reviewedAt item;
  feedback := feedback item; priority := priority item
|}.

(** The assignments shared by [approve], [reject] and
    [modifyAndApprove]. *)
Definition review (now : Z) (item : ReviewItem) (st : ReviewStatus)
    (who : string) (fb : ReviewFeedback) (gen : option GeneratedCode)
  : ReviewItem := {|
  item_id := item_id item; item_type := item_type item;
  status := st;
  sourceGap := sourceGap item; generatedCode := gen;
  validation := validation item;
  createdAt := createdAt item; updatedAt := now;
  expiresAt := expiresAt item;
  reviewer := Some who; reviewedAt := Some now;
  feedback := Some fb; priority := priority item
|}.

(** [generateId], with the incremented counter. *)
Definition generateId (now : Z) : M Queue string :=
  fun q =>
    let n := S (itemCounter q) in
    (inr ("review_" +:+ JS.string_of_Z now +:+ "_"
          +:+ JS.string_of_Z (Z.of_nat n)),
     {| queue_config := queue_config q; items := items q;
        itemCounter := n |}).

Definition determinePriority (gap : Gap) (validation : ValidationResult)
  : Severity :=
  match gap_type gap with
  | axiom_tension => critical
  | _ =>
      if (0 <? length (violations validation))%nat then high
      else match gap_severity gap with
           | critical => critical
           | high => high
           | medium => medium
           | low => low
           end
  end.

(** The body of the loop of [expireOldItems]. *)
Definition expireIfOld (now : Z) (item : ReviewItem) : ReviewItem :=
  if ReviewStatus_eqb (status item) pending && (expiresAt item <? now)
  then expire now item else item.

(** [expireOldItems]. *)
Definition expireOldItems (now : Z) : M Queue unit :=
  fun q => (inr tt, with_items q (map (expireIfOld now) (items q))).

Definition priorityOrder (p : Severity) : Z :=
  match p with critical => 0 | high => 1 | medium => 2 | low => 3 end.

(** The comparison function of [listPending]. *)
Definition comparePending (a b : ReviewItem) : Z :=
  let priorityDiff := priorityOrder (priority a) - priorityOrder (priority b) in
  if negb (priorityDiff =? 0) then priorityDiff
  else createdAt a - createdAt b.

Definition isPending (item : ReviewItem) : bool :=
  ReviewStatus_eqb (status item) pending.

(** [listPending]. *)
Definition listPending (now : Z) : M Queue (list ReviewItem) :=
  (expireOldItems now ;;;
   q <- get_state ;;
   ret (JS.sort comparePending (List.filter isPending (items q))))%M.

Definition isLow (item : ReviewItem) : bool :=
  match priority item with low => true | _ => false end.

Definition compareCreated (a b : ReviewItem) : Z := createdAt a - createdAt b.

(** The loop of [enforceMaxPending] over the low-priority items, oldest
    first, with the number of items still to remove. *)
Fixpoint expireLoop (now : Z) (lowPriority : list ReviewItem) (toRemove : Z)
    (l : list ReviewItem) : list ReviewItem :=
  match lowPriority with
  | [] => l
  | item :: rest =>
      if toRemove <=? 0 then l
      else expireLoop now rest (toRemove - 1) (Map_set (expire now item) l)
  end.

(** [enforceMaxPending]. *)
Definition enforceMaxPending (now : Z) : M Queue unit :=
  (pendingItems <- listPending now ;;
   q <- get_state ;;
   if maxPending (queue_config q) <? Z.of_nat (length pendingItems) then
     let lowPriority :=
       JS.sort compareCreated (List.filter isLow pendingItems) in
     let toRemove :=
       Z.of_nat (length pendingItems) - maxPending (queue_config q) in
     put_state (with_items q (expireLoop now lowPriority toRemove (items q)))
   else ret tt)%M.

(** [items.set(item.id, item)] as a step of a method. *)
Definition store (item : ReviewItem) : M Queue unit :=
  fun q => (inr tt, with_items q (Map_set item (items q))).

(** The object [item] as it is when the method returns it: later steps of
    the method may have changed the stored object it refers to. *)
Definition current (item : ReviewItem) : M Queue ReviewItem :=
  fun q =>
    (inr (match Map_get (item_id item) (items q) with
          | Some stored => stored
          | None => item
          end), q).

Definition newItem (id : string) (ty : ReviewType) (gap : Gap)
    (gen : option GeneratedCode) (val : option ValidationResult)
    (now expiration : Z) (prio : Severity) : ReviewItem := {|
  item_id := id; item_type := ty; status := pending;
  sourceGap := gap; generatedCode := gen; validation := val;
  createdAt := now; updatedAt := now; expiresAt := now + expiration;
  reviewer := None; reviewedAt := None; feedback := None;
  priority := prio
|}.

(** [addCodeReview]. *)
Definition addCodeReview (gap : Gap) (generated : GeneratedCode)
    (val : ValidationResult) (now : Z) : M Queue ReviewItem :=
  (let prio := determinePriority gap val in
   id <- generateId now ;;
   q <- get_state ;;
   let item :=
     newItem id code_generation gap (Some generated) (Some val) now
       (expirationTime (queue_config q)) prio in
   store item ;;;
   enforceMaxPending now ;;;
   current item)%M.

(** [addGapReview]. *)
Definition addGapReview (gap : Gap) (now : Z) : M Queue ReviewItem :=
  (id <- generateId now ;;
   q <- get_state ;;
   let item :=
     newItem id gap_detection gap None None now
       (expirationTime (queue_config q))
       (match gap_severity gap with
        | critical => critical
        | high => high
        | _ => medium
        end) in
   store item ;;;
   enforceMaxPending now ;;;
   current item)%M.

(** [addAxiomReview]. *)
Definition addAxiomReview (gap : Gap) (now : Z) : M Queue ReviewItem :=
  (id <- generateId now ;;
   q <- get_state ;;
   let item :=
     newItem id axiom_tension_review gap None None now
       (expirationTime (queue_config q))
       (match gap_severity gap with
        | critical => critical
        | _ => high
        end) in
   store item ;;;
   ret item)%M.

(** [get]. *)
Definition get (id : string) (q : Queue) : option ReviewItem :=
  Map_get id (items q).

(** The two guards that open [approve], [reject] and
    [modifyAndApprove]. *)
Definition pendingItem (id : string) : M Queue ReviewItem :=
  fun q =>
    match Map_get id (items q) with
    | None => (inl (ReviewItemNotFound id), q)
    | Some item =>
        if negb (ReviewStatus_eqb (status item) pending)
        then (inl (ItemNotPending id), q)
        else (inr item, q)
    end.

(** [approve]. *)
Definition approve (id reviewer : string) (notes : option string) (now : Z)
  : M Queue ReviewItem :=
  (item <- pendingItem id ;;
   let item' :=
     review now item approved reviewer
       {| decision := decision_approve;
          fb_reason := JS.or_default notes "Approved without notes";
          modifications := None; notes := None |}
       (generatedCode item) in
   store item' ;;;
   ret item')%M.

(** [reject]. *)
Definition reject (id reviewer reason : string) (now : Z)
  : M Queue ReviewItem :=
  (item <- pendingItem id ;;
   let item' :=
     review now item rejected reviewer
       {| decision := decision_reject; fb_reason := reason;
          modifications := None; notes := None |}
       (generatedCode item) in
   store item' ;;;
   ret item')%M.

(** [generatedCode.code = modifications]. *)
Definition with_code (generated : GeneratedCode) (newCode : string)
  : GeneratedCode := {|
  gen_id := gen_id generated; gen_type := gen_type generated;
  gen_name := gen_name generated;
  gen_description := gen_description generated;
  code := newCode;
  targetFile := targetFile generated;
  insertionPoint := insertionPoint generated;
  dependencies := dependencies generated;
  axiomJustification := axiomJustification generated;
  generatedAt := generatedAt generated;
  gen_sourceGap := gen_sourceGap generated
|}.

(** [modifyAndApprove]. *)
Definition modifyAndApprove (id reviewer mods : string)
    (notes : option string) (now : Z) : M Queue ReviewItem :=
  (item <- pendingItem id ;;
   let item' :=
     review now item modified reviewer
       {| decision := decision_modify;
          fb_reason := JS.or_default notes "Modified before approval";
          modifications := Some mods; notes := None |}
       (match generatedCode item with
        | Some generated => Some (with_code generated mods)
        | None => None
        end) in
   store item' ;;;
   ret item')%M.


(** [markIntegrated]. *)
Definition markIntegrated (id : string) : M Queue unit :=
  fun q => (inr tt, with_items q (Map_delete id (items q))).

(** The comparison function of [listAll]. *)
Definition compareNewest (a b : ReviewItem) : Z := createdAt b - createdAt a.

(** [listAll]: the old items are not swept here. *)
Definition listAll (q : Queue) : list ReviewItem :=
  JS.sort compareNewest (items q).

(** What [getStats] returns; the counters carry the name of their
    status. *)
Record QueueStats := {
  stats_pending : nat;
  stats_approved : nat;
  stats_rejected : nat;
  stats_modified : nat;
  stats_expired : nat;
  avgReviewTimeMs : float;
  oldestPendingAge : float
}.

Definition hasStatus (st : ReviewStatus) (item : ReviewItem) : bool :=
  ReviewStatus_eqb (status item) st.

(** The callbacks of the two [reduce] calls of [getStats]; the times are
    subtracted and added as numbers. *)
Definition addReviewTime (sum : float) (item : ReviewItem) : float :=
  match reviewedAt item with
  | Some t => (sum + (JS.of_Z t - JS.of_Z (createdAt item)))%float
  | None => sum
  end.

Definition older (oldest item : ReviewItem) : ReviewItem :=
  if createdAt item <? createdAt oldest then item else oldest.

(** [getStats]; [oldestPendingAge] is the difference of two numbers,
    rounded as such. *)
Definition getStats (now : Z) : M Queue QueueStats :=
  (expireOldItems now ;;;
   q <- get_state ;;
   let pendingItems := List.filter (hasStatus pending) (items q) in
   let approvedItems := List.filter (hasStatus approved) (items q) in
   let rejectedItems := List.filter (hasStatus rejected) (items q) in
   let modifiedItems := List.filter (hasStatus modified) (items q) in
   let expiredItems := List.filter (hasStatus expired) (items q) in
   let reviewed := approvedItems ++ rejectedItems ++ modifiedItems in
   let avg :=
     if (0 <? length reviewed)%nat then
       (fold_left addReviewTime reviewed 0 / JS.of_nat (length reviewed))%float
     else 0%float in
   let oldestAge :=
     match pendingItems with
     | [] => 0%float
     | first :: rest =>
         (JS.of_Z now - JS.of_Z (createdAt (fold_left older rest first)))%float
     end in
   ret {| stats_pending := length pendingItems;
          stats_approved := length approvedItems;
          stats_rejected := length rejectedItems;
          stats_modified := length modifiedItems;
          stats_expired := length expiredItems;
          avgReviewTimeMs := avg;
          oldestPendingAge := oldestAge |})%M.

Definition ReviewType_eqb (a b : ReviewType) : bool :=
  match a, b with
  | code_generation, code_generation | gap_detection, gap_detection
  | axiom_tension_review, axiom_tension_review => true
  | _, _ => false
  end.

(** [getByType]. *)
Definition getByType (ty : ReviewType) (q : Queue) : list ReviewItem :=
  List.filter (fun item => ReviewType_eqb (item_type item) ty) (items q).

(** [export]. *)
Definition export (q : Queue) : list ReviewItem := items q.

(** [import], for an array that is not the live map: every item is
    stored under its id; timestamps are kept. *)
Definition import (l : list ReviewItem) : M Queue unit :=
  fun q =>
    (inr tt,
     with_items q (fold_left (fun acc item => Map_set item acc) l (items q))).

(** [clear]. *)
Definition clear : M Queue unit := fun q => (inr tt, with_items q []).

(** Every key of the map occurs once. *)
Definition wf (q : Queue) : Prop := List.NoDup (map item_id (items q)).

End ReviewQueue.

(* ================================================================== *)
(** * Integrator ([integrator.ts]) *)
(* ================================================================== *)

(** The [action] of an integration result: ['created'], ['modified'] or
    ['failed']. *)
Inductive IntegrationAction := act_created | act_modified | act_failed.

Record IntegrationResult := {
  success : bool;
  res_itemId : string;
  res_generatedCodeId : string;
  res_targetFile : string;
  action : IntegrationAction;
  error : option string;
  backup : option string;
  res_timestamp : Z
}.

Record IntegrationHistoryEntry := {
  hist_id : string;
  reviewItemId : string;
  generatedCodeId : string;
  hist_type : GenerationType;
  hist_name : string;
  hist_targetFile : string;
  integratedAt : Z;
  integratedBy : string;
  gitCommit : option string;
  canRollback : bool;
  backupPath : option string
}.

(** The text of a thrown error, as [String(error)] renders it. *)
Definition Error_toString (e : Error) : string :=
  match e with
  | ReviewItemNotFound id => "Error: Review item " +:+ id +:+ " not found"
  | ItemNotPending id => "Error: Item " +:+ id +:+ " is not pending"
  | ItemNotApproved id => "Error: Item " +:+ id +:+ " is not approved"
  | IntegrationNotFound id => "Error: Integration " +:+ id +:+ " not found"
  | CannotRollback id =>
      "Error: Integration " +:+ id +:+ " cannot be rolled back"
  | ENOENT path => "Error: ENOENT: no such file or directory, " +:+ path
  end.

Module Integrator.

Record IntegratorConfig := {
  baseDir : string;
  createBackups : bool;
  backupDir : string;
  dryRun : bool
}.

(** [DEFAULT_CONFIG], for a given working directory. *)
Definition DEFAULT_CONFIG (cwd : string) : IntegratorConfig := {|
  baseDir := cwd;
  createBackups := true;
  backupDir := ".atlas-backups";
  dryRun := false
|}.

(** What an integrator reads and writes: the files, by path, and its
    [history]. A file is known by the path [path.join] gives for it, all
    paths being resolved from the same working directory. Directories
    are not modelled: a file can be written at any path. *)
Record State := {
  fs : gmap string string;
  history : list IntegrationHistoryEntry
}.

Definition nl : string := String (ascii_of_nat 10) EmptyString.

(** The [path] module of Node, in its POSIX flavour: the separator is
    [/]. *)

(** The segments of a path, between its separators: [a//b/] has the
    segments [a], the empty one, [b] and the empty one. *)
Fixpoint path_segments (p : string) : list string :=
  match p with
  | EmptyString => [EmptyString]
  | String c p' =>
      if Ascii.eqb c "/"%char then EmptyString :: path_segments p'
      else match path_segments p' with
           | seg :: segs => String c seg :: segs
           | [] => [String c EmptyString]
           end
  end.

(** [normalizeString], on the segments still to read and the segments
    kept so far, the last one first. An empty segment and [.] are
    dropped; [..] removes the segment kept before it, and is itself kept
    where there is none to remove (or only [..]) and the path may go
    above its root. *)
Fixpoint normalizeString (allowAboveRoot : bool) (segs res : list string)
  : list string :=
  match segs with
  | [] => rev res
  | seg :: segs' =>
      if String.eqb seg "" || String.eqb seg "." then
        normalizeString allowAboveRoot segs' res
      else if String.eqb seg ".." then
        match res with
        | last :: res' =>
            if String.eqb last ".." then
              normalizeString allowAboveRoot segs'
                (if allowAboveRoot then seg :: res else res)
            else normalizeString allowAboveRoot segs' res'
        | [] =>
            normalizeString allowAboveRoot segs'
              (if allowAboveRoot then [seg] else [])
        end
      else normalizeString allowAboveRoot segs' (seg :: res)
  end.

Fixpoint endsWithSeparator (p : string) : bool :=
  match p with
  | EmptyString => false
  | String c EmptyString => Ascii.eqb c "/"%char
  | String _ p' => endsWithSeparator p'
  end.

(** [path.normalize(p)]. *)
Definition path_normalize (p : string) : string :=
  match p with
  | EmptyString => "."
  | String c _ =>
      let isAbsolute := Ascii.eqb c "/"%char in
      let trailingSeparator := endsWithSeparator p in
      let path :=
        JS.join "/" (normalizeString (negb isAbsolute) (path_segments p) []) in
      if (String.length path =? 0)%nat then
        if isAbsolute then "/" else if trailingSeparator then "./" else "."
      else
        let path := if trailingSeparator then path +:+ "/" else path in
        if isAbsolute then "/" +:+ path else path
  end.

(** [path.join(a, b)]: the arguments that are not empty, joined by the
    separator and normalised. *)
Definition path_join (a b : string) : string :=
  path_normalize
    (if JS.truthy a then if JS.truthy b then a +:+ "/" +:+ b else a else b).

(** [path.basename(p)]: the last segment that is not empty. *)
Definition path_basename (p : string) : string :=
  List.last (List.filter JS.truthy (path_segments p)) EmptyString.

Definition existsSync (path : string) (st : State) : bool :=
  match fs st !! path with Some _ => true | None => false end.

Definition writeFileSync (path content : string) : M State unit :=
  fun st => (inr tt, {| fs := <[path := content]> (fs st);
                        history := history st |}).

Definition copyFileSync (src dest : string) : M State unit :=
  fun st =>
    match fs st !! src with
    | Some content =>
        (inr tt, {| fs := <[dest := content]> (fs st);
                    history := history st |})
    | None => (inl (ENOENT src), st)
    end.

(** [applyInsertion]. *)
Definition applyInsertion (content newCode : string)
    (insertion : InsertionPoint) : string :=
  match ins_append insertion with
  | Some true => content +:+ nl +:+ newCode
  | _ =>
  if JS.present (ins_replace insertion) then
    JS.replace content (default EmptyString (ins_replace insertion)) newCode
  else if JS.present (ins_after insertion) then
    let after := default EmptyString (ins_after insertion) in
    match JS.indexOf content after with
    | None =>
        content +:+ nl +:+ nl +:+ "// AUTO-GENERATED CODE BELOW" +:+ nl
        +:+ newCode
    | Some afterIndex =>
        let insertAt := (afterIndex + String.length after)%nat in
        JS.take insertAt content +:+ nl +:+ newCode
        +:+ JS.drop insertAt content
    end
  else if JS.present (ins_before insertion) then
    let before := default EmptyString (ins_before insertion) in
    match JS.indexOf content before with
    | None => newCode +:+ nl +:+ nl +:+ content
    | Some beforeIndex =>
        JS.take beforeIndex content +:+ newCode +:+ nl
        +:+ JS.drop beforeIndex content
    end
  else content +:+ nl +:+ newCode
  end.

(** [wrapNewFile]; [iso] is the clock reading as [toISOString] renders
    it. *)
Definition wrapNewFile (iso : string) (generated : GeneratedCode) : string :=
  ("/**" +:+ nl
   +:+ " * " +:+ gen_name generated +:+ nl
   +:+ " *" +:+ nl
   +:+ " * " +:+ gen_description generated +:+ nl
   +:+ " *" +:+ nl
   +:+ " * @generated by Atlas Self-Production Engine" +:+ nl
   +:+ " * @date " +:+ iso +:+ nl
   +:+ " * @source gap: " +:+ gap_id (gen_sourceGap generated) +:+ nl
   +:+ " */" +:+ nl +:+ nl)
  +:+ code generated.

(** [createBackup]. *)
Definition createBackup (cfg : IntegratorConfig) (now : Z)
    (filePath generatedId : string) : M State string :=
  (let dir := path_join (baseDir cfg) (backupDir cfg) in
   let fileName := path_basename filePath in
   let backupName :=
     fileName +:+ "." +:+ JS.string_of_Z now +:+ "." +:+ generatedId
     +:+ ".bak" in
   let backupPath := path_join dir backupName in
   copyFileSync filePath backupPath ;;;
   ret backupPath)%M.

(** [applyCode]. *)
Definition applyCode (cfg : IntegratorConfig) (iso : string)
    (generated : GeneratedCode) : M State IntegrationAction :=
  (let targetPath := path_join (baseDir cfg) (targetFile generated) in
   st <- get_state ;;
   if dryRun cfg then
     ret (if existsSync targetPath st then act_modified else act_created)
   else
     match fs st !! targetPath with
     | None =>
         writeFileSync targetPath (wrapNewFile iso generated) ;;;
         ret act_created
     | Some content =>
         writeFileSync targetPath
           (applyInsertion content (code generated)
              (insertionPoint generated)) ;;;
         ret act_modified
     end)%M.

Definition pushHistory (entry : IntegrationHistoryEntry) : M State unit :=
  fun st => (inr tt, {| fs := fs st; history := history st ++ [entry] |}).

(** [integrate]. *)
Definition integrate (cfg : IntegratorConfig) (now : Z) (iso : string)
    (reviewItem : ReviewItem) : M State IntegrationResult :=
  match generatedCode reviewItem with
  | None =>
      ret {| success := false; res_itemId := item_id reviewItem;
             res_generatedCodeId := EmptyString;
             res_targetFile := EmptyString;
             action := act_failed;
             error := Some "No generated code in review item";
             backup := None; res_timestamp := now |}
  | Some generated =>
      let targetPath := path_join (baseDir cfg) (targetFile generated) in
      try_catch
        (st <- get_state ;;
         backupPath <-
           (if createBackups cfg && existsSync targetPath st
            then path <- createBackup cfg now targetPath (gen_id generated) ;;
                 ret (Some path)
            else ret None) ;;
         act <- applyCode cfg iso generated ;;
         pushHistory {|
           hist_id := "int_" +:+ JS.string_of_Z now;
           reviewItemId := item_id reviewItem;
           generatedCodeId := gen_id generated;
           hist_type := gen_type generated;
           hist_name := gen_name generated;
           hist_targetFile := targetFile generated;
           integratedAt := now;
           integratedBy := JS.or_default (reviewer reviewItem) "system";
           gitCommit := None;
           canRollback := JS.present backupPath;
           backupPath := backupPath |} ;;;
         ret {| success := true; res_itemId := item_id reviewItem;
                res_generatedCodeId := gen_id generated;
                res_targetFile := targetFile generated;
                action := act;
                error := None;
                backup := backupPath; res_timestamp := now |})%M
        (fun e =>
           ret {| success := false; res_itemId := item_id reviewItem;
                  res_generatedCodeId := gen_id generated;
                  res_targetFile := targetFile generated;
                  action := act_failed;
                  error := Some (Error_toString e);
                  backup := None; res_timestamp := now |})
  end.

(** [history.find(h => h.id === integrationId)]. *)
Definition findEntry (integrationId : string)
    (l : list IntegrationHistoryEntry) : option IntegrationHistoryEntry :=
  List.find (fun h => String.eqb (hist_id h) integrationId) l.

(** [entry.canRollback = false]. *)
Definition rolledBack (h : IntegrationHistoryEntry) : IntegrationHistoryEntry := {|
  hist_id := hist_id h; reviewItemId := reviewItemId h;
  generatedCodeId := generatedCodeId h; hist_type := hist_type h;
  hist_name := hist_name h; hist_targetFile := hist_targetFile h;
  integratedAt := integratedAt h; integratedBy := integratedBy h;
  gitCommit := gitCommit h;
  canRollback := false;
  backupPath := backupPath h
|}.

(** The assignment [entry.canRollback = false] acts on the entry that
    [findEntry] returned: the first of the list with this id. *)
Fixpoint markRolledBack (integrationId : string)
    (l : list IntegrationHistoryEntry) : list IntegrationHistoryEntry :=
  match l with
  | [] => []
  | h :: l' =>
      if String.eqb (hist_id h) integrationId then rolledBack h :: l'
      else h :: markRolledBack integrationId l'
  end.

(** [rollback]. *)
Definition rollback (cfg : IntegratorConfig) (integrationId : string)
  : M State bool :=
  (st <- get_state ;;
   match findEntry integrationId (history st) with
   | None => throw (IntegrationNotFound integrationId)
   | Some entry =>
       if negb (canRollback entry) || negb (JS.present (backupPath entry))
       then throw (CannotRollback integrationId)
       else
         let targetPath := path_join (baseDir cfg) (hist_targetFile entry) in
         if dryRun cfg then ret true
         else
           copyFileSync (default EmptyString (backupPath entry)) targetPath ;;;
           st' <- get_state ;;
           put_state {| fs := fs st';
                        history := markRolledBack integrationId (history st') |} ;;;
           ret true
   end)%M.

(** [getHistory] and [exportHistory]. *)
Definition getHistory (st : State) : list IntegrationHistoryEntry :=
  history st.

Definition exportHistory (st : State) : list IntegrationHistoryEntry :=
  history st.

(** The comparison function of [getRecent]. *)
Definition compareRecent (a b : IntegrationHistoryEntry) : Z :=
  integratedAt b - integratedAt a.

(** [getRecent(count)] for a count of at least zero: [sort] reorders the
    stored history itself. *)
Definition getRecent (count : nat) : M State (list IntegrationHistoryEntry) :=
  fun st =>
    let sorted := JS.sort compareRecent (history st) in
    (inr (firstn count sorted), {| fs := fs st; history := sorted |}).

(** [importHistory], for an array that is not the live history. *)
Definition importHistory (entries : list IntegrationHistoryEntry)
  : M State unit :=
  fun st => (inr tt, {| fs := fs st; history := history st ++ entries |}).



End Integrator.

(* ================================================================== *)
(** * Self-production engine ([index.ts]) *)
(* ================================================================== *)

Module SelfProductionEngine.

Record SelfProductionConfig := {
  enableGeneration : bool;
  requireApproval : bool;
  minValidationScore : float;
  maxPendingReviews : Z;
  baseDir : string;
  dryRun : bool
}.

Definition DEFAULT_CONFIG (cwd : string) : SelfProductionConfig := {|
  enableGeneration := true;
  requireApproval := true;
  minValidationScore := 0.7;
  maxPendingReviews := 50;
  baseDir := cwd;
  dryRun := false
|}.

(** The configuration the constructor gives the integrator. *)
Definition integratorConfig (cfg : SelfProductionConfig)
  : Integrator.IntegratorConfig := {|
  Integrator.baseDir := baseDir cfg;
  Integrator.createBackups := true;
  Integrator.backupDir := ".atlas-backups";
  Integrator.dryRun := dryRun cfg
|}.

(** The mutable parts of an engine: its review queue and its integrator
    (with the files the integrator works on). *)
Record State := {
  reviewQueue : ReviewQueue.Queue;
  integrator : Integrator.State
}.

(** A method of the review queue, called by the engine. *)
Definition onQueue {A} (m : M ReviewQueue.Queue A) : M State A :=
  fun s =>
    let '(r, q) := m (reviewQueue s) in
    (r, {| reviewQueue := q; integrator := integrator s |}).

(** A method of the integrator, called by the engine. *)
Definition onIntegrator {A} (m : M Integrator.State A) : M State A :=
  fun s =>
    let '(r, i) := m (integrator s) in
    (r, {| reviewQueue := reviewQueue s; integrator := i |}).

(** [integrateApproved]. *)
Definition integrateApproved (cfg : SelfProductionConfig) (now : Z)
    (iso : string) (reviewId : string) : M State IntegrationResult :=
  (s <- get_state ;;
   match ReviewQueue.get reviewId (reviewQueue s) with
   | None => throw (ReviewItemNotFound reviewId)
   | Some item =>
       if negb (ReviewStatus_eqb (status item) approved)
          && negb (ReviewStatus_eqb (status item) modified)
       then throw (ItemNotApproved reviewId)
       else
         result <-
           onIntegrator (Integrator.integrate (integratorConfig cfg) now iso item) ;;
         (if success result
          then onQueue (ReviewQueue.markIntegrated reviewId)
          else ret tt) ;;;
         ret result
   end)%M.



(** [approve]. *)
Definition approve (cfg : SelfProductionConfig) (now : Z) (iso : string)
    (reviewId reviewer : string) (notes : option string)
  : M State (option IntegrationResult) :=
  (item <- onQueue (ReviewQueue.approve reviewId reviewer notes now) ;;
   if negb (requireApproval cfg) then
     result <- integrateApproved cfg now iso (item_id item) ;;
     ret (Some result)
   else ret None)%M.

(** [rollback]. *)
Definition rollback (cfg : SelfProductionConfig) (integrationId : string)
  : M State bool :=
  onIntegrator (Integrator.rollback (integratorConfig cfg) integrationId).

(** The acceptance test of phase 3 of [runCycle]:
    [validation.valid && validation.score >= minValidationScore]. *)
Definition validationPassed (cfg : SelfProductionConfig)
    (validation : ValidationResult) : bool :=
  valid validation
  && PrimFloat.leb (minValidationScore cfg) (score validation).

(** [getPendingReviews]. *)
Definition getPendingReviews (now : Z) : M State (list ReviewItem) :=
  onQueue (ReviewQueue.listPending now).

(** [reject]. *)
Definition reject (reviewId reviewer reason : string) (now : Z)
  : M State ReviewItem :=
  onQueue (ReviewQueue.reject reviewId reviewer reason now).

(** [exportState] and [importState]. *)
Definition exportState (s : State)
  : list ReviewItem * list IntegrationHistoryEntry :=
  (ReviewQueue.export (reviewQueue s),
   Integrator.exportHistory (integrator s)).

Definition importState
    (state : list ReviewItem * list IntegrationHistoryEntry) : M State unit :=
  (onQueue (ReviewQueue.import (fst state)) ;;;
   onIntegrator (Integrator.importHistory (snd state)))%M.

End SelfProductionEngine.

(* ================================================================== *)
(** * Notions used to state the properties *)
(* ================================================================== *)

(** A list of strata is a contiguous prefix of the canonical order when it
    is its first [n] strata, for some [n] of at least one. *)
Definition contiguousPrefix (l : list Stratum) : Prop :=
  exists n : nat, (1 <= n)%nat /\ l = firstn n GapAnalyzer.order.

(** A gap of the kind the nesting check emits: a critical axiom tension
    routed to axiom review, with the entity as its evidence. *)
Definition criticalNestingGap (entity : Entity) (g : Gap) : Prop :=
  gap_type g = axiom_tension
  /\ gap_severity g = critical
  /\ action_type (suggestedAction g) = axiom_review
  /\ map ev_entityId (gap_evidence g) = [Some (entity_id entity)].

(** The strata of the scenario: MATTER and LOGOS without LIFE and
    SENTIENCE. *)
Definition brokenNesting : StrataSet := {|
  strata_MATTER := true; strata_LIFE := false;
  strata_SENTIENCE := false; strata_LOGOS := true
|}.

(** The first sample entity of [demoSelfProduction]. *)
Definition quantum_computer : Entity := {|
  entity_id := "quantum_computer";
  entity_name := "Quantum Computer";
  entity_domain := ARTIFICIAL;
  config := {|
    closure := 0.85;
    scope := 0.75;
    strata := brokenNesting;
    capabilities := [PERSIST; REPRESENT];
    relations := [];
    uncertainty := 0.4
  |}
|}.

(** An entity placed exactly on the typical pair of its domain. *)
Definition typicalEntity (d : Domain) : Entity := {|
  entity_id := "typical";
  entity_name := "Typical";
  entity_domain := d;
  config := {|
    closure := GapAnalyzer.typicalClosure d;
    scope := GapAnalyzer.typicalScope d;
    strata := {| strata_MATTER := true; strata_LIFE := false;
                 strata_SENTIENCE := false; strata_LOGOS := false |};
    capabilities := [PERSIST];
    relations := [];
    uncertainty := 0
  |}
|}.

(** An analyzer configured with a misfit threshold above every fit
    score. *)
Definition permissiveConfig : GapAnalyzer.GapAnalyzerConfig := {|
  GapAnalyzer.confidenceThreshold := 0.7;
  GapAnalyzer.domainMinClusterSize := 5;
  GapAnalyzer.domainMisfitThreshold := 1.5;
  GapAnalyzer.relationMinOccurrences := 3
|}.

(** The outcome of a check that neither violates nor warns. *)
Definition passesCheck (r : CheckResult) : bool :=
  negb (violated r) && negb (warning r).

(** A call of one of the three review operations. *)
Inductive ReviewCall :=
| CallApprove (id reviewer : string) (notes : option string) (now : Z)
| CallReject (id reviewer reason : string) (now : Z)
| CallModify (id reviewer mods : string) (notes : option string) (now : Z).

Definition call_id (c : ReviewCall) : string :=
  match c with
  | CallApprove id _ _ _ | CallReject id _ _ _ | CallModify id _ _ _ _ => id
  end.

Definition runCall (c : ReviewCall) : M ReviewQueue.Queue ReviewItem :=
  match c with
  | CallApprove id reviewer notes now =>
      ReviewQueue.approve id reviewer notes now
  | CallReject id reviewer reason now =>
      ReviewQueue.reject id reviewer reason now
  | CallModify id reviewer mods notes now =>
      ReviewQueue.modifyAndApprove id reviewer mods notes now
  end.

(** The number of calls on [id] that return normally when [calls] run in
    sequence from the queue [q]. *)
Fixpoint transitions (id : string) (calls : list ReviewCall)
    (q : ReviewQueue.Queue) : nat :=
  match calls with
  | [] => 0%nat
  | c :: rest =>
      let '(r, q') := runCall c q in
      ((match r with
        | inr _ => if String.eqb (call_id c) id then 1 else 0
        | inl _ => 0
        end) + transitions id rest q')%nat
  end.

(** The order of [listPending]: a more urgent priority first (critical,
    high, medium, low), and the older item first within a priority. *)
Definition pendingOrder (a b : ReviewItem) : Prop :=
  ReviewQueue.priorityOrder (priority a) < ReviewQueue.priorityOrder (priority b)
  \/ (priority a = priority b /\ createdAt a <= createdAt b).

(** Pending and not past its deadline at the time [now]. *)
Definition pendingAt (now : Z) (item : ReviewItem) : bool :=
  ReviewQueue.isPending item && negb (expiresAt item <? now).

(** Sample data for the concrete instances below. *)
Definition sampleGap : Gap := {|
  gap_id := "gap_1_1";
  gap_type := relation_pattern;
  gap_severity := low;
  gap_evidence := [];
  suggestedAction := {|
    action_type := new_relation;
    action_parameters := RelationParameters "orbits" 3 [];
    action_confidence := 0.66 |};
  detectedAt := 1
|}.

Definition sampleCode : GeneratedCode := {|
  gen_id := "gen_relation_1_1";
  gen_type := relation;
  gen_name := "orbits";
  gen_description := "New relation type";
  code := "export const RELATION_ORBITS = {};";
  targetFile := "src/core/relations.ts";
  insertionPoint := {|
    ins_file := "src/core/relations.ts";
    ins_after := Some "// AUTO-GENERATED RELATIONS BELOW";
    ins_before := None; ins_replace := None; ins_append := None |};
  dependencies := [];
  axiomJustification := {| just_axioms := []; overallCompliance := 0.85 |};
  generatedAt := 1;
  gen_sourceGap := sampleGap
|}.

Definition sampleItem (id : string) (st : ReviewStatus) (prio : Severity)
    (created : Z) : ReviewItem := {|
  item_id := id; item_type := code_generation; status := st;
  sourceGap := sampleGap; generatedCode := Some sampleCode;
  validation := None;
  createdAt := created; updatedAt := created; expiresAt := created + 1000;
  reviewer := None; reviewedAt := None; feedback := None;
  priority := prio
|}.

Definition sampleQueue (maxPending : Z) (l : list ReviewItem)
  : ReviewQueue.Queue := {|
  ReviewQueue.queue_config := {|
    ReviewQueue.expirationTime := 1000;
    ReviewQueue.maxPending := maxPending;
    ReviewQueue.lowPriorityTimeout := 5000 |};
  ReviewQueue.items := l;
  ReviewQueue.itemCounter := length l
|}.

(** The path [integrate] writes to, the path of the backup it takes at the
    time [now], and the entry it appends to the history. *)
Definition targetPathOf (cfg : Integrator.IntegratorConfig)
    (generated : GeneratedCode) : string :=
  Integrator.path_join (Integrator.baseDir cfg) (targetFile generated).

Definition backupPathOf (cfg : Integrator.IntegratorConfig) (now : Z)
    (generated : GeneratedCode) : string :=
  Integrator.path_join
    (Integrator.path_join (Integrator.baseDir cfg) (Integrator.backupDir cfg))
    (Integrator.path_basename (targetPathOf cfg generated)
     +:+ "." +:+ JS.string_of_Z now +:+ "." +:+ gen_id generated +:+ ".bak").

Definition integrationId (now : Z) : string := "int_" +:+ JS.string_of_Z now.

Definition historyEntryOf (now : Z) (item : ReviewItem)
    (generated : GeneratedCode) (backupPath : option string)
  : IntegrationHistoryEntry := {|
  hist_id := integrationId now;
  reviewItemId := item_id item;
  generatedCodeId := gen_id generated;
  hist_type := gen_type generated;
  hist_name := gen_name generated;
  hist_targetFile := targetFile generated;
  integratedAt := now;
  integratedBy := JS.or_default (reviewer item) "system";
  gitCommit := None;
  canRollback := JS.present backupPath;
  backupPath := backupPath
|}.


(** An integrator at [/atlas], as the engine configures it, and the same
    in dry-run mode. *)
Definition atlasConfig : Integrator.IntegratorConfig :=
  Integrator.DEFAULT_CONFIG "/atlas".


(** No file and no history; and the target of [sampleCode] alone. *)
Definition emptyState : Integrator.State :=
  {| Integrator.fs := ∅; Integrator.history := [] |}.

Definition relationsState : Integrator.State := {|
  Integrator.fs :=
    {[ "/atlas/src/core/relations.ts" := "// AUTO-GENERATED RELATIONS BELOW" ]};
  Integrator.history := []
|}.

(** An engine at [/atlas] whose queue holds one pending item. *)
Definition atlasEngineConfig : SelfProductionEngine.SelfProductionConfig :=
  SelfProductionEngine.DEFAULT_CONFIG "/atlas".

Definition pendingEngine : SelfProductionEngine.State := {|
  SelfProductionEngine.reviewQueue :=
    sampleQueue 100 [sampleItem "r1" pending medium 10];
  SelfProductionEngine.integrator := emptyState
|}.



(** What a stored item shows of its state. *)
Definition summary (item : ReviewItem) : string * ReviewStatus * Severity :=
  (item_id item, status item, priority item).

(** The id the next call of [generateId] returns. *)
Definition nextId (q : ReviewQueue.Queue) (now : Z) : string :=
  "review_" +:+ JS.string_of_Z now +:+ "_"
  +:+ JS.string_of_Z (Z.of_nat (S (ReviewQueue.itemCounter q))).

(** The queue once a new item got its id and was stored. *)
Definition stored (q : ReviewQueue.Queue) (item : ReviewItem)
  : ReviewQueue.Queue := {|
  ReviewQueue.queue_config := ReviewQueue.queue_config q;
  ReviewQueue.items := ReviewQueue.Map_set item (ReviewQueue.items q);
  ReviewQueue.itemCounter := S (ReviewQueue.itemCounter q)
|}.

(** The items the three entry paths build. *)
Definition codeReviewItem (q : ReviewQueue.Queue) (gap : Gap)
    (generated : GeneratedCode) (val : ValidationResult) (now : Z)
  : ReviewItem :=
  ReviewQueue.newItem (nextId q now) code_generation gap (Some generated)
    (Some val) now (ReviewQueue.expirationTime (ReviewQueue.queue_config q))
    (ReviewQueue.determinePriority gap val).

Definition gapReviewItem (q : ReviewQueue.Queue) (gap : Gap) (now : Z)
  : ReviewItem :=
  ReviewQueue.newItem (nextId q now) gap_detection gap None None now
    (ReviewQueue.expirationTime (ReviewQueue.queue_config q))
    (match gap_severity gap with
     | critical => critical
     | high => high
     | _ => medium
     end).

Definition axiomReviewItem (q : ReviewQueue.Queue) (gap : Gap) (now : Z)
  : ReviewItem :=
  ReviewQueue.newItem (nextId q now) axiom_tension_review gap None None now
    (ReviewQueue.expirationTime (ReviewQueue.queue_config q))
    (match gap_severity gap with
     | critical => critical
     | _ => high
     end).

(** A critical axiom-tension gap, as the analyzer emits it. *)
Definition criticalGap : Gap :=
  GapAnalyzer.nestingGap 20 "gap_20_1" quantum_computer.

(** A rule-specific check that finds nothing to report. *)
Definition passingCheck (_ : GeneratedCode) : CheckResult := {|
  violated := false; warning := false; reason := "Passed";
  fatal := false; check_requiresReview := false; suggestedFix := None
|}.

(** ** Notions used to state the further properties *)

(** A set of strata is closed downwards when every stratum below an active
    one is active. *)
Definition downwardClosed (l : list Stratum) : Prop :=
  forall s t, GapAnalyzer.has l t = true ->
    (GapAnalyzer.indexOf s < GapAnalyzer.indexOf t)%nat ->
    GapAnalyzer.has l s = true.

(** The ids of [n] successive calls of [generateGapId] at the time [now],
    from the counter [c]. *)
Definition idsFrom (now : Z) (c n : nat) : list string :=
  map (fun k => fst (GapAnalyzer.generateGapId now k)) (seq c n).

(** The character [c] does not occur in [s]. *)
Fixpoint freeOf (c : ascii) (s : string) : bool :=
  match s with
  | EmptyString => true
  | String a s' => negb (Ascii.eqb a c) && freeOf c s'
  end.

(** An IDEAL entity with the strata of the scenario. *)
Definition platonic_machine : Entity := {|
  entity_id := "platonic_machine";
  entity_name := "Platonic Machine";
  entity_domain := IDEAL;
  config := {|
    closure := 0.2;
    scope := 0.9;
    strata := brokenNesting;
    capabilities := [PERSIST];
    relations := [];
    uncertainty := 0.1
  |}
|}.

(** The relations of the entities in the order of the counting loops, each
    with its type and the example text built for it. *)
Definition usedRelations (entities : list Entity) : list (string * string) :=
  flat_map
    (fun e =>
       map (fun rel =>
              (rel_type rel, entity_name e +:+ " → " +:+ rel_targetId rel))
           (relations (config e)))
    entities.

Definition ofType (relType : string) (used : string * string) : bool :=
  String.eqb (fst used) relType.

(** How often the entities use a relation type, and the examples of it. *)
Definition occurrencesOf (relType : string) (used : list (string * string))
  : nat :=
  length (List.filter (ofType relType) used).

Definition examplesOf (relType : string) (used : list (string * string))
  : list string :=
  map snd (List.filter (ofType relType) used).

(** The relation type a gap suggests to formalise. *)
Definition relationName (g : Gap) : option string :=
  match action_parameters (suggestedAction g) with
  | RelationParameters name _ _ => Some name
  | _ => None
  end.

(** The entry of a relation type in the map of counts. *)
Definition countOf (relType : string) (m : list GapAnalyzer.RelationCount)
  : option GapAnalyzer.RelationCount :=
  List.find (fun d => String.eqb (GapAnalyzer.rc_type d) relType) m.

(** The test of the second loop of [analyzeRelationPatterns]. *)
Definition reported (cfg : GapAnalyzer.GapAnalyzerConfig)
    (d : GapAnalyzer.RelationCount) : bool :=
  negb (GapAnalyzer.isKnownRelation (GapAnalyzer.rc_type d))
  && (GapAnalyzer.relationMinOccurrences cfg <=? GapAnalyzer.rc_count d)%nat.

(** Three entities that orbit a fourth. *)
Definition moon (name : string) : Entity := {|
  entity_id := name;
  entity_name := name;
  entity_domain := INERT;
  config := {|
    closure := 0.3;
    scope := 0.2;
    strata := {| strata_MATTER := true; strata_LIFE := false;
                 strata_SENTIENCE := false; strata_LOGOS := false |};
    capabilities := [PERSIST];
    relations := [ {| rel_type := "orbits"; rel_targetId := "jupiter";
                      rel_strength := 1 |};
                   {| rel_type := "part_of"; rel_targetId := "solar_system";
                      rel_strength := 1 |} ];
    uncertainty := 0.1
  |}
|}.

Definition moons : list Entity := [moon "Io"; moon "Europa"; moon "Ganymede"].

(** The map of counts [m] agrees with the relations [used] so far. *)
Definition countsAgree (m : list GapAnalyzer.RelationCount)
    (used : list (string * string)) : Prop :=
  forall t,
    match countOf t m with
    | Some d =>
        GapAnalyzer.rc_type d = t
        /\ GapAnalyzer.rc_count d = occurrencesOf t used
        /\ (1 <= GapAnalyzer.rc_count d)%nat
        /\ GapAnalyzer.rc_examples d = firstn 5 (examplesOf t used)
    | None => occurrencesOf t used = 0%nat
    end.

(** The axioms [validate] checks for a generation type. *)
Definition relevantFor (t : GenerationType) : list AxisAxiom :=
  List.filter
    (fun a => existsb (GenerationType_eqb t) (criticalFor a)
              || (length (criticalFor a) =? 0)%nat)
    AxisValidator.AXIOMS.

(** The axioms whose check can pass: those with a rule-specific check and
    the checkable ones. *)
Definition mayPass (a : AxisAxiom) : bool :=
  existsb (String.eqb (axiom_id a)) ["A2"; "A3"; "A4"; "A5"; "A10"]
  || checkable a.

(** The score [validate] computes from the number [p] of passed axioms,
    the number [t] of applicable axioms and the number [w] of warnings
    that require review. *)
Definition scoreOf (p t w : nat) : float :=
  JS.Math_max 0 (JS.of_nat p / JS.of_nat t - JS.of_nat w * 0.1)%float.

(** The scores of at most [P] passed axioms out of [t] with at most [W]
    such warnings all lie below [threshold]. *)
Definition scoresBelow (threshold : float) (t P W : nat) : bool :=
  forallb
    (fun p =>
       forallb
         (fun w =>
            PrimFloat.ltb (scoreOf p t w) threshold
            && negb (PrimFloat.leb threshold (scoreOf p t w)))
         (seq 0 (S W)))
    (seq 0 (S P)).

(** A generated relation with the self-assessment the generator attaches
    to it. *)
Definition orbitsCode : GeneratedCode := {|
  gen_id := "gen_relation_1_1";
  gen_type := relation;
  gen_name := "orbits";
  gen_description := "New relation type";
  code := "export const RELATION_ORBITS = {};";
  targetFile := "src/core/relations.ts";
  insertionPoint := {|
    ins_file := "src/core/relations.ts";
    ins_after := Some "// AUTO-GENERATED RELATIONS BELOW";
    ins_before := None; ins_replace := None; ins_append := None |};
  dependencies := [];
  axiomJustification := CodeGenerator.justifyRelation "orbits";
  generatedAt := 1;
  gen_sourceGap := sampleGap
|}.


(** The result of an integration that did not fail. *)
Definition successOf (now : Z) (item : ReviewItem) (generated : GeneratedCode)
    (old : option string) (backupPath : option string) : IntegrationResult := {|
  success := true; res_itemId := item_id item;
  res_generatedCodeId := gen_id generated;
  res_targetFile := targetFile generated;
  action := match old with Some _ => act_modified | None => act_created end;
  error := None; backup := backupPath; res_timestamp := now
|}.








(** The artifact of [sampleCode] with its target spelled with [.] and
    [..], and an approved item that carries it. *)
Definition dottedCode : GeneratedCode := {|
  gen_id := "gen_relation_1_1";
  gen_type := relation;
  gen_name := "orbits";
  gen_description := "New relation type";
  code := "export const RELATION_ORBITS = {};";
  targetFile := "./src/core/../core/relations.ts";
  insertionPoint := {|
    ins_file := "src/core/relations.ts";
    ins_after := Some "// AUTO-GENERATED RELATIONS BELOW";
    ins_before := None; ins_replace := None; ins_append := None |};
  dependencies := [];
  axiomJustification := {| just_axioms := []; overallCompliance := 0.85 |};
  generatedAt := 1;
  gen_sourceGap := sampleGap
|}.

Definition dottedItem : ReviewItem := {|
  item_id := "r4"; item_type := code_generation; status := approved;
  sourceGap := sampleGap; generatedCode := Some dottedCode;
  validation := None;
  createdAt := 10; updatedAt := 10; expiresAt := 1010;
  reviewer := Some "alice"; reviewedAt := Some 15; feedback := None;
  priority := medium
|}.

(** A pending item created at the earliest time value, which expires at
    the latest. *)
Definition earliestItem : ReviewItem := {|
  item_id := "r5"; item_type := code_generation; status := pending;
  sourceGap := sampleGap; generatedCode := Some sampleCode;
  validation := None;
  createdAt := -8640000000000000; updatedAt := -8640000000000000;
  expiresAt := 8640000000000000;
  reviewer := None; reviewedAt := None; feedback := None;
  priority := medium
|}.

(** The item as [approve] leaves it. *)
Definition approvedItem (now : Z) (item : ReviewItem) (who : string)
    (notes : option string) : ReviewItem :=
  ReviewQueue.review now item approved who
    {| decision := decision_approve;
       fb_reason := JS.or_default notes "Approved without notes";
       modifications := None; notes := None |}
    (generatedCode item).








(** The two tests of [analyzeAxiomTensions], for an entity outside the
    IDEAL domain. *)
Definition outsideIdeal (e : Entity) : bool :=
  match entity_domain e with IDEAL => false | _ => true end.

Definition closureScopeTension (e : Entity) : bool :=
  outsideIdeal e
  && (JS.gt (closure (config e)) 0.8 && JS.gt (scope (config e)) 0.8).

Definition nestingViolation (e : Entity) : bool :=
  outsideIdeal e
  && negb (GapAnalyzer.respectsStratalNesting (GapAnalyzer.getActiveStrata e)).

(* ================================================================== *)
(** * The embedding on sample data *)
(* ================================================================== *)

Example getActiveStrata_quantum_computer :
  GapAnalyzer.getActiveStrata quantum_computer = [MATTER; LOGOS]
  /\ GapAnalyzer.respectsStratalNesting [MATTER; LOGOS] = false
  /\ GapAnalyzer.getMissingStrata [MATTER; LOGOS] = [LIFE; SENTIENCE]
  /\ GapAnalyzer.respectsStratalNesting [MATTER; LIFE; SENTIENCE] = true.
Proof. repeat split. Qed.

Example generateGapId_sample :
  GapAnalyzer.generateGapId 1700 3 = ("gap_1700_4", 4%nat).
Proof. reflexivity. Qed.

Example inferCompatibleStrata_samples :
  CodeGenerator.inferCompatibleStrata ["autonomous"; "global"] = [MATTER]
  /\ CodeGenerator.inferCompatibleStrata ["Conscious agents"]
     = [MATTER; LIFE; SENTIENCE]
  /\ CodeGenerator.inferCompatibleStrata ["symbolic"; "living"]
     = [MATTER; LIFE; SENTIENCE; LOGOS].
Proof. repeat split. Qed.

Example replace_first_occurrence :
  JS.replace "a MARK b MARK" "MARK" "<$&|$$>" = "a <MARK|$> b MARK"
  /\ JS.replace "no marker" "MARK" "x" = "no marker".
Proof. split; reflexivity. Qed.

Example applyInsertion_after_marker :
  Integrator.applyInsertion
    ("// AUTO-GENERATED RELATIONS BELOW" +:+ Integrator.nl +:+ "tail")
    "NEW" (insertionPoint sampleCode)
  = "// AUTO-GENERATED RELATIONS BELOW" +:+ Integrator.nl +:+ "NEW"
    +:+ Integrator.nl +:+ "tail".
Proof. reflexivity. Qed.

Example listPending_sample :
  fst (ReviewQueue.listPending 20
         (sampleQueue 100
            [sampleItem "a" pending low 3; sampleItem "b" pending high 9;
             sampleItem "c" rejected critical 1; sampleItem "d" pending high 5;
             sampleItem "e" pending critical (-2000)]))
  = inr [sampleItem "d" pending high 5; sampleItem "b" pending high 9;
         sampleItem "a" pending low 3].
Proof. reflexivity. Qed.

Example validate_sample :
  let r :=
    AxisValidator.validate passingCheck passingCheck passingCheck passingCheck
      passingCheck (fun _ _ => EmptyString) sampleCode in
  map axiom_id (AxisValidator.relevantAxioms sampleCode)
  = ["A6"; "A7"; "A9"; "A10"]
  /\ passed r = ["A10"]
  /\ map warn_axiomId (warnings r) = ["A6"; "A7"; "A9"]
  /\ valid r = true
  /\ score r = 0.25%float.
Proof. repeat split. Qed.

Example backup_path_sample :
  targetPathOf atlasConfig sampleCode = "/atlas/src/core/relations.ts"
  /\ backupPathOf atlasConfig 20 sampleCode
     = "/atlas/.atlas-backups/relations.ts.20.gen_relation_1_1.bak".
Proof. split; reflexivity. Qed.

(** [path.join] normalises what it joins, and [path.basename] skips the
    separators at the end. *)
Example path_join_sample :
  Integrator.path_join "/atlas" "./src/core/../core/relations.ts"
  = "/atlas/src/core/relations.ts"
  /\ Integrator.path_join "/atlas/" ".atlas-backups" = "/atlas/.atlas-backups"
  /\ Integrator.path_join "." ".atlas-backups" = ".atlas-backups"
  /\ Integrator.path_join "a" "../../b/" = "../b/"
  /\ Integrator.path_join "/atlas" "../../.." = "/"
  /\ Integrator.path_join "a//b" "" = "a/b"
  /\ Integrator.path_join "" "" = "."
  /\ Integrator.path_basename "/atlas/src/" = "src".
Proof. repeat split. Qed.

(** A target spelled with [.] and [..] is the file of the plain path: the
    integration backs the existing file up and modifies it. *)
Example integrate_dotted_target :
  exists st' : Integrator.State,
    Integrator.integrate atlasConfig 20 "2026-01-01T00:00:00.000Z"
      dottedItem relationsState
    = (inr (successOf 20 dottedItem dottedCode
              (Some "// AUTO-GENERATED RELATIONS BELOW")
              (Some "/atlas/.atlas-backups/relations.ts.20.gen_relation_1_1.bak")),
       st')
    /\ Integrator.fs st' !! "/atlas/src/core/relations.ts"
       = Some ("// AUTO-GENERATED RELATIONS BELOW" +:+ Integrator.nl
               +:+ "export const RELATION_ORBITS = {};")
    /\ Integrator.fs st'
         !! "/atlas/.atlas-backups/relations.ts.20.gen_relation_1_1.bak"
       = Some "// AUTO-GENERATED RELATIONS BELOW".
Proof.
  eexists. split; [vm_compute; reflexivity |].
  split; vm_compute; reflexivity.
Qed.

(** The age of the oldest pending item is a difference of numbers: ten
    milliseconds for an item created at 10 and read at 20, and a rounded
    difference for times that are further apart than 2^53. *)
Example getStats_age_sample :
  (exists stats q',
     ReviewQueue.getStats 20 (sampleQueue 100 [sampleItem "r1" pending medium 10])
     = (inr stats, q')
     /\ ReviewQueue.oldestPendingAge stats = 10%float)
  /\ (exists stats q',
        ReviewQueue.getStats 8639999999999999 (sampleQueue 100 [earliestItem])
        = (inr stats, q')
        /\ ReviewQueue.stats_pending stats = 1%nat
        /\ ReviewQueue.oldestPendingAge stats = 17280000000000000%float).
Proof.
  split.
  - do 2 eexists. split; [vm_compute; reflexivity |]. vm_compute. reflexivity.
  - do 2 eexists. split; [vm_compute; reflexivity |].
    split; vm_compute; reflexivity.
Qed.


(* ================================================================== *)
(** * Properties of the code generator *)
(* ================================================================== *)

Lemma contiguousPrefix_cases (l : list Stratum) :
  l = [MATTER] \/ l = [MATTER; LIFE] \/ l = [MATTER; LIFE; SENTIENCE]
  \/ l = [MATTER; LIFE; SENTIENCE; LOGOS] ->
  contiguousPrefix l.
Proof.
  intros [-> | [-> | [-> | ->]]].
  - exists 1%nat. split; [lia | reflexivity].
  - exists 2%nat. split; [lia | reflexivity].
  - exists 3%nat. split; [lia | reflexivity].
  - exists 4%nat. split; [lia | reflexivity].
Qed.

Lemma inferCompatibleStrata_cases (characteristics : list string) :
  let l := CodeGenerator.inferCompatibleStrata characteristics in
  l = [MATTER] \/ l = [MATTER; LIFE] \/ l = [MATTER; LIFE; SENTIENCE]
  \/ l = [MATTER; LIFE; SENTIENCE; LOGOS].
Proof.
  unfold CodeGenerator.inferCompatibleStrata.
  set (c := JS.toLowerCase (JS.join " " characteristics)).
  set (life := JS.includes c "living" || _ || _).
  set (sentience := JS.includes c "sentient" || _ || _).
  set (logos := JS.includes c "symbolic" || _ || _).
  destruct life, sentience, logos; cbv; tauto.
Qed.

(** C9. For every characteristics list, [inferCompatibleStrata] returns a
    contiguous prefix of MATTER, LIFE, SENTIENCE, LOGOS: it contains MATTER,
    and with a stratum it contains every lower one. For the
    characteristics [autonomous] and [global], the inferred typical closure
    and the inferred typical scope both exceed 0.5. *)
Theorem C9_compatible_strata_contiguous_prefix :
  (forall characteristics : list string,
      let l := CodeGenerator.inferCompatibleStrata characteristics in
      contiguousPrefix l
      /\ In MATTER l
      /\ (forall lower upper : Stratum,
             In upper l ->
             (GapAnalyzer.indexOf lower < GapAnalyzer.indexOf upper)%nat ->
             In lower l))
  /\ JS.gt (CodeGenerator.inferTypicalClosure ["autonomous"; "global"]) 0.5
     = true
  /\ JS.gt (CodeGenerator.inferTypicalScope ["autonomous"; "global"]) 0.5
     = true.
Proof.
  split; [| split; reflexivity].
  intros characteristics l.
  pose proof (inferCompatibleStrata_cases characteristics) as H.
  fold l in H. split; [apply contiguousPrefix_cases; exact H |].
  split.
  - destruct H as [-> | [-> | [-> | ->]]]; simpl; tauto.
  - intros lower upper Hin Hlt.
    destruct H as [-> | [-> | [-> | ->]]]; simpl in Hin |- *;
      destruct lower, upper; simpl in Hlt; try lia; tauto || (intuition congruence).
Qed.

(* ================================================================== *)
(** * Properties of the gap analyzer *)
(* ================================================================== *)

(** A threshold of at most 1 is not above the fit score 1. *)
Lemma SF_leb_not_ltb (x : spec_float) (m1 : positive) (e1 : Z) :
  SFleb x (S754_finite false m1 e1) = true ->
  SFltb (S754_finite false m1 e1) x = false.
Proof.
  unfold SFleb, SFltb, SFcompare.
  destruct x as [s | s | | s m e].
  - destruct s; congruence.
  - destruct s; congruence.
  - congruence.
  - destruct s; try congruence.
    rewrite (Z.compare_antisym e e1).
    destruct (e ?= e1)%Z; cbn [CompOpp]; try congruence.
    change (PosDef.Pos.compare_cont Eq m m1) with (Pos.compare m m1).
    change (PosDef.Pos.compare_cont Eq m1 m) with (Pos.compare m1 m).
    rewrite (Pos.compare_antisym m m1).
    destruct (m ?= m1)%positive; cbn [CompOpp]; congruence.
Qed.

Lemma one_Prim2SF : Prim2SF 1 = S754_finite false 4503599627370496 (-52).
Proof. vm_compute. reflexivity. Qed.

Lemma not_above_one (t : float) :
  PrimFloat.leb t 1 = true -> PrimFloat.ltb 1 t = false.
Proof.
  rewrite leb_spec, ltb_spec, one_Prim2SF. apply SF_leb_not_ltb.
Qed.

Lemma typical_pair_scores_one (entity : Entity) :
  closure (config entity) = GapAnalyzer.typicalClosure (entity_domain entity) ->
  scope (config entity) = GapAnalyzer.typicalScope (entity_domain entity) ->
  GapAnalyzer.calculateDomainFitScore entity = 1%float.
Proof.
  unfold GapAnalyzer.calculateDomainFitScore. intros -> ->.
  destruct (entity_domain entity); vm_compute; reflexivity.
Qed.

(** C8, as the specification states it, fails: the misfit threshold is
    configurable, and under a threshold above 1 an entity that sits exactly
    on the typical pair of its domain, with fit score 1, is selected as a
    misfit. *)
Lemma C8_counterexample :
  closure (config (typicalEntity INERT)) = GapAnalyzer.typicalClosure INERT
  /\ scope (config (typicalEntity INERT)) = GapAnalyzer.typicalScope INERT
  /\ GapAnalyzer.calculateDomainFitScore (typicalEntity INERT) = 1%float
  /\ GapAnalyzer.selectMisfits permissiveConfig [typicalEntity INERT]
     = [typicalEntity INERT].
Proof. repeat split. Qed.

(** C8, amended. The domain-fit score of every entity is
    [1 - (|closure - typicalClosure| + |scope - typicalScope|) / 2] for the
    typical pair of its domain. An entity whose closure and scope equal the
    typical pair scores exactly 1, and it is not selected as a misfit by any
    analyzer whose misfit threshold is at most 1 (the default is 0.4). *)
Theorem C8_domain_fit_score
    (cfg : GapAnalyzer.GapAnalyzerConfig) (entity : Entity)
    (Hclosure : closure (config entity)
                = GapAnalyzer.typicalClosure (entity_domain entity))
    (Hscope : scope (config entity)
              = GapAnalyzer.typicalScope (entity_domain entity))
    (Hthreshold : PrimFloat.leb (GapAnalyzer.domainMisfitThreshold cfg) 1 = true) :
  (forall e : Entity,
      GapAnalyzer.calculateDomainFitScore e
      = (1 - (PrimFloat.abs
                (closure (config e) - GapAnalyzer.typicalClosure (entity_domain e))
              + PrimFloat.abs
                  (scope (config e) - GapAnalyzer.typicalScope (entity_domain e)))
             / 2)%float)
  /\ GapAnalyzer.calculateDomainFitScore entity = 1%float
  /\ GapAnalyzer.isMisfit cfg entity = false
  /\ (forall others : list Entity,
         In entity (GapAnalyzer.selectMisfits cfg others) -> False).
Proof.
  pose proof (typical_pair_scores_one entity Hclosure Hscope) as Hone.
  assert (Hfit : GapAnalyzer.isMisfit cfg entity = false).
  { unfold GapAnalyzer.isMisfit. rewrite Hone. now apply not_above_one. }
  split; [reflexivity |]. split; [exact Hone |]. split; [exact Hfit |].
  intros others Hin. unfold GapAnalyzer.selectMisfits in Hin.
  apply filter_In in Hin. destruct Hin as [_ Hin]. congruence.
Qed.

Lemma C8_domain_fit_score_witness :
  GapAnalyzer.calculateDomainFitScore (typicalEntity LIVING) = 1%float
  /\ GapAnalyzer.isMisfit GapAnalyzer.DEFAULT_CONFIG (typicalEntity LIVING)
     = false.
Proof.
  destruct (C8_domain_fit_score GapAnalyzer.DEFAULT_CONFIG
              (typicalEntity LIVING) eq_refl eq_refl eq_refl)
    as (_ & Hscore & Hfit & _).
  split; [exact Hscore | exact Hfit].
Defined.

Lemma analyzeAxiomTensions_cons (now : Z) (c : nat) (entity : Entity)
    (rest : list Entity) :
  fst (GapAnalyzer.analyzeAxiomTensions now c (entity :: rest))
  = fst (GapAnalyzer.tensionsOf now c entity)
    ++ fst (GapAnalyzer.analyzeAxiomTensions now
              (snd (GapAnalyzer.tensionsOf now c entity)) rest).
Proof.
  simpl. destruct (GapAnalyzer.tensionsOf now c entity) as [gs c1].
  cbn [fst snd].
  destruct (GapAnalyzer.analyzeAxiomTensions now c1 rest) as [gs' c2].
  reflexivity.
Qed.

Lemma analyzeAxiomTensions_emits (now : Z) (entity : Entity) (g : Gap) :
  forall (before after : list Entity) (c : nat),
    (forall c', In g (fst (GapAnalyzer.tensionsOf now c' entity))
                \/ exists g', In g' (fst (GapAnalyzer.tensionsOf now c' entity))
                              /\ gap_type g' = gap_type g
                              /\ gap_severity g' = gap_severity g
                              /\ suggestedAction g' = suggestedAction g
                              /\ gap_evidence g' = gap_evidence g) ->
    exists g',
      In g' (fst (GapAnalyzer.analyzeAxiomTensions now c
                    (before ++ entity :: after)))
      /\ gap_type g' = gap_type g
      /\ gap_severity g' = gap_severity g
      /\ suggestedAction g' = suggestedAction g
      /\ gap_evidence g' = gap_evidence g.
Proof.
  induction before as [| e before IH]; intros after c H.
  - simpl app. rewrite analyzeAxiomTensions_cons.
    destruct (H c) as [Hin | (g' & Hin & Hg')].
    + exists g. split; [apply in_or_app; left; exact Hin | tauto].
    + exists g'. split; [apply in_or_app; left; exact Hin | exact Hg'].
  - simpl app. rewrite analyzeAxiomTensions_cons.
    destruct (IH after (snd (GapAnalyzer.tensionsOf now c e)) H)
      as (g' & Hin & Hg').
    exists g'. split; [apply in_or_app; right; exact Hin | exact Hg'].
Qed.

Lemma tensionsOf_scenario (now : Z) (c : nat) (entity : Entity) :
  closure (config entity) = 0.85%float ->
  scope (config entity) = 0.75%float ->
  strata (config entity) = brokenNesting ->
  entity_domain entity <> IDEAL ->
  GapAnalyzer.tensionsOf now c entity
  = ([GapAnalyzer.nestingGap now (fst (GapAnalyzer.generateGapId now c)) entity],
     S c).
Proof.
  intros Hc Hs Hst Hd. unfold GapAnalyzer.tensionsOf.
  unfold GapAnalyzer.getActiveStrata. rewrite Hc, Hs, Hst.
  destruct (entity_domain entity); try contradiction; reflexivity.
Qed.

(** An IDEAL entity leaves the iteration at the A3 exemption, before the
    nesting check: no gap is emitted for it, whatever its strata. *)
Lemma tensionsOf_IDEAL (now : Z) (c : nat) (entity : Entity) :
  entity_domain entity = IDEAL ->
  GapAnalyzer.tensionsOf now c entity = ([], c).
Proof. unfold GapAnalyzer.tensionsOf. now intros ->. Qed.

(** C4, as the specification states it, fails: for the first sample entity
    of the demonstration (closure 0.85, scope 0.75, MATTER and LOGOS only,
    domain ARTIFICIAL, which is not the exempt one) the analyzer emits the
    critical gap alone. It emits no low-severity tension gap, the scope 0.75
    being below the bound 0.8 that the closure-scope test requires of both
    values. *)
Lemma C4_counterexample :
  closure (config quantum_computer) = 0.85%float
  /\ scope (config quantum_computer) = 0.75%float
  /\ strata (config quantum_computer) = brokenNesting
  /\ entity_domain quantum_computer <> IDEAL
  /\ map gap_severity
       (fst (GapAnalyzer.analyzeAxiomTensions 0 0 [quantum_computer]))
     = [critical]
  /\ ~ (exists g : Gap,
          In g (fst (GapAnalyzer.analyzeAxiomTensions 0 0 [quantum_computer]))
          /\ gap_type g = axiom_tension /\ gap_severity g = low).
Proof.
  repeat split; try discriminate.
  intros (g & Hin & _ & Hlow).
  assert (Hall : Forall (fun g' => gap_severity g' = critical)
                   (fst (GapAnalyzer.analyzeAxiomTensions 0 0 [quantum_computer]))).
  { vm_compute. repeat constructor. }
  rewrite List.Forall_forall in Hall. apply Hall in Hin. congruence.
Qed.

(** C4, amended. For every entity with closure 0.85, scope 0.75 and strata
    MATTER and LOGOS without LIFE and SENTIENCE, whose domain is not IDEAL,
    the iteration of [analyzeAxiomTensions] for this entity emits exactly
    one gap: a critical axiom tension whose suggested action is axiom
    review. Such a gap is therefore among the gaps of every analysis of a
    list that contains the entity. No low-severity closure-scope gap is
    emitted for it: that gap requires both closure and scope above 0.8. *)
Theorem C4_broken_nesting_is_critical
    (entity : Entity)
    (Hclosure : closure (config entity) = 0.85%float)
    (Hscope : scope (config entity) = 0.75%float)
    (Hstrata : strata (config entity) = brokenNesting)
    (Hdomain : entity_domain entity <> IDEAL) :
  forall (now : Z) (gapCounter : nat),
    (exists g : Gap,
        GapAnalyzer.tensionsOf now gapCounter entity = ([g], S gapCounter)
        /\ criticalNestingGap entity g)
    /\ (forall before after : list Entity,
           exists g : Gap,
             In g (fst (GapAnalyzer.analyzeAxiomTensions now gapCounter
                          (before ++ entity :: after)))
             /\ criticalNestingGap entity g)
    /\ (JS.gt (closure (config entity)) 0.8
          && JS.gt (scope (config entity)) 0.8 = false).
Proof.
  intros now gapCounter. split; [| split].
  - eexists. split; [apply tensionsOf_scenario; assumption |].
    repeat split.
  - intros before after.
    destruct (analyzeAxiomTensions_emits now entity
                (GapAnalyzer.nestingGap now EmptyString entity)
                before after gapCounter) as (g & Hin & Ht & Hsev & Hact & Hev).
    + intros c'. right. eexists. split.
      * rewrite tensionsOf_scenario by assumption. left. reflexivity.
      * repeat split.
    + exists g. split; [exact Hin |].
      unfold criticalNestingGap. rewrite Ht, Hsev, Hact, Hev. repeat split.
  - rewrite Hclosure, Hscope. reflexivity.
Qed.

Lemma C4_broken_nesting_is_critical_witness :
  exists g : Gap,
    GapAnalyzer.tensionsOf 0 0 quantum_computer = ([g], 1%nat)
    /\ criticalNestingGap quantum_computer g.
Proof.
  assert (Hd : entity_domain quantum_computer <> IDEAL) by discriminate.
  exact (proj1 (C4_broken_nesting_is_critical quantum_computer
                  eq_refl eq_refl eq_refl Hd 0 0%nat)).
Defined.

(* ================================================================== *)
(** * Properties of the AXIS validator *)
(* ================================================================== *)

Section ValidatorProperties.

Variable checkA2Configuration : GeneratedCode -> CheckResult.
Variable checkA3ClosureScope : GeneratedCode -> CheckResult.
Variable checkA4StratalNesting : GeneratedCode -> CheckResult.
Variable checkA5CapabilityEmergence : GeneratedCode -> CheckResult.
Variable checkA10MinimalCharacterization : GeneratedCode -> CheckResult.
Variable toFixed : float -> nat -> string.

Local Abbreviation checkAxiom :=
  (AxisValidator.checkAxiom checkA2Configuration checkA3ClosureScope
     checkA4StratalNesting checkA5CapabilityEmergence
     checkA10MinimalCharacterization).
Local Abbreviation checkStep :=
  (AxisValidator.checkStep checkA2Configuration checkA3ClosureScope
     checkA4StratalNesting checkA5CapabilityEmergence
     checkA10MinimalCharacterization).
Local Abbreviation validate :=
  (AxisValidator.validate checkA2Configuration checkA3ClosureScope
     checkA4StratalNesting checkA5CapabilityEmergence
     checkA10MinimalCharacterization toFixed).

(** The loop of [validate] records as passed the axioms whose check neither
    violates nor warns, in order. *)
Lemma checkStep_passed (generated : GeneratedCode) (l : list AxisAxiom) :
  forall acc : AxisValidator.Acc,
    AxisValidator.acc_passed (fold_left (checkStep generated) l acc)
    = AxisValidator.acc_passed acc
      ++ map axiom_id
           (List.filter (fun a => passesCheck (checkAxiom a generated)) l).
Proof.
  induction l as [| a l IH]; intros acc; simpl.
  - now rewrite app_nil_r.
  - rewrite IH. unfold AxisValidator.checkStep, passesCheck.
    destruct (violated (checkAxiom a generated)); simpl; [reflexivity |].
    destruct (warning (checkAxiom a generated)); simpl; [reflexivity |].
    now rewrite <- app_assoc.
Qed.

(** It records one violation per axiom whose check violates. *)
Lemma checkStep_violations (generated : GeneratedCode) (l : list AxisAxiom) :
  forall acc : AxisValidator.Acc,
    length (AxisValidator.acc_violations (fold_left (checkStep generated) l acc))
    = (length (AxisValidator.acc_violations acc)
       + length (List.filter (fun a => violated (checkAxiom a generated)) l))%nat.
Proof.
  induction l as [| a l IH]; intros acc; simpl.
  - lia.
  - rewrite IH. unfold AxisValidator.checkStep.
    destruct (violated (checkAxiom a generated)); simpl.
    + rewrite length_app. simpl. lia.
    + destruct (warning (checkAxiom a generated)); simpl; lia.
Qed.

(** C2. For every generated artifact, the result of [validate] is valid
    exactly when its list of violations is empty, and its score is the
    maximum of 0 and the number of passed axioms divided by the number of
    applicable axioms, minus 0.1 for every warning that requires review.
    The passed axioms are the applicable ones whose check neither violates
    nor warns, and there is one violation per applicable axiom whose check
    violates. *)
Theorem C2_validate_valid_and_score (generated : GeneratedCode) :
  let r := validate generated in
  let applicable := AxisValidator.relevantAxioms generated in
  (valid r = true <-> violations r = [])
  /\ score r
     = JS.Math_max 0
         (JS.of_nat (length (passed r)) / JS.of_nat (length applicable)
          - JS.of_nat (length (List.filter requiresReview (warnings r))) * 0.1)%float
  /\ passed r
     = map axiom_id
         (List.filter (fun a => passesCheck (checkAxiom a generated)) applicable)
  /\ length (violations r)
     = length (List.filter (fun a => violated (checkAxiom a generated)) applicable).
Proof.
  intros r applicable. split; [| split; [| split]].
  - unfold r, AxisValidator.validate. cbn [valid violations].
    destruct (AxisValidator.acc_violations _); simpl; split; congruence.
  - reflexivity.
  - unfold r, AxisValidator.validate. cbn [passed].
    now rewrite checkStep_passed.
  - unfold r, AxisValidator.validate. cbn [violations].
    now rewrite checkStep_violations.
Qed.

End ValidatorProperties.

(* ================================================================== *)
(** * Properties of the review queue *)
(* ================================================================== *)

Lemma Map_get_id (id : string) (l : list ReviewItem) (item : ReviewItem) :
  ReviewQueue.Map_get id l = Some item -> item_id item = id.
Proof.
  unfold ReviewQueue.Map_get. intros H. apply find_some in H.
  destruct H as [_ H]. now apply String.eqb_eq in H.
Qed.

Lemma Map_get_In (id : string) (l : list ReviewItem) (item : ReviewItem) :
  ReviewQueue.Map_get id l = Some item -> In item l.
Proof.
  unfold ReviewQueue.Map_get. intros H. apply find_some in H. tauto.
Qed.

Lemma Map_get_set_same (item : ReviewItem) (l : list ReviewItem) :
  ReviewQueue.Map_get (item_id item) (ReviewQueue.Map_set item l) = Some item.
Proof.
  unfold ReviewQueue.Map_get.
  induction l as [| x l IH]; simpl.
  - now rewrite String.eqb_refl.
  - destruct (String.eqb (item_id x) (item_id item)) eqn:E; simpl.
    + now rewrite String.eqb_refl.
    + now rewrite E.
Qed.

Lemma Map_get_set_other (id : string) (item : ReviewItem) (l : list ReviewItem) :
  item_id item <> id ->
  ReviewQueue.Map_get id (ReviewQueue.Map_set item l) = ReviewQueue.Map_get id l.
Proof.
  intros Hne. unfold ReviewQueue.Map_get.
  assert (Hitem : String.eqb (item_id item) id = false)
    by now apply String.eqb_neq.
  induction l as [| x l IH]; simpl.
  - now rewrite Hitem.
  - destruct (String.eqb (item_id x) (item_id item)) eqn:E; simpl.
    + apply String.eqb_eq in E. rewrite E, Hitem. reflexivity.
    + destruct (String.eqb (item_id x) id); [reflexivity | exact IH].
Qed.

(** The guards of the three operations: a missing item and an item that is
    not pending both throw, and the queue is as it was. *)
Lemma pendingItem_spec (id : string) (q : ReviewQueue.Queue) :
  match ReviewQueue.pendingItem id q with
  | (inr item, q') =>
      q' = q /\ ReviewQueue.get id q = Some item /\ status item = pending
  | (inl e, q') =>
      q' = q
      /\ ((ReviewQueue.get id q = None /\ e = ReviewItemNotFound id)
          \/ (exists item, ReviewQueue.get id q = Some item
                           /\ status item <> pending
                           /\ e = ItemNotPending id))
  end.
Proof.
  unfold ReviewQueue.pendingItem, ReviewQueue.get.
  destruct (ReviewQueue.Map_get id (ReviewQueue.items q)) as [item |] eqn:E.
  - destruct (status item) eqn:Es; simpl; try (split; [reflexivity |]; right;
      exists item; repeat split; congruence).
    repeat split; assumption.
  - split; [reflexivity |]. left. split; reflexivity.
Qed.

Lemma pendingItem_not_pending (id : string) (q : ReviewQueue.Queue)
    (item : ReviewItem) :
  ReviewQueue.get id q = Some item -> status item <> pending ->
  ReviewQueue.pendingItem id q = (inl (ItemNotPending id), q).
Proof.
  unfold ReviewQueue.pendingItem, ReviewQueue.get. intros -> Hst.
  destruct (status item); simpl; congruence.
Qed.

(** What a call does: it throws and leaves the queue as it was, or the item
    was pending and is stored again, no longer pending. *)
Lemma runCall_spec (c : ReviewCall) (q : ReviewQueue.Queue) :
  match runCall c q with
  | (inl _, q') => q' = q
  | (inr item', q') =>
      (exists item, ReviewQueue.get (call_id c) q = Some item
                    /\ status item = pending)
      /\ item_id item' = call_id c
      /\ status item' <> pending
      /\ ReviewQueue.items q' = ReviewQueue.Map_set item' (ReviewQueue.items q)
  end.
Proof.
  destruct c as [id reviewer notes now | id reviewer reason now
                | id reviewer mods notes now]; simpl;
    unfold ReviewQueue.approve, ReviewQueue.reject,
      ReviewQueue.modifyAndApprove, bind;
    pose proof (pendingItem_spec id q) as H;
    destruct (ReviewQueue.pendingItem id q) as [[e | item] q1];
    try (destruct H as [-> _]; reflexivity);
    destruct H as (-> & Hget & Hst); simpl;
    (split; [exists item; split; assumption |]);
    (split; [eapply Map_get_id; exact Hget |]);
    (split; [discriminate | reflexivity]).
Qed.

Lemma transitions_none (id : string) (calls : list ReviewCall) :
  forall q : ReviewQueue.Queue,
    match ReviewQueue.get id q with
    | Some item => status item <> pending
    | None => True
    end ->
    transitions id calls q = 0%nat.
Proof.
  induction calls as [| c calls IH]; intros q Hq; simpl; [reflexivity |].
  pose proof (runCall_spec c q) as Hc.
  destruct (runCall c q) as [[e | item'] q'].
  - subst q'. now rewrite IH.
  - destruct Hc as ((item & Hget & Hpend) & Hid & Hst & Hitems).
    destruct (String.eqb (call_id c) id) eqn:E.
    + apply String.eqb_eq in E. subst id. rewrite Hget in Hq. contradiction.
    + apply String.eqb_neq in E. rewrite IH; [reflexivity |].
      unfold ReviewQueue.get in *. rewrite Hitems.
      rewrite Map_get_set_other by congruence. exact Hq.
Qed.

Lemma transitions_at_most_once (id : string) (calls : list ReviewCall) :
  forall q : ReviewQueue.Queue, (transitions id calls q <= 1)%nat.
Proof.
  induction calls as [| c calls IH]; intros q; simpl; [lia |].
  pose proof (runCall_spec c q) as Hc.
  destruct (runCall c q) as [[e | item'] q'].
  - simpl. apply IH.
  - destruct Hc as (_ & Hid & Hst & Hitems).
    destruct (String.eqb (call_id c) id) eqn:E.
    + apply String.eqb_eq in E. rewrite transitions_none; [lia |].
      unfold ReviewQueue.get. rewrite Hitems, <- E, <- Hid.
      rewrite Map_get_set_same. exact Hst.
    + simpl. apply IH.
Qed.

(** C1. When the item stored under [id] is not pending, [approve], [reject]
    and [modifyAndApprove] on [id] each throw the not-pending error and
    leave the queue, and so the item, exactly as they were; no later
    sequence of such calls makes a transition on [id]. In any sequence of
    calls from any queue, at most one call on a given id returns normally:
    an item leaves [pending] at most once. *)
Theorem C1_non_pending_item_is_final
    (q : ReviewQueue.Queue) (id : string) (item : ReviewItem)
    (Hget : ReviewQueue.get id q = Some item)
    (Hstatus : status item <> pending) :
  (forall (reviewer reason mods : string) (notes : option string) (now : Z),
      ReviewQueue.approve id reviewer notes now q = (inl (ItemNotPending id), q)
      /\ ReviewQueue.reject id reviewer reason now q
         = (inl (ItemNotPending id), q)
      /\ ReviewQueue.modifyAndApprove id reviewer mods notes now q
         = (inl (ItemNotPending id), q))
  /\ (forall calls : list ReviewCall, transitions id calls q = 0%nat)
  /\ (forall (calls : list ReviewCall) (q0 : ReviewQueue.Queue) (id0 : string),
         (transitions id0 calls q0 <= 1)%nat).
Proof.
  split; [| split].
  - intros reviewer reason mods notes now.
    unfold ReviewQueue.approve, ReviewQueue.reject,
      ReviewQueue.modifyAndApprove, bind.
    rewrite (pendingItem_not_pending id q item Hget Hstatus). auto.
  - intros calls. apply transitions_none. now rewrite Hget.
  - intros calls q0 id0. apply transitions_at_most_once.
Qed.

Lemma C1_non_pending_item_is_final_witness :
  ReviewQueue.approve "r1" "alice" None 20
    (sampleQueue 100 [sampleItem "r1" approved medium 10])
  = (inl (ItemNotPending "r1"),
     sampleQueue 100 [sampleItem "r1" approved medium 10]).
Proof.
  assert (Hst : status (sampleItem "r1" approved medium 10) <> pending)
    by discriminate.
  exact (proj1 (proj1 (C1_non_pending_item_is_final
                         (sampleQueue 100 [sampleItem "r1" approved medium 10])
                         "r1" (sampleItem "r1" approved medium 10)
                         eq_refl Hst)
                  "alice" EmptyString EmptyString None 20)).
Defined.

(** ** The order of [listPending] *)

Section SortProperties.

Context {A : Type} (cmp : A -> A -> Z).

Lemma insert_sorted_perm (x : A) (l : list A) :
  Permutation (JS.insert_sorted cmp x l) (x :: l).
Proof.
  induction l as [| y l IH]; simpl.
  - apply Permutation_refl.
  - destruct (cmp x y <=? 0).
    + apply Permutation_refl.
    + eapply perm_trans; [apply perm_skip, IH | apply perm_swap].
Qed.

Lemma sort_perm (l : list A) : Permutation (JS.sort cmp l) l.
Proof.
  induction l as [| x l IH]; simpl.
  - apply perm_nil.
  - eapply perm_trans; [apply insert_sorted_perm | apply perm_skip, IH].
Qed.

Hypothesis cmp_total : forall a b : A, cmp a b <= 0 \/ cmp b a <= 0.
Hypothesis cmp_trans :
  forall a b c : A, cmp a b <= 0 -> cmp b c <= 0 -> cmp a c <= 0.

Lemma insert_sorted_sorted (x : A) (l : list A) :
  StronglySorted (fun a b => cmp a b <= 0) l ->
  StronglySorted (fun a b => cmp a b <= 0) (JS.insert_sorted cmp x l).
Proof.
  induction 1 as [| y l Hl IH Hy]; simpl.
  - constructor; constructor.
  - destruct (cmp x y <=? 0) eqn:E.
    + apply Z.leb_le in E. constructor.
      * constructor; assumption.
      * constructor; [exact E |].
        eapply List.Forall_impl; [| exact Hy]. intros b Hb. simpl in Hb.
        eapply cmp_trans; eassumption.
    + apply Z.leb_gt in E. constructor; [exact IH |].
      eapply Permutation_Forall.
      * apply Permutation_sym, insert_sorted_perm.
      * constructor; [| exact Hy].
        destruct (cmp_total y x); [assumption | lia].
Qed.

Lemma sort_sorted (l : list A) :
  StronglySorted (fun a b => cmp a b <= 0) (JS.sort cmp l).
Proof.
  induction l as [| x l IH]; simpl.
  - constructor.
  - now apply insert_sorted_sorted.
Qed.

End SortProperties.

Lemma StronglySorted_weaken {A : Type} (R R' : A -> A -> Prop) (l : list A) :
  (forall a b : A, R a b -> R' a b) ->
  StronglySorted R l -> StronglySorted R' l.
Proof.
  intros HR. induction 1 as [| a l Hl IH Ha]; constructor; [exact IH |].
  eapply List.Forall_impl; [| exact Ha]. intros b Hb. now apply HR.
Qed.

Lemma priorityOrder_inj (p p' : Severity) :
  ReviewQueue.priorityOrder p = ReviewQueue.priorityOrder p' -> p = p'.
Proof. destruct p, p'; simpl; intros H; congruence || lia. Qed.

Lemma comparePending_order (a b : ReviewItem) :
  ReviewQueue.comparePending a b <= 0 <-> pendingOrder a b.
Proof.
  unfold ReviewQueue.comparePending, pendingOrder.
  destruct (ReviewQueue.priorityOrder (priority a)
            - ReviewQueue.priorityOrder (priority b) =? 0) eqn:E; simpl.
  - apply Z.eqb_eq in E.
    assert (Hp : priority a = priority b) by (apply priorityOrder_inj; lia).
    split; [intros H; right; split; [exact Hp | lia] |].
    intros [H | [_ H]]; lia.
  - apply Z.eqb_neq in E. split; [intros H; left; lia |].
    intros [H | [Hp H]]; [lia |]. rewrite Hp in E. lia.
Qed.

Lemma comparePending_total (a b : ReviewItem) :
  ReviewQueue.comparePending a b <= 0 \/ ReviewQueue.comparePending b a <= 0.
Proof.
  rewrite !comparePending_order. unfold pendingOrder.
  destruct (Z.lt_trichotomy (ReviewQueue.priorityOrder (priority a))
              (ReviewQueue.priorityOrder (priority b))) as [H | [H | H]];
    [tauto | | tauto].
  apply priorityOrder_inj in H.
  destruct (Z.le_ge_cases (createdAt a) (createdAt b)); [left | right];
    right; split; congruence || lia.
Qed.

Lemma comparePending_trans (a b c : ReviewItem) :
  ReviewQueue.comparePending a b <= 0 -> ReviewQueue.comparePending b c <= 0 ->
  ReviewQueue.comparePending a c <= 0.
Proof.
  rewrite !comparePending_order. unfold pendingOrder.
  intros [H1 | [H1 H1']] [H2 | [H2 H2']].
  - left; lia.
  - left; rewrite <- H2; exact H1.
  - left; rewrite H1; exact H2.
  - right; split; [congruence | lia].
Qed.

(** After the sweep of [expireOldItems], the pending items are those that
    were pending and not past their deadline, unchanged. *)
Lemma filter_pending_after_sweep (now : Z) (l : list ReviewItem) :
  List.filter ReviewQueue.isPending (map (ReviewQueue.expireIfOld now) l)
  = List.filter (pendingAt now) l.
Proof.
  induction l as [| item l IH]; simpl; [reflexivity |].
  rewrite IH. unfold pendingAt, ReviewQueue.expireIfOld, ReviewQueue.isPending.
  destruct (ReviewStatus_eqb (status item) pending) eqn:Es;
    destruct (expiresAt item <? now); simpl; rewrite ?Es; reflexivity.
Qed.

Lemma listPending_eq (now : Z) (q : ReviewQueue.Queue) :
  ReviewQueue.listPending now q
  = (inr (JS.sort ReviewQueue.comparePending
            (List.filter (pendingAt now) (ReviewQueue.items q))),
     ReviewQueue.with_items q
       (map (ReviewQueue.expireIfOld now) (ReviewQueue.items q))).
Proof.
  unfold ReviewQueue.listPending, bind, ReviewQueue.expireOldItems, get_state,
    ret. cbn [ReviewQueue.items ReviewQueue.with_items].
  now rewrite filter_pending_after_sweep.
Qed.

(** C5. For every queue and every time, [listPending] returns exactly the
    items that are pending and not past their deadline, each once and as
    stored, ordered by priority (critical, high, medium, low) and, within a
    priority, by ascending creation time. *)
Theorem C5_listPending_exact_and_sorted (q : ReviewQueue.Queue) (now : Z) :
  exists res : list ReviewItem,
    fst (ReviewQueue.listPending now q) = inr res
    /\ Permutation res (List.filter (pendingAt now) (ReviewQueue.items q))
    /\ StronglySorted pendingOrder res.
Proof.
  rewrite listPending_eq. eexists. split; [reflexivity |]. split.
  - apply sort_perm.
  - eapply StronglySorted_weaken.
    + intros a b H. apply comparePending_order. exact H.
    + apply sort_sorted;
        [apply comparePending_total | apply comparePending_trans].
Qed.

(* ================================================================== *)
(** * Properties of the integrator *)
(* ================================================================== *)




(** Integration into a path that holds no file creates it. *)
Lemma integrate_created (cfg : Integrator.IntegratorConfig) (now : Z)
    (iso : string) (item : ReviewItem) (generated : GeneratedCode)
    (st : Integrator.State) :
  generatedCode item = Some generated ->
  Integrator.dryRun cfg = false ->
  Integrator.fs st !! targetPathOf cfg generated = None ->
  Integrator.integrate cfg now iso item st
  = (inr {| success := true; res_itemId := item_id item;
            res_generatedCodeId := gen_id generated;
            res_targetFile := targetFile generated;
            action := act_created; error := None; backup := None;
            res_timestamp := now |},
     {| Integrator.fs :=
          <[targetPathOf cfg generated := Integrator.wrapNewFile iso generated]>
            (Integrator.fs st);
        Integrator.history :=
          Integrator.history st ++ [historyEntryOf now item generated None] |}).
Proof.
  intros Hgen Hdry Hnone. unfold targetPathOf in Hnone.
  unfold Integrator.integrate. rewrite Hgen.
  unfold try_catch, bind, get_state, Integrator.existsSync.
  rewrite Hnone, andb_false_r. unfold ret at 1.
  unfold Integrator.applyCode, bind, get_state. rewrite Hdry, Hnone.
  reflexivity.
Qed.










(* ================================================================== *)
(** * Properties of the engine *)
(* ================================================================== *)

(** C3, as the specification states it, fails for [Integrator.integrate]:
    the method does not look at the status. Given a pending item that
    carries generated code, it creates the target file and appends a
    record to the history. *)
Lemma C3_counterexample :
  status (sampleItem "r1" pending medium 10) = pending
  /\ Integrator.fs emptyState !! targetPathOf atlasConfig sampleCode = None
  /\ Integrator.history emptyState = []
  /\ exists (res : IntegrationResult) (st' : Integrator.State),
       Integrator.integrate atlasConfig 20 "2026-01-01T00:00:00.000Z"
         (sampleItem "r1" pending medium 10) emptyState
       = (inr res, st')
       /\ success res = true
       /\ action res = act_created
       /\ Integrator.fs st' !! targetPathOf atlasConfig sampleCode
          = Some (Integrator.wrapNewFile "2026-01-01T00:00:00.000Z" sampleCode)
       /\ length (Integrator.history st') = 1%nat.
Proof.
  split; [reflexivity |]. split; [reflexivity |]. split; [reflexivity |].
  rewrite (integrate_created atlasConfig 20 "2026-01-01T00:00:00.000Z"
             (sampleItem "r1" pending medium 10) sampleCode emptyState)
    by reflexivity.
  do 2 eexists. split; [reflexivity |].
  split; [reflexivity |]. split; [reflexivity |].
  split; [apply lookup_insert_eq | reflexivity].
Qed.

(** C3, amended. The status is checked by the engine: for every item of the
    queue whose status is neither approved nor modified,
    [integrateApproved] throws the not-approved error before it calls the
    integrator, so that no file is written and the history, the queue and
    the rest of the state are unchanged. [Integrator.integrate] itself
    performs no status check. *)
Theorem C3_integrateApproved_requires_approval
    (cfg : SelfProductionEngine.SelfProductionConfig) (now : Z) (iso : string)
    (s : SelfProductionEngine.State) (id : string) (item : ReviewItem)
    (Hget : ReviewQueue.get id (SelfProductionEngine.reviewQueue s) = Some item)
    (Hnot_approved : status item <> approved)
    (Hnot_modified : status item <> modified) :
  SelfProductionEngine.integrateApproved cfg now iso id s
  = (inl (ItemNotApproved id), s).
Proof.
  unfold SelfProductionEngine.integrateApproved, bind, get_state.
  rewrite Hget. destruct (status item); try contradiction; reflexivity.
Qed.

Lemma C3_integrateApproved_requires_approval_witness :
  SelfProductionEngine.integrateApproved atlasEngineConfig 20
    "2026-01-01T00:00:00.000Z" "r1" pendingEngine
  = (inl (ItemNotApproved "r1"), pendingEngine).
Proof.
  assert (Ha : status (sampleItem "r1" pending medium 10) <> approved)
    by discriminate.
  assert (Hm : status (sampleItem "r1" pending medium 10) <> modified)
    by discriminate.
  exact (C3_integrateApproved_requires_approval atlasEngineConfig 20
           "2026-01-01T00:00:00.000Z" pendingEngine "r1"
           (sampleItem "r1" pending medium 10) eq_refl Ha Hm).
Defined.

(* ================================================================== *)
(** * The capacity policy of the review queue *)
(* ================================================================== *)













Lemma enforceMaxPending_eq (now : Z) (q : ReviewQueue.Queue) :
  let swept := map (ReviewQueue.expireIfOld now) (ReviewQueue.items q) in
  let pendingItems :=
    JS.sort ReviewQueue.comparePending
      (List.filter (pendingAt now) (ReviewQueue.items q)) in
  ReviewQueue.enforceMaxPending now q
  = (inr tt,
     ReviewQueue.with_items q
       (if ReviewQueue.maxPending (ReviewQueue.queue_config q)
           <? Z.of_nat (length pendingItems)
        then ReviewQueue.expireLoop now
               (JS.sort ReviewQueue.compareCreated
                  (List.filter ReviewQueue.isLow pendingItems))
               (Z.of_nat (length pendingItems)
                - ReviewQueue.maxPending (ReviewQueue.queue_config q))
               swept
        else swept)).
Proof.
  intros swept pendingItems.
  unfold ReviewQueue.enforceMaxPending, bind. rewrite listPending_eq.
  unfold get_state. cbn [ReviewQueue.queue_config ReviewQueue.with_items
    ReviewQueue.items].
  fold pendingItems.
  destruct (ReviewQueue.maxPending (ReviewQueue.queue_config q)
            <? Z.of_nat (length pendingItems)); reflexivity.
Qed.


(** The two entry paths that enforce the capacity: the queue they leave is
    the one [enforceMaxPending] leaves once the new item is stored. *)
Lemma addCodeReview_enforces (q : ReviewQueue.Queue) (gap : Gap)
    (generated : GeneratedCode) (val : ValidationResult) (now : Z) :
  snd (ReviewQueue.addCodeReview gap generated val now q)
  = snd (ReviewQueue.enforceMaxPending now
           (stored q (codeReviewItem q gap generated val now))).
Proof.
  unfold ReviewQueue.addCodeReview, bind, ReviewQueue.generateId, get_state,
    ReviewQueue.store.
  cbn [ReviewQueue.queue_config ReviewQueue.items ReviewQueue.with_items].
  fold (nextId q now). fold (codeReviewItem q gap generated val now).
  change (ReviewQueue.with_items _ _)
    with (stored q (codeReviewItem q gap generated val now)).
  rewrite enforceMaxPending_eq. reflexivity.
Qed.

Lemma addGapReview_enforces (q : ReviewQueue.Queue) (gap : Gap) (now : Z) :
  snd (ReviewQueue.addGapReview gap now q)
  = snd (ReviewQueue.enforceMaxPending now (stored q (gapReviewItem q gap now))).
Proof.
  unfold ReviewQueue.addGapReview, bind, ReviewQueue.generateId, get_state,
    ReviewQueue.store.
  cbn [ReviewQueue.queue_config ReviewQueue.items ReviewQueue.with_items].
  fold (nextId q now). fold (gapReviewItem q gap now).
  change (ReviewQueue.with_items _ _) with (stored q (gapReviewItem q gap now)).
  rewrite enforceMaxPending_eq. reflexivity.
Qed.

(** The third entry path stores the new item and stops there. *)
Lemma addAxiomReview_stores_only (q : ReviewQueue.Queue) (gap : Gap) (now : Z) :
  ReviewQueue.addAxiomReview gap now q
  = (inr (axiomReviewItem q gap now), stored q (axiomReviewItem q gap now)).
Proof. reflexivity. Qed.


(** C6, at the failing input. The queue holds one pending low-priority
    item and its maximum is one pending item. [addAxiomReview] leaves two
    pending items, the low-priority one among them: the capacity is
    exceeded and nothing is expired. On the same queue [addGapReview]
    marks the low-priority item expired, as the specification requires of
    every entry path. *)
Theorem C6_addAxiomReview_skips_capacity :
  let q := sampleQueue 1 [sampleItem "r1" pending low 10] in
  ReviewQueue.maxPending (ReviewQueue.queue_config q) = 1
  /\ map summary
       (ReviewQueue.items (snd (ReviewQueue.addAxiomReview criticalGap 20 q)))
     = [("r1", pending, low); ("review_20_2", pending, critical)]
  /\ map summary
       (ReviewQueue.items (snd (ReviewQueue.addGapReview criticalGap 20 q)))
     = [("r1", expired, low); ("review_20_2", pending, critical)].
Proof. repeat split. Qed.

(* ================================================================== *)
(** * Strata of an entity: nesting, boundaries and missing strata *)
(* ================================================================== *)

Lemma has_In (l : list Stratum) (s : Stratum) :
  GapAnalyzer.has l s = true <-> In s l.
Proof.
  unfold GapAnalyzer.has. rewrite existsb_exists. split.
  - intros (t & Ht & Heq). destruct s, t; try discriminate; exact Ht.
  - intros H. exists s. split; [exact H | destruct s; reflexivity].
Qed.

Lemma indexOf_inj (s t : Stratum) :
  GapAnalyzer.indexOf s = GapAnalyzer.indexOf t -> s = t.
Proof. destruct s, t; cbn; congruence. Qed.

(** X1. [respectsStratalNesting] rejects a set of strata exactly when an
    inactive stratum lies between two active ones. A set whose lowest
    strata are inactive, such as LIFE alone, is accepted. *)
Theorem respectsStratalNesting_false_iff (l : list Stratum) :
  GapAnalyzer.respectsStratalNesting l = false
  <-> exists lower mid upper,
        (GapAnalyzer.indexOf lower < GapAnalyzer.indexOf mid)%nat
        /\ (GapAnalyzer.indexOf mid < GapAnalyzer.indexOf upper)%nat
        /\ GapAnalyzer.has l lower = true
        /\ GapAnalyzer.has l mid = false
        /\ GapAnalyzer.has l upper = true.
Proof.
  unfold GapAnalyzer.respectsStratalNesting, GapAnalyzer.order,
    GapAnalyzer.nestingLoop.
  destruct (GapAnalyzer.has l MATTER) eqn:HM,
           (GapAnalyzer.has l LIFE) eqn:HL,
           (GapAnalyzer.has l SENTIENCE) eqn:HS,
           (GapAnalyzer.has l LOGOS) eqn:HG;
    (split;
     [ intros H; try discriminate H;
       first [ exists MATTER, LIFE, SENTIENCE; cbn; repeat split; (lia || assumption)
             | exists MATTER, LIFE, LOGOS; cbn; repeat split; (lia || assumption)
             | exists MATTER, SENTIENCE, LOGOS; cbn; repeat split; (lia || assumption)
             | exists LIFE, SENTIENCE, LOGOS; cbn; repeat split; (lia || assumption) ]
     | intros (lo & mi & up & H1 & H2 & H3 & H4 & H5);
       try reflexivity;
       destruct lo, mi, up; cbn in H1, H2; try lia; congruence ]).
Qed.

(** The strata test of [analyzeStratumBoundaries] accepts exactly the sets
    that are closed downwards. *)
Lemma hasUnusualStratumCombination_false_iff (l : list Stratum) :
  GapAnalyzer.hasUnusualStratumCombination l = false
  <-> forall s t, GapAnalyzer.has l t = true ->
        (GapAnalyzer.indexOf s < GapAnalyzer.indexOf t)%nat ->
        GapAnalyzer.has l s = true.
Proof.
  unfold GapAnalyzer.hasUnusualStratumCombination.
  destruct (GapAnalyzer.has l MATTER) eqn:HM,
           (GapAnalyzer.has l LIFE) eqn:HL,
           (GapAnalyzer.has l SENTIENCE) eqn:HS,
           (GapAnalyzer.has l LOGOS) eqn:HG; cbn;
    (split;
     [ intros H; try discriminate H;
       intros s t Ht Hlt; destruct s, t; cbn in Hlt; try lia; congruence
     | intros H; try reflexivity; exfalso;
       try (pose proof (H MATTER LIFE HL ltac:(cbn; lia)));
       try (pose proof (H MATTER SENTIENCE HS ltac:(cbn; lia)));
       try (pose proof (H MATTER LOGOS HG ltac:(cbn; lia)));
       try (pose proof (H LIFE SENTIENCE HS ltac:(cbn; lia)));
       try (pose proof (H LIFE LOGOS HG ltac:(cbn; lia)));
       try (pose proof (H SENTIENCE LOGOS HG ltac:(cbn; lia)));
       congruence ]).
Qed.

Lemma nesting_violation_is_unusual (l : list Stratum) :
  GapAnalyzer.respectsStratalNesting l = false ->
  GapAnalyzer.hasUnusualStratumCombination l = true.
Proof.
  unfold GapAnalyzer.respectsStratalNesting, GapAnalyzer.order,
    GapAnalyzer.nestingLoop, GapAnalyzer.hasUnusualStratumCombination.
  destruct (GapAnalyzer.has l MATTER), (GapAnalyzer.has l LIFE),
           (GapAnalyzer.has l SENTIENCE), (GapAnalyzer.has l LOGOS);
    cbn; congruence.
Qed.

Lemma highest_bound (l : list Stratum) (t : Stratum) :
  In t l ->
  (GapAnalyzer.indexOf t
   <= fold_right Nat.max 0%nat (map GapAnalyzer.indexOf l))%nat.
Proof.
  induction l as [| x l IH]; intros H; [destruct H |].
  cbn [map fold_right]. destruct H as [-> | H]; [lia |].
  specialize (IH H). lia.
Qed.

Lemma highest_attained (l : list Stratum) :
  l <> [] ->
  exists t, In t l
    /\ GapAnalyzer.indexOf t
       = fold_right Nat.max 0%nat (map GapAnalyzer.indexOf l).
Proof.
  induction l as [| x l IH]; intros H; [congruence |].
  destruct l as [| y l'].
  - exists x. split; [left; reflexivity | cbn; lia].
  - destruct IH as (t & Ht & Heq); [discriminate |].
    cbn [map fold_right] in *.
    destruct (Nat.max_spec (GapAnalyzer.indexOf x)
                (Nat.max (GapAnalyzer.indexOf y)
                   (fold_right Nat.max 0%nat (map GapAnalyzer.indexOf l'))))
      as [[_ E] | [_ E]]; rewrite E.
    + exists t. split; [right; exact Ht | exact Heq].
    + exists x. split; [left; reflexivity | reflexivity].
Qed.

Lemma In_firstn_order (s : Stratum) (hi : nat) :
  In s (firstn (S hi) GapAnalyzer.order) <-> (GapAnalyzer.indexOf s <= hi)%nat.
Proof.
  unfold GapAnalyzer.order.
  destruct hi as [| [| [| [| hi]]]]; destruct s; cbn; split; intros H;
    try lia; try tauto;
    repeat (destruct H as [H | H]; try discriminate H); try contradiction.
Qed.

Lemma getMissingStrata_In (l : list Stratum) (s : Stratum) :
  In s (GapAnalyzer.getMissingStrata l)
  <-> GapAnalyzer.has l s = false
      /\ exists t, In t l
           /\ (GapAnalyzer.indexOf s < GapAnalyzer.indexOf t)%nat.
Proof.
  destruct l as [| x l'] eqn:El.
  - cbn. split; [tauto | intros (_ & t & [] & _)].
  - rewrite <- El. assert (Hne : l <> []) by (rewrite El; discriminate).
    replace (GapAnalyzer.getMissingStrata l)
      with (List.filter (fun s => negb (GapAnalyzer.has l s))
              (firstn (S (fold_right Nat.max 0%nat
                            (map GapAnalyzer.indexOf l)))
                 GapAnalyzer.order))
      by (rewrite El; reflexivity).
    rewrite filter_In, In_firstn_order, negb_true_iff. split.
    + intros (Hle & Hs). split; [exact Hs |].
      destruct (highest_attained l Hne) as (t & Ht & Heq).
      exists t. split; [exact Ht |].
      assert (GapAnalyzer.indexOf s <> GapAnalyzer.indexOf t).
      { intros E. apply indexOf_inj in E. subst t.
        apply has_In in Ht. congruence. }
      lia.
    + intros (Hs & t & Ht & Hlt). split; [| exact Hs].
      pose proof (highest_bound l t Ht). lia.
Qed.

(** X2. [getMissingStrata] returns exactly the inactive strata that lie
    below an active one, for any list of strata, repeated or unordered. It
    returns none exactly for the lists that [hasUnusualStratumCombination]
    accepts. *)
Theorem getMissingStrata_spec (l : list Stratum) :
  (forall s, In s (GapAnalyzer.getMissingStrata l)
     <-> GapAnalyzer.has l s = false
         /\ exists t, In t l
              /\ (GapAnalyzer.indexOf s < GapAnalyzer.indexOf t)%nat)
  /\ (GapAnalyzer.getMissingStrata l = []
      <-> GapAnalyzer.hasUnusualStratumCombination l = false).
Proof.
  split; [apply getMissingStrata_In |].
  rewrite hasUnusualStratumCombination_false_iff. split.
  - intros E s t Ht Hlt.
    destruct (GapAnalyzer.has l s) eqn:Hs; [reflexivity | exfalso].
    assert (Hin : In s (GapAnalyzer.getMissingStrata l)).
    { apply getMissingStrata_In. split; [exact Hs |].
      exists t. split; [apply has_In; exact Ht | exact Hlt]. }
    rewrite E in Hin. destruct Hin.
  - intros H. destruct (GapAnalyzer.getMissingStrata l) as [| s m] eqn:E;
      [reflexivity | exfalso].
    assert (Hin : In s (GapAnalyzer.getMissingStrata l))
      by (rewrite E; left; reflexivity).
    apply getMissingStrata_In in Hin. destruct Hin as (Hs & t & Ht & Hlt).
    apply has_In in Ht. rewrite (H s t Ht Hlt) in Hs. discriminate.
Qed.

(* ================================================================== *)
(** * What the axiom-tension and boundary analyses report *)
(* ================================================================== *)

Lemma tensionsOf_sound (now : Z) (c : nat) (e : Entity) (g : Gap) :
  In g (fst (GapAnalyzer.tensionsOf now c e)) ->
  entity_domain e <> IDEAL
  /\ ((g = GapAnalyzer.closureScopeGap now (gap_id g) e
       /\ JS.gt (closure (config e)) 0.8 = true
       /\ JS.gt (scope (config e)) 0.8 = true)
      \/ (g = GapAnalyzer.nestingGap now (gap_id g) e
          /\ GapAnalyzer.respectsStratalNesting (GapAnalyzer.getActiveStrata e)
             = false)).
Proof.
  unfold GapAnalyzer.tensionsOf, GapAnalyzer.generateGapId.
  destruct (JS.gt (closure (config e)) 0.8) eqn:Hc;
    destruct (JS.gt (scope (config e)) 0.8) eqn:Hs;
    destruct (GapAnalyzer.respectsStratalNesting (GapAnalyzer.getActiveStrata e))
      eqn:Hn;
    destruct (entity_domain e); cbn [andb negb fst snd app In];
    intros H; try contradiction;
    (split; [discriminate |]);
    repeat (destruct H as [H | H]; try contradiction);
    subst g; cbn [gap_id GapAnalyzer.closureScopeGap GapAnalyzer.nestingGap];
    solve [ left; repeat split; reflexivity
          | right; repeat split; reflexivity ].
Qed.

Lemma broken_nesting_has_missing (e : Entity) :
  GapAnalyzer.respectsStratalNesting (GapAnalyzer.getActiveStrata e) = false ->
  GapAnalyzer.getMissingStrata (GapAnalyzer.getActiveStrata e) <> [].
Proof.
  unfold GapAnalyzer.getActiveStrata.
  destruct (strata (config e)) as [[] [] [] []]; cbn; congruence.
Qed.

(** X3. Every gap returned by [analyzeAxiomTensions] stems from an entity
    of the input outside the IDEAL domain and is one of two gaps: the
    low-severity closure-scope gap, for an entity whose closure and scope
    both exceed 0.8, or the critical nesting gap, for an entity whose
    active strata fail [respectsStratalNesting]; the latter always lists
    at least one missing stratum. *)
Theorem analyzeAxiomTensions_sound (now : Z) (c : nat)
    (entities : list Entity) (g : Gap) :
  In g (fst (GapAnalyzer.analyzeAxiomTensions now c entities)) ->
  exists e, In e entities
    /\ entity_domain e <> IDEAL
    /\ gap_type g = axiom_tension
    /\ ((g = GapAnalyzer.closureScopeGap now (gap_id g) e
         /\ JS.gt (closure (config e)) 0.8 = true
         /\ JS.gt (scope (config e)) 0.8 = true)
        \/ (g = GapAnalyzer.nestingGap now (gap_id g) e
            /\ GapAnalyzer.respectsStratalNesting
                 (GapAnalyzer.getActiveStrata e) = false
            /\ GapAnalyzer.getMissingStrata (GapAnalyzer.getActiveStrata e)
               <> [])).
Proof.
  revert c. induction entities as [| e rest IH]; intros c H.
  - destruct H.
  - rewrite analyzeAxiomTensions_cons in H. apply in_app_or in H.
    destruct H as [H | H].
    + exists e. split; [left; reflexivity |].
      destruct (tensionsOf_sound now c e g H) as (Hd & Hcase).
      split; [exact Hd |].
      destruct Hcase as [(Hg & Hc & Hs) | (Hg & Hn)].
      * split; [rewrite Hg; reflexivity |]. left. tauto.
      * split; [rewrite Hg; reflexivity |]. right.
        split; [exact Hg |]. split; [exact Hn |].
        apply broken_nesting_has_missing. exact Hn.
    + destruct (IH _ H) as (e' & Hin & Hrest).
      exists e'. split; [right; exact Hin | exact Hrest].
Qed.

Lemma analyzeAxiomTensions_sound_witness :
  exists e, In e [platonic_machine; quantum_computer]
    /\ entity_domain e <> IDEAL
    /\ gap_type criticalGap = axiom_tension
    /\ ((criticalGap
         = GapAnalyzer.closureScopeGap 20 (gap_id criticalGap) e
         /\ JS.gt (closure (config e)) 0.8 = true
         /\ JS.gt (scope (config e)) 0.8 = true)
        \/ (criticalGap = GapAnalyzer.nestingGap 20 (gap_id criticalGap) e
            /\ GapAnalyzer.respectsStratalNesting
                 (GapAnalyzer.getActiveStrata e) = false
            /\ GapAnalyzer.getMissingStrata (GapAnalyzer.getActiveStrata e)
               <> [])).
Proof.
  apply (analyzeAxiomTensions_sound 20 0 [platonic_machine; quantum_computer]).
  vm_compute. left. reflexivity.
Defined.

Lemma isBoundary_iff (e : Entity) :
  GapAnalyzer.isBoundary e = true
  <-> ~ downwardClosed (GapAnalyzer.getActiveStrata e).
Proof.
  unfold GapAnalyzer.isBoundary, downwardClosed.
  rewrite <- hasUnusualStratumCombination_false_iff.
  destruct (GapAnalyzer.hasUnusualStratumCombination
              (GapAnalyzer.getActiveStrata e)); split; congruence.
Qed.

(** X4. [analyzeStratumBoundaries] returns no gap when the active strata
    of every entity are closed downwards. Otherwise it returns one gap of
    type [stratum_boundary] for manual review, of severity low or medium,
    with at most five pieces of evidence, that names every entity whose
    strata are not closed downwards. An entity with an inactive stratum
    between two active ones is among them whatever its domain, the IDEAL
    domain included. *)
Theorem analyzeStratumBoundaries_spec (now : Z) (c : nat)
    (entities : list Entity) :
  ((forall e, In e entities ->
      downwardClosed (GapAnalyzer.getActiveStrata e)) ->
   GapAnalyzer.analyzeStratumBoundaries now c entities = ([], c))
  /\ (forall e, In e entities ->
        ~ downwardClosed (GapAnalyzer.getActiveStrata e) ->
        exists g names,
          GapAnalyzer.analyzeStratumBoundaries now c entities = ([g], S c)
          /\ gap_id g = fst (GapAnalyzer.generateGapId now c)
          /\ gap_type g = stratum_boundary
          /\ (gap_severity g = low \/ gap_severity g = medium)
          /\ (length (gap_evidence g) <= 5)%nat
          /\ suggestedAction g
             = {| action_type := manual_review;
                  action_parameters := ReviewParameters names;
                  action_confidence := 0.5 |}
          /\ (forall e', In (entity_name e') names
                <-> exists e'', In e'' entities
                      /\ entity_name e'' = entity_name e'
                      /\ ~ downwardClosed (GapAnalyzer.getActiveStrata e'')))
  /\ (forall e,
        GapAnalyzer.respectsStratalNesting (GapAnalyzer.getActiveStrata e)
        = false ->
        ~ downwardClosed (GapAnalyzer.getActiveStrata e)).
Proof.
  split; [| split].
  - intros H. unfold GapAnalyzer.analyzeStratumBoundaries.
    replace (List.filter GapAnalyzer.isBoundary entities) with (@nil Entity);
      [reflexivity |].
    symmetry. induction entities as [| e rest IH]; [reflexivity |].
    cbn [List.filter].
    destruct (GapAnalyzer.isBoundary e) eqn:E.
    + apply isBoundary_iff in E. exfalso. apply E. apply H. left. reflexivity.
    + apply IH. intros e' He'. apply H. right. exact He'.
  - intros e Hin Hdc. apply isBoundary_iff in Hdc.
    assert (Hb : In e (List.filter GapAnalyzer.isBoundary entities))
      by (apply filter_In; split; assumption).
    unfold GapAnalyzer.analyzeStratumBoundaries.
    destruct (List.filter GapAnalyzer.isBoundary entities) as [| b bs] eqn:Eb;
      [destruct Hb |].
    rewrite <- Eb. replace (0 <? length (List.filter _ entities))%nat with true
      by (rewrite Eb; reflexivity).
    unfold GapAnalyzer.generateGapId. cbn [fst snd].
    eexists. eexists. split; [reflexivity |].
    split; [reflexivity |]. split; [reflexivity |].
    split.
    { cbn [gap_severity GapAnalyzer.boundaryGap].
      destruct (5 <=? _)%nat; [right | left]; reflexivity. }
    split.
    { cbn [gap_evidence GapAnalyzer.boundaryGap].
      rewrite length_map. apply firstn_le_length. }
    split; [reflexivity |].
    intros e'. rewrite in_map_iff. split.
    + intros (e'' & Hname & Hin''). apply filter_In in Hin''.
      exists e''. split; [tauto |]. split; [exact Hname |].
      apply isBoundary_iff. tauto.
    + intros (e'' & Hin'' & Hname & Hdc'').
      exists e''. split; [exact Hname |]. apply filter_In.
      split; [exact Hin'' | apply isBoundary_iff; exact Hdc''].
  - intros e H. apply isBoundary_iff. apply nesting_violation_is_unusual.
    exact H.
Qed.

(** The boundary analysis names an IDEAL entity with broken nesting, for
    which [analyzeAxiomTensions] reports nothing. *)
Lemma analyzeStratumBoundaries_spec_witness :
  fst (GapAnalyzer.analyzeAxiomTensions 20 0 [platonic_machine]) = []
  /\ exists g names,
       GapAnalyzer.analyzeStratumBoundaries 20 0 [platonic_machine] = ([g], 1%nat)
       /\ suggestedAction g
          = {| action_type := manual_review;
               action_parameters := ReviewParameters names;
               action_confidence := 0.5 |}
       /\ In (entity_name platonic_machine) names.
Proof.
  split; [reflexivity |].
  destruct (analyzeStratumBoundaries_spec 20 0 [platonic_machine])
    as (_ & H & Hn).
  destruct (H platonic_machine (or_introl eq_refl)
              (Hn platonic_machine eq_refl))
    as (g & names & Hrun & _ & _ & _ & _ & Hact & Hnames).
  exists g, names. split; [exact Hrun |]. split; [exact Hact |].
  apply Hnames. exists platonic_machine.
  split; [left; reflexivity |]. split; [reflexivity |]. apply Hn. reflexivity.
Defined.

(* ================================================================== *)
(** * Gap identifiers *)
(* ================================================================== *)

Lemma string_of_Z_inj (a b : Z) :
  JS.string_of_Z a = JS.string_of_Z b -> a = b.
Proof.
  unfold JS.string_of_Z. intros H.
  assert (Hnn : forall z, Z.to_int z <> Decimal.Pos Decimal.Nil
                          /\ Z.to_int z <> Decimal.Neg Decimal.Nil).
  { intros [| p | p]; cbn; split; try discriminate;
      intros E; injection E; apply DecimalPos.Unsigned.to_uint_nonnil. }
  apply DecimalZ.to_int_inj.
  assert (E : Some (Z.to_int a) = Some (Z.to_int b)).
  { rewrite <- (NilZero.isi (Z.to_int a)) by apply Hnn.
    rewrite <- (NilZero.isi (Z.to_int b)) by apply Hnn.
    rewrite H. reflexivity. }
  congruence.
Qed.

Lemma string_of_uint_free (d : Decimal.uint) :
  freeOf "_" (NilEmpty.string_of_uint d) = true.
Proof. induction d; cbn; assumption || reflexivity. Qed.

Lemma string_of_Z_free (z : Z) : freeOf "_" (JS.string_of_Z z) = true.
Proof.
  unfold JS.string_of_Z, NilZero.string_of_int, NilZero.string_of_uint.
  destruct (Z.to_int z) as [d | d]; destruct d; cbn;
    try reflexivity; apply string_of_uint_free.
Qed.

Lemma split_at_free (c : ascii) (a a' b b' : string) :
  freeOf c a = true -> freeOf c a' = true ->
  a +:+ String c b = a' +:+ String c b' -> a = a' /\ b = b'.
Proof.
  revert a'. induction a as [| x a IH]; intros [| x' a'] Ha Ha' H; cbn in *.
  - injection H as ->. tauto.
  - injection H as <- _. rewrite Ascii.eqb_refl in Ha'. discriminate.
  - injection H as -> _. rewrite Ascii.eqb_refl in Ha. discriminate.
  - injection H as -> H.
    apply andb_true_iff in Ha, Ha'.
    destruct (IH a' (proj2 Ha) (proj2 Ha') H) as [-> ->]. tauto.
Qed.

Lemma generateGapId_inj (now now' : Z) (c c' : nat) :
  fst (GapAnalyzer.generateGapId now c) = fst (GapAnalyzer.generateGapId now' c')
  -> now = now' /\ c = c'.
Proof.
  unfold GapAnalyzer.generateGapId. cbn [fst]. intros H.
  cbn [String.app] in H. injection H as H.
  apply split_at_free in H; try apply string_of_Z_free.
  destruct H as [H1 H2].
  apply string_of_Z_inj in H1, H2. split; [exact H1 | lia].
Qed.

(* ================================================================== *)
(** * Relation patterns *)
(* ================================================================== *)

Lemma relationCounts_fold (entities : list Entity) :
  GapAnalyzer.relationCounts entities
  = fold_left
      (fun acc u => GapAnalyzer.countRelation (fst u) (snd u) acc)
      (usedRelations entities) [].
Proof.
  unfold GapAnalyzer.relationCounts, usedRelations.
  generalize (@nil GapAnalyzer.RelationCount).
  induction entities as [| e rest IH]; intros m; [reflexivity |].
  cbn [fold_left flat_map]. rewrite fold_left_app, IH. f_equal.
  unfold GapAnalyzer.countEntity.
  revert m. induction (relations (config e)) as [| r rels IHr]; intros m;
    [reflexivity |].
  cbn [fold_left map fst snd]. apply IHr.
Qed.

Lemma countOf_countRelation_same (t ex : string)
    (m : list GapAnalyzer.RelationCount) :
  countOf t (GapAnalyzer.countRelation t ex m)
  = Some match countOf t m with
         | Some x =>
             {| GapAnalyzer.rc_type := t;
                GapAnalyzer.rc_count := S (GapAnalyzer.rc_count x);
                GapAnalyzer.rc_examples :=
                  if (length (GapAnalyzer.rc_examples x) <? 5)%nat
                  then GapAnalyzer.rc_examples x ++ [ex]
                  else GapAnalyzer.rc_examples x |}
         | None =>
             {| GapAnalyzer.rc_type := t; GapAnalyzer.rc_count := 1;
                GapAnalyzer.rc_examples := [ex] |}
         end.
Proof.
  unfold countOf. induction m as [| x m IH]; cbn.
  - rewrite String.eqb_refl. reflexivity.
  - destruct (String.eqb (GapAnalyzer.rc_type x) t) eqn:E; cbn.
    + rewrite String.eqb_refl. reflexivity.
    + rewrite E. exact IH.
Qed.

Lemma countOf_countRelation_other (t t' ex : string)
    (m : list GapAnalyzer.RelationCount) :
  t <> t' ->
  countOf t' (GapAnalyzer.countRelation t ex m) = countOf t' m.
Proof.
  intros Hne. apply String.eqb_neq in Hne.
  unfold countOf. induction m as [| x m IH]; cbn.
  - rewrite Hne. reflexivity.
  - destruct (String.eqb (GapAnalyzer.rc_type x) t) eqn:E; cbn.
    + rewrite Hne. apply String.eqb_eq in E. rewrite E, Hne. reflexivity.
    + destruct (String.eqb (GapAnalyzer.rc_type x) t'); [reflexivity | exact IH].
Qed.

Lemma firstn5_snoc {A} (l : list A) (x : A) :
  firstn 5 (l ++ [x])
  = if (length (firstn 5 l) <? 5)%nat then firstn 5 l ++ [x] else firstn 5 l.
Proof.
  destruct l as [| a [| b [| c [| d [| e l]]]]]; reflexivity.
Qed.

Lemma occurrencesOf_snoc (t t' ex : string) (used : list (string * string)) :
  occurrencesOf t' (used ++ [(t, ex)])
  = if String.eqb t t' then S (occurrencesOf t' used)
    else occurrencesOf t' used.
Proof.
  unfold occurrencesOf. rewrite List.filter_app, length_app.
  cbn [List.filter]. change (ofType t' (t, ex)) with (String.eqb t t').
  destruct (String.eqb t t'); cbn [length]; lia.
Qed.

Lemma examplesOf_snoc (t t' ex : string) (used : list (string * string)) :
  examplesOf t' (used ++ [(t, ex)])
  = if String.eqb t t' then examplesOf t' used ++ [ex]
    else examplesOf t' used.
Proof.
  unfold examplesOf. rewrite List.filter_app, map_app.
  cbn [List.filter]. change (ofType t' (t, ex)) with (String.eqb t t').
  destruct (String.eqb t t'); cbn [map snd]; [reflexivity | apply app_nil_r].
Qed.

Lemma countsAgree_step (t ex : string) (m : list GapAnalyzer.RelationCount)
    (used : list (string * string)) :
  countsAgree m used ->
  countsAgree (GapAnalyzer.countRelation t ex m) (used ++ [(t, ex)]).
Proof.
  intros H t'. rewrite occurrencesOf_snoc, examplesOf_snoc.
  destruct (String.eqb_spec t t') as [<- | Hne].
  - rewrite countOf_countRelation_same. specialize (H t).
    destruct (countOf t m) as [x |]; cbn.
    + destruct H as (_ & Hc & _ & He). rewrite Hc, He, firstn5_snoc.
      repeat split; lia.
    + assert (E : examplesOf t used = []).
      { apply length_zero_iff_nil. unfold examplesOf. rewrite length_map.
        exact H. }
      rewrite H, E. repeat split; lia.
  - rewrite countOf_countRelation_other by exact Hne. apply H.
Qed.

Lemma countsAgree_fold (used : list (string * string)) :
  forall m used0,
    countsAgree m used0 ->
    countsAgree
      (fold_left (fun acc u => GapAnalyzer.countRelation (fst u) (snd u) acc)
         used m)
      (used0 ++ used).
Proof.
  induction used as [| [t ex] used IH]; intros m used0 H; cbn [fold_left].
  - rewrite app_nil_r. exact H.
  - replace (used0 ++ (t, ex) :: used) with ((used0 ++ [(t, ex)]) ++ used)
      by (rewrite <- app_assoc; reflexivity).
    apply IH. apply countsAgree_step. exact H.
Qed.

Lemma countRelation_types (t ex s : string)
    (m : list GapAnalyzer.RelationCount) :
  In s (map GapAnalyzer.rc_type (GapAnalyzer.countRelation t ex m)) ->
  s = t \/ In s (map GapAnalyzer.rc_type m).
Proof.
  induction m as [| x m IH]; cbn.
  - intros [H | []]. left. congruence.
  - destruct (String.eqb (GapAnalyzer.rc_type x) t) eqn:E; cbn.
    + intros [H | H]; [left; congruence | right; right; exact H].
    + intros [H | H]; [right; left; exact H |].
      destruct (IH H); [left | right; right]; assumption.
Qed.

Lemma countRelation_NoDup (t ex : string)
    (m : list GapAnalyzer.RelationCount) :
  List.NoDup (map GapAnalyzer.rc_type m) ->
  List.NoDup (map GapAnalyzer.rc_type (GapAnalyzer.countRelation t ex m)).
Proof.
  induction m as [| x m IH]; cbn; intros H.
  - constructor; [intros [] | constructor].
  - inversion H as [| ? ? Hx Hm]; subst.
    destruct (String.eqb (GapAnalyzer.rc_type x) t) eqn:E; cbn.
    + apply String.eqb_eq in E. rewrite E in H. exact H.
    + constructor; [| apply IH; exact Hm].
      intros Hin. apply countRelation_types in Hin.
      destruct Hin as [Heq | Hin]; [| contradiction].
      rewrite Heq, String.eqb_refl in E. discriminate.
Qed.

Lemma relationCounts_NoDup (entities : list Entity) :
  List.NoDup (map GapAnalyzer.rc_type (GapAnalyzer.relationCounts entities)).
Proof.
  rewrite relationCounts_fold.
  assert (H : List.NoDup (map GapAnalyzer.rc_type [])) by constructor.
  revert H. generalize (@nil GapAnalyzer.RelationCount).
  induction (usedRelations entities) as [| u used IH]; intros m H;
    cbn [fold_left]; [exact H |].
  apply IH. apply countRelation_NoDup. exact H.
Qed.

Lemma relationCounts_agree (entities : list Entity) :
  countsAgree (GapAnalyzer.relationCounts entities) (usedRelations entities).
Proof.
  rewrite relationCounts_fold.
  apply (countsAgree_fold (usedRelations entities) [] []).
  intros t. reflexivity.
Qed.

Lemma countOf_In (m : list GapAnalyzer.RelationCount)
    (d : GapAnalyzer.RelationCount) :
  List.NoDup (map GapAnalyzer.rc_type m) -> In d m ->
  countOf (GapAnalyzer.rc_type d) m = Some d.
Proof.
  unfold countOf. induction m as [| x m IH]; cbn; intros Hnd Hin;
    [destruct Hin |].
  inversion Hnd as [| ? ? Hx Hm]; subst.
  destruct Hin as [-> | Hin].
  - rewrite String.eqb_refl. reflexivity.
  - destruct (String.eqb (GapAnalyzer.rc_type x) (GapAnalyzer.rc_type d)) eqn:E.
    + apply String.eqb_eq in E. exfalso. apply Hx. rewrite E.
      apply in_map. exact Hin.
    + apply IH; assumption.
Qed.

Lemma countOf_Some_In (t : string) (m : list GapAnalyzer.RelationCount)
    (d : GapAnalyzer.RelationCount) :
  countOf t m = Some d -> In d m.
Proof. unfold countOf. intros H. apply find_some in H. tauto. Qed.

Lemma relationGaps_spec (cfg : GapAnalyzer.GapAnalyzerConfig) (now : Z)
    (m : list GapAnalyzer.RelationCount) :
  forall c,
    Forall2 (fun g d => g = GapAnalyzer.relationGap cfg now (gap_id g) d)
      (fst (GapAnalyzer.relationGaps cfg now c m))
      (List.filter (reported cfg) m)
    /\ map gap_id (fst (GapAnalyzer.relationGaps cfg now c m))
       = idsFrom now c (length (fst (GapAnalyzer.relationGaps cfg now c m)))
    /\ snd (GapAnalyzer.relationGaps cfg now c m)
       = (c + length (fst (GapAnalyzer.relationGaps cfg now c m)))%nat.
Proof.
  induction m as [| d m IH]; intros c.
  - cbn. repeat split; [constructor | lia].
  - cbn [GapAnalyzer.relationGaps List.filter].
    change (negb (GapAnalyzer.isKnownRelation (GapAnalyzer.rc_type d))
            && (GapAnalyzer.relationMinOccurrences cfg
                <=? GapAnalyzer.rc_count d)%nat)
      with (reported cfg d).
    destruct (reported cfg d); [| apply IH].
    unfold GapAnalyzer.generateGapId. cbv beta iota zeta.
    destruct (IH (S c)) as (HF & Hids & Hc).
    destruct (GapAnalyzer.relationGaps cfg now (S c) m) as [gs c'].
    cbn [fst snd] in *. split; [| split].
    + constructor; [reflexivity | exact HF].
    + cbn [map length]. rewrite Hids. reflexivity.
    + cbn [length]. lia.
Qed.

Lemma Forall2_In_l {A B} (R : A -> B -> Prop) (l : list A) (l' : list B)
    (x : A) :
  Forall2 R l l' -> In x l -> exists y, In y l' /\ R x y.
Proof.
  induction 1 as [| a b l l' Hab _ IH]; intros Hin; [destruct Hin |].
  destruct Hin as [-> | Hin].
  - exists b. split; [left; reflexivity | exact Hab].
  - destruct (IH Hin) as (y & Hy & Hxy). exists y. split; [right |]; assumption.
Qed.

Lemma Forall2_In_r {A B} (R : A -> B -> Prop) (l : list A) (l' : list B)
    (y : B) :
  Forall2 R l l' -> In y l' -> exists x, In x l /\ R x y.
Proof.
  induction 1 as [| a b l l' Hab _ IH]; intros Hin; [destruct Hin |].
  destruct Hin as [-> | Hin].
  - exists a. split; [left; reflexivity | exact Hab].
  - destruct (IH Hin) as (x & Hx & Hxy). exists x. split; [right |]; assumption.
Qed.

Lemma relationGaps_names (cfg : GapAnalyzer.GapAnalyzerConfig) (now : Z)
    (gs : list Gap) (ds : list GapAnalyzer.RelationCount) :
  Forall2 (fun g d => g = GapAnalyzer.relationGap cfg now (gap_id g) d) gs ds ->
  map relationName gs = map (fun d => Some (GapAnalyzer.rc_type d)) ds.
Proof.
  induction 1 as [| g d gs ds Hgd _ IH]; [reflexivity |].
  cbn [map]. rewrite IH, Hgd. reflexivity.
Qed.

Lemma NoDup_map_filter_types (f : GapAnalyzer.RelationCount -> bool)
    (m : list GapAnalyzer.RelationCount) :
  List.NoDup (map GapAnalyzer.rc_type m) ->
  List.NoDup (map (fun d => Some (GapAnalyzer.rc_type d)) (List.filter f m)).
Proof.
  induction m as [| d m IH]; intros H; [constructor |].
  inversion H as [| ? ? Hd Hm]; subst. cbn [List.filter].
  destruct (f d); [| apply IH; exact Hm].
  cbn [map]. constructor; [| apply IH; exact Hm].
  intros Hin. apply in_map_iff in Hin. destruct Hin as (d' & Heq & Hin).
  apply filter_In in Hin. apply Hd. injection Heq as Heq. rewrite <- Heq.
  apply in_map. tauto.
Qed.

(** X5. [analyzeRelationPatterns] reports a relation type exactly when it
    is outside the vocabulary and the entities use it at least
    [relationMinOccurrences] times (and at least once). It reports such a
    type once; the gap carries the number of its uses and the first five
    examples, and its severity is medium from ten uses on. *)
Theorem analyzeRelationPatterns_spec (cfg : GapAnalyzer.GapAnalyzerConfig)
    (now : Z) (c : nat) (entities : list Entity) :
  let used := usedRelations entities in
  let gaps := fst (GapAnalyzer.analyzeRelationPatterns cfg now c entities) in
  (forall g, In g gaps ->
     exists t,
       GapAnalyzer.isKnownRelation t = false
       /\ (1 <= occurrencesOf t used)%nat
       /\ (GapAnalyzer.relationMinOccurrences cfg <= occurrencesOf t used)%nat
       /\ g = GapAnalyzer.relationGap cfg now (gap_id g)
                {| GapAnalyzer.rc_type := t;
                   GapAnalyzer.rc_count := occurrencesOf t used;
                   GapAnalyzer.rc_examples := firstn 5 (examplesOf t used) |}
       /\ gap_severity g
          = if (10 <=? occurrencesOf t used)%nat then medium else low)
  /\ (forall t,
        GapAnalyzer.isKnownRelation t = false ->
        (1 <= occurrencesOf t used)%nat ->
        (GapAnalyzer.relationMinOccurrences cfg <= occurrencesOf t used)%nat ->
        exists g, In g gaps /\ relationName g = Some t)
  /\ List.NoDup (map relationName gaps).
Proof.
  intros used gaps. subst used gaps.
  unfold GapAnalyzer.analyzeRelationPatterns.
  destruct (relationGaps_spec cfg now (GapAnalyzer.relationCounts entities) c)
    as (HF & _ & _).
  pose proof (relationCounts_NoDup entities) as Hnd.
  pose proof (relationCounts_agree entities) as Hag.
  split; [| split].
  - intros g Hg.
    destruct (Forall2_In_l _ _ _ g HF Hg) as (d & Hd & Hgd).
    apply filter_In in Hd. destruct Hd as (Hd & Hrep).
    unfold reported in Hrep. apply andb_true_iff in Hrep.
    destruct Hrep as (Hk & Hmin). apply negb_true_iff in Hk.
    apply Nat.leb_le in Hmin.
    specialize (Hag (GapAnalyzer.rc_type d)).
    rewrite (countOf_In _ _ Hnd Hd) in Hag.
    destruct Hag as (_ & Hc & H1 & He).
    exists (GapAnalyzer.rc_type d).
    split; [exact Hk |]. split; [lia |]. split; [lia |].
    rewrite <- Hc, <- He.
    assert (Ed : {| GapAnalyzer.rc_type := GapAnalyzer.rc_type d;
                    GapAnalyzer.rc_count := GapAnalyzer.rc_count d;
                    GapAnalyzer.rc_examples := GapAnalyzer.rc_examples d |} = d)
      by (destruct d; reflexivity).
    rewrite Ed. split; [exact Hgd |]. rewrite Hgd. reflexivity.
  - intros t Hk H1 Hmin. specialize (Hag t).
    destruct (countOf t (GapAnalyzer.relationCounts entities)) as [d |] eqn:Ed;
      [| lia].
    destruct Hag as (Ht & Hc & _ & _).
    assert (Hd : In d (List.filter (reported cfg)
                         (GapAnalyzer.relationCounts entities))).
    { apply filter_In. split; [eapply countOf_Some_In; exact Ed |].
      unfold reported. rewrite Ht, Hk, Hc. cbn [negb andb].
      apply Nat.leb_le. exact Hmin. }
    destruct (Forall2_In_r _ _ _ d HF Hd) as (g & Hg & Hgd).
    exists g. split; [exact Hg |]. rewrite Hgd, <- Ht. reflexivity.
  - rewrite (relationGaps_names _ _ _ _ HF).
    apply NoDup_map_filter_types. exact Hnd.
Qed.

Lemma tensionsOf_ids (now : Z) (c : nat) (e : Entity) :
  map gap_id (fst (GapAnalyzer.tensionsOf now c e))
  = idsFrom now c (length (fst (GapAnalyzer.tensionsOf now c e)))
  /\ snd (GapAnalyzer.tensionsOf now c e)
     = (c + length (fst (GapAnalyzer.tensionsOf now c e)))%nat.
Proof.
  unfold GapAnalyzer.tensionsOf, GapAnalyzer.generateGapId.
  destruct (entity_domain e);
    destruct (JS.gt (closure (config e)) 0.8 && JS.gt (scope (config e)) 0.8);
    destruct (negb (GapAnalyzer.respectsStratalNesting
                      (GapAnalyzer.getActiveStrata e)));
    (split; [reflexivity | cbn [fst snd app length]; lia]).
Qed.

Lemma idsFrom_app (now : Z) (c n m : nat) :
  idsFrom now c (n + m) = idsFrom now c n ++ idsFrom now (c + n) m.
Proof. unfold idsFrom. rewrite seq_app, map_app. reflexivity. Qed.

Lemma analyzeAxiomTensions_ids (now : Z) (entities : list Entity) :
  forall c,
    map gap_id (fst (GapAnalyzer.analyzeAxiomTensions now c entities))
    = idsFrom now c
        (length (fst (GapAnalyzer.analyzeAxiomTensions now c entities)))
    /\ snd (GapAnalyzer.analyzeAxiomTensions now c entities)
       = (c + length (fst (GapAnalyzer.analyzeAxiomTensions now c entities)))%nat.
Proof.
  induction entities as [| e rest IH]; intros c.
  - cbn. split; [reflexivity | lia].
  - cbn [GapAnalyzer.analyzeAxiomTensions].
    destruct (tensionsOf_ids now c e) as (H1 & H2).
    destruct (GapAnalyzer.tensionsOf now c e) as [gs c1].
    destruct (IH c1) as (H3 & H4).
    destruct (GapAnalyzer.analyzeAxiomTensions now c1 rest) as [gs' c2].
    cbn [fst snd] in *. rewrite map_app, length_app, idsFrom_app, H1, H3.
    subst c1. split; [reflexivity | lia].
Qed.

Lemma analyzeStratumBoundaries_ids (now : Z) (c : nat)
    (entities : list Entity) :
  map gap_id (fst (GapAnalyzer.analyzeStratumBoundaries now c entities))
  = idsFrom now c
      (length (fst (GapAnalyzer.analyzeStratumBoundaries now c entities)))
  /\ snd (GapAnalyzer.analyzeStratumBoundaries now c entities)
     = (c + length
              (fst (GapAnalyzer.analyzeStratumBoundaries now c entities)))%nat.
Proof.
  unfold GapAnalyzer.analyzeStratumBoundaries, GapAnalyzer.generateGapId.
  destruct (0 <? length (List.filter GapAnalyzer.isBoundary entities))%nat;
    (split; [reflexivity | cbn [fst snd length]; lia]).
Qed.

(** X6. Gap identifiers never repeat. The identifier returned by
    [generateGapId] determines the clock reading and the counter; each
    analysis advances the counter by the number of gaps it returns; hence
    the gaps of the relation, boundary and axiom-tension analyses, run one
    after the other on one analyzer (with [k] identifiers drawn in between
    by the analysis that runs between the last two), have pairwise distinct
    identifiers, whatever the clock returns. *)
Theorem gap_ids_distinct (cfg : GapAnalyzer.GapAnalyzerConfig)
    (now1 now2 now3 : Z) (c k : nat) (entities : list Entity) :
  let r1 := GapAnalyzer.analyzeRelationPatterns cfg now1 c entities in
  let r2 := GapAnalyzer.analyzeStratumBoundaries now2 (snd r1) entities in
  let r3 := GapAnalyzer.analyzeAxiomTensions now3 (snd r2 + k) entities in
  List.NoDup (map gap_id (fst r1 ++ fst r2 ++ fst r3))
  /\ snd r1 = (c + length (fst r1))%nat
  /\ snd r2 = (snd r1 + length (fst r2))%nat
  /\ snd r3 = (snd r2 + k + length (fst r3))%nat
  /\ (forall now now' n n',
        fst (GapAnalyzer.generateGapId now n)
        = fst (GapAnalyzer.generateGapId now' n') ->
        now = now' /\ n = n').
Proof.
  intros r1 r2 r3.
  destruct (relationGaps_spec cfg now1 (GapAnalyzer.relationCounts entities) c)
    as (_ & I1 & C1).
  fold (GapAnalyzer.analyzeRelationPatterns cfg now1 c entities) in I1, C1.
  fold r1 in I1, C1.
  destruct (analyzeStratumBoundaries_ids now2 (snd r1) entities) as (I2 & C2).
  fold r2 in I2, C2.
  destruct (analyzeAxiomTensions_ids now3 entities (snd r2 + k)%nat)
    as (I3 & C3).
  fold r3 in I3, C3.
  split; [| split; [exact C1 | split; [exact C2 | split; [exact C3 |]]]].
  - rewrite !map_app, I1, I2, I3.
    set (n1 := length (fst r1)) in *. set (n2 := length (fst r2)) in *.
    set (n3 := length (fst r3)) in *.
    set (f := fun p : Z * nat => fst (GapAnalyzer.generateGapId (fst p) (snd p))).
    assert (Hids : forall now a n,
               idsFrom now a n = map f (map (pair now) (seq a n))).
    { intros now a n. unfold idsFrom. rewrite map_map. reflexivity. }
    rewrite !Hids, <- !map_app.
    apply Injective_map_NoDup.
    + intros [a x] [b y] H. unfold f in H. cbn [fst snd] in H.
      apply generateGapId_inj in H. destruct H; congruence.
    + apply (NoDup_map_inv snd). rewrite !map_app, !map_map. cbn [snd].
      rewrite !map_id, C2, C1.
      apply List.NoDup_app; [apply seq_NoDup | |].
      * apply List.NoDup_app; [apply seq_NoDup | apply seq_NoDup |].
        intros a Ha Hb. apply in_seq in Ha, Hb. lia.
      * intros a Ha Hb. apply in_app_or in Hb. apply in_seq in Ha.
        destruct Hb as [Hb | Hb]; apply in_seq in Hb; lia.
  - intros now now' n n'. apply generateGapId_inj.
Qed.

(* ================================================================== *)
(** * The summary of an analysis *)
(* ================================================================== *)

Lemma countGap_fold (gaps : list Gap) :
  forall acc t v,
    fst (fold_left GapAnalyzer.countGap gaps acc) t
    = (fst acc t
       + length (List.filter
                   (fun g => GapAnalyzer.GapType_eqb t (gap_type g)) gaps))%nat
    /\ snd (fold_left GapAnalyzer.countGap gaps acc) v
       = (snd acc v
          + length (List.filter
                      (fun g => GapAnalyzer.Severity_eqb v (gap_severity g))
                      gaps))%nat.
Proof.
  induction gaps as [| g gaps IH]; intros acc t v; cbn [fold_left List.filter].
  - cbn. lia.
  - destruct (IH (GapAnalyzer.countGap acc g) t v) as (H1 & H2).
    rewrite H1, H2. cbn [GapAnalyzer.countGap fst snd].
    destruct (GapAnalyzer.GapType_eqb t (gap_type g));
      destruct (GapAnalyzer.Severity_eqb v (gap_severity g));
      cbn [length]; lia.
Qed.

(** X7. The counters of [buildSummary] partition the gaps: the counter of
    a type (of a severity) is the number of gaps of that type (severity),
    and the counters by type, as well as the counters by severity, add up
    to [totalGaps], the number of gaps. *)
Theorem buildSummary_partitions (gaps : list Gap) :
  let s := GapAnalyzer.buildSummary gaps in
  (forall t, GapAnalyzer.byType s t
             = length (List.filter
                         (fun g => GapAnalyzer.GapType_eqb t (gap_type g)) gaps))
  /\ (forall v, GapAnalyzer.bySeverity s v
                = length (List.filter
                            (fun g => GapAnalyzer.Severity_eqb v (gap_severity g))
                            gaps))
  /\ GapAnalyzer.totalGaps s = length gaps
  /\ (GapAnalyzer.byType s domain_misfit
      + GapAnalyzer.byType s capability_missing
      + GapAnalyzer.byType s relation_pattern
      + GapAnalyzer.byType s stratum_boundary
      + GapAnalyzer.byType s source_coverage
      + GapAnalyzer.byType s axiom_tension
      + GapAnalyzer.byType s clustering_anomaly)%nat
     = GapAnalyzer.totalGaps s
  /\ (GapAnalyzer.bySeverity s low + GapAnalyzer.bySeverity s medium
      + GapAnalyzer.bySeverity s high + GapAnalyzer.bySeverity s critical)%nat
     = GapAnalyzer.totalGaps s.
Proof.
  intros s. subst s. unfold GapAnalyzer.buildSummary.
  cbn [GapAnalyzer.byType GapAnalyzer.bySeverity GapAnalyzer.totalGaps].
  assert (HT : forall t, fst (fold_left GapAnalyzer.countGap gaps
                                (fun _ => 0%nat, fun _ => 0%nat)) t
                         = length (List.filter
                                     (fun g => GapAnalyzer.GapType_eqb t (gap_type g))
                                     gaps)).
  { intros t.
    destruct (countGap_fold gaps (fun _ => 0%nat, fun _ => 0%nat) t low)
      as (H & _). exact H. }
  assert (HV : forall v, snd (fold_left GapAnalyzer.countGap gaps
                                (fun _ => 0%nat, fun _ => 0%nat)) v
                         = length (List.filter
                                     (fun g => GapAnalyzer.Severity_eqb v
                                                 (gap_severity g)) gaps)).
  { intros v.
    destruct (countGap_fold gaps (fun _ => 0%nat, fun _ => 0%nat)
                domain_misfit v) as (_ & H). exact H. }
  split; [exact HT |]. split; [exact HV |]. split; [reflexivity |].
  rewrite !HT, !HV. clear HT HV.
  split; induction gaps as [| g gaps IH]; try reflexivity;
    cbn [List.filter length]; destruct g as [i ty sv ev act at_];
    cbn [gap_type gap_severity]; [destruct ty | destruct sv];
    cbn [GapAnalyzer.GapType_eqb GapAnalyzer.Severity_eqb length] in *; lia.
Qed.

(* ================================================================== *)
(** * The score of a validation *)
(* ================================================================== *)

Section ValidatorScore.

Variable checkA2Configuration : GeneratedCode -> CheckResult.
Variable checkA3ClosureScope : GeneratedCode -> CheckResult.
Variable checkA4StratalNesting : GeneratedCode -> CheckResult.
Variable checkA5CapabilityEmergence : GeneratedCode -> CheckResult.
Variable checkA10MinimalCharacterization : GeneratedCode -> CheckResult.
Variable toFixed : float -> nat -> string.

Local Abbreviation checkAxiom :=
  (AxisValidator.checkAxiom checkA2Configuration checkA3ClosureScope
     checkA4StratalNesting checkA5CapabilityEmergence
     checkA10MinimalCharacterization).
Local Abbreviation checkStep :=
  (AxisValidator.checkStep checkA2Configuration checkA3ClosureScope
     checkA4StratalNesting checkA5CapabilityEmergence
     checkA10MinimalCharacterization).
Local Abbreviation validate :=
  (AxisValidator.validate checkA2Configuration checkA3ClosureScope
     checkA4StratalNesting checkA5CapabilityEmergence
     checkA10MinimalCharacterization toFixed).

Lemma passes_mayPass (generated : GeneratedCode) (a : AxisAxiom) :
  passesCheck (checkAxiom a generated) = true -> mayPass a = true.
Proof.
  unfold AxisValidator.checkAxiom, mayPass. cbn [existsb].
  destruct (String.eqb (axiom_id a) "A2"); [reflexivity |].
  destruct (String.eqb (axiom_id a) "A3"); [reflexivity |].
  destruct (String.eqb (axiom_id a) "A4"); [reflexivity |].
  destruct (String.eqb (axiom_id a) "A5"); [reflexivity |].
  destruct (String.eqb (axiom_id a) "A10"); [reflexivity |].
  unfold passesCheck. cbn. destruct (checkable a); intros H; [reflexivity | exact H].
Qed.

Lemma filter_length_le {A} (f h : A -> bool) (l : list A) :
  (forall a, f a = true -> h a = true) ->
  (length (List.filter f l) <= length (List.filter h l))%nat.
Proof.
  intros H. induction l as [| a l IH]; [cbn; lia |].
  cbn [List.filter]. destruct (f a) eqn:E.
  - rewrite (H a E). cbn [length]. lia.
  - destruct (h a); cbn [length]; lia.
Qed.

Lemma checkStep_review_warnings (generated : GeneratedCode)
    (l : list AxisAxiom) :
  forall acc : AxisValidator.Acc,
    (length (List.filter requiresReview
               (AxisValidator.acc_warnings (fold_left (checkStep generated) l acc)))
     <= length (List.filter requiresReview (AxisValidator.acc_warnings acc))
        + length l)%nat.
Proof.
  induction l as [| a l IH]; intros acc; cbn [fold_left length]; [lia |].
  etransitivity; [apply IH |].
  unfold AxisValidator.checkStep.
  destruct (violated (checkAxiom a generated)); cbn [AxisValidator.acc_warnings];
    [lia |].
  destruct (warning (checkAxiom a generated)); cbn [AxisValidator.acc_warnings];
    [| lia].
  rewrite List.filter_app, length_app. cbn [List.filter requiresReview].
  destruct (check_requiresReview (checkAxiom a generated)); cbn [length]; lia.
Qed.

Lemma validateJustification_review (j : AxiomJustification) :
  (length (List.filter requiresReview
             (AxisValidator.validateJustification toFixed j))
   <= 1 + length (just_axioms j))%nat.
Proof.
  unfold AxisValidator.validateJustification.
  rewrite List.filter_app, length_app.
  assert (H : (length (List.filter requiresReview
                         (map (fun item => {|
                                 warn_axiomId := just_id item;
                                 warn_axiomName := "Self-flagged: " +:+ just_id item;
                                 warn_description := just_explanation item;
                                 requiresReview := true |})
                            (List.filter
                               (fun a => match just_status a with
                                         | needs_review => true | _ => false end)
                               (just_axioms j))))
               <= length (just_axioms j))%nat).
  { etransitivity; [apply List.filter_length_le |].
    rewrite length_map. apply List.filter_length_le. }
  revert H. generalize (length (List.filter requiresReview
                         (map (fun item => {|
                                 warn_axiomId := just_id item;
                                 warn_axiomName := "Self-flagged: " +:+ just_id item;
                                 warn_description := just_explanation item;
                                 requiresReview := true |})
                            (List.filter
                               (fun a => match just_status a with
                                         | needs_review => true | _ => false end)
                               (just_axioms j))))).
  intros n H.
  destruct (PrimFloat.ltb (overallCompliance j) 0.7);
    cbn [List.filter length requiresReview]; lia.
Qed.

Lemma relevantAxioms_relevantFor (generated : GeneratedCode) :
  AxisValidator.relevantAxioms generated = relevantFor (gen_type generated).
Proof. reflexivity. Qed.

Lemma scoresBelow_spec (threshold : float) (t P W p w : nat) :
  scoresBelow threshold t P W = true -> (p <= P)%nat -> (w <= W)%nat ->
  PrimFloat.ltb (scoreOf p t w) threshold = true
  /\ PrimFloat.leb threshold (scoreOf p t w) = false.
Proof.
  unfold scoresBelow. intros H Hp Hw.
  rewrite forallb_forall in H.
  assert (Hin : In p (seq 0 (S P))) by (apply in_seq; lia).
  specialize (H p Hin). rewrite forallb_forall in H.
  assert (Hin' : In w (seq 0 (S W))) by (apply in_seq; lia).
  specialize (H w Hin'). apply andb_true_iff in H. destruct H as (H1 & H2).
  apply negb_true_iff in H2. tauto.
Qed.

Lemma default_scores_low :
  forallb (fun tP => scoresBelow 0.7 (fst tP) (snd tP) (fst tP + 101))
    [(9, 4); (7, 4); (4, 1); (3, 0)]%nat = true.
Proof. vm_compute. reflexivity. Qed.

Lemma relevantFor_counts (ty : GenerationType) :
  In (length (relevantFor ty),
      length (List.filter mayPass (relevantFor ty)))
     [(9, 4); (7, 4); (4, 1); (3, 0)]%nat.
Proof. destruct ty; vm_compute; tauto. Qed.

(** X8. Whatever the rule-specific checks answer, the score [validate]
    gives an artifact is below 0.7, the default [minValidationScore] of
    the engine: at most four of the nine axioms applicable to a domain,
    four of seven for a capability, one of four for a relation and none
    of three otherwise can pass. Hence the acceptance test of [runCycle]
    fails for every artifact under the default configuration. The
    self-assessment is taken to list at most a hundred axioms; those of
    the generator list ten. *)
Theorem validate_score_below_default (generated : GeneratedCode)
    (cwd : string) :
  (length (just_axioms (axiomJustification generated)) <= 100)%nat ->
  let r := validate generated in
  (7 * length (passed r)
   <= 4 * length (AxisValidator.relevantAxioms generated))%nat
  /\ PrimFloat.ltb (score r) 0.7 = true
  /\ SelfProductionEngine.validationPassed
       (SelfProductionEngine.DEFAULT_CONFIG cwd) r = false.
Proof.
  intros Hj r.
  assert (Hscore : score r
                   = scoreOf (length (passed r))
                       (length (AxisValidator.relevantAxioms generated))
                       (length (List.filter requiresReview (warnings r))))
    by reflexivity.
  assert (Hp : (length (passed r)
                <= length (List.filter mayPass
                             (AxisValidator.relevantAxioms generated)))%nat).
  { unfold r, AxisValidator.validate. cbn [passed].
    rewrite checkStep_passed. cbn [AxisValidator.acc_passed app].
    rewrite length_map.
    apply filter_length_le. apply passes_mayPass. }
  assert (Hw : (length (List.filter requiresReview (warnings r))
                <= length (AxisValidator.relevantAxioms generated) + 101)%nat).
  { unfold r, AxisValidator.validate. cbn [warnings].
    rewrite List.filter_app, length_app.
    pose proof (checkStep_review_warnings generated
                  (AxisValidator.relevantAxioms generated)
                  {| AxisValidator.acc_violations := [];
                     AxisValidator.acc_warnings := [];
                     AxisValidator.acc_passed := [];
                     AxisValidator.acc_reviewReasons := [] |}) as H1.
    pose proof (validateJustification_review (axiomJustification generated))
      as H2.
    cbn [AxisValidator.acc_warnings List.filter length] in H1. lia. }
  rewrite relevantAxioms_relevantFor in *.
  pose proof (relevantFor_counts (gen_type generated)) as Hin.
  pose proof default_scores_low as Hlow. rewrite forallb_forall in Hlow.
  specialize (Hlow _ Hin). cbn [fst snd] in Hlow.
  destruct (scoresBelow_spec _ _ _ _ _ _ Hlow Hp Hw) as (H1 & H2).
  split; [| split].
  - cbn [In] in Hin.
    destruct Hin as [E | [E | [E | [E | []]]]]; injection E as E1 E2; lia.
  - rewrite Hscore. exact H1.
  - unfold SelfProductionEngine.validationPassed.
    cbn [SelfProductionEngine.minValidationScore
           SelfProductionEngine.DEFAULT_CONFIG].
    rewrite Hscore, H2. apply andb_false_r.
Qed.

End ValidatorScore.

Lemma validate_score_below_default_witness :
  (length (just_axioms (CodeGenerator.justifyRelation "orbits")) <= 100)%nat
  /\ PrimFloat.ltb
       (score (AxisValidator.validate passingCheck passingCheck passingCheck
                 passingCheck passingCheck (fun _ _ => "0.85") orbitsCode))
       0.7 = true.
Proof.
  split; [cbn; lia |].
  apply (validate_score_below_default passingCheck passingCheck passingCheck
           passingCheck passingCheck (fun _ _ => "0.85") orbitsCode "/atlas").
  cbn. lia.
Defined.

(* ================================================================== *)
(** * Artifacts that always, or never, need human review *)
(* ================================================================== *)

Section ValidatorReview.

Variable checkA2Configuration : GeneratedCode -> CheckResult.
Variable checkA3ClosureScope : GeneratedCode -> CheckResult.
Variable checkA4StratalNesting : GeneratedCode -> CheckResult.
Variable checkA5CapabilityEmergence : GeneratedCode -> CheckResult.
Variable checkA10MinimalCharacterization : GeneratedCode -> CheckResult.
Variable toFixed : float -> nat -> string.

Local Abbreviation checkAxiom :=
  (AxisValidator.checkAxiom checkA2Configuration checkA3ClosureScope
     checkA4StratalNesting checkA5CapabilityEmergence
     checkA10MinimalCharacterization).
Local Abbreviation checkStep :=
  (AxisValidator.checkStep checkA2Configuration checkA3ClosureScope
     checkA4StratalNesting checkA5CapabilityEmergence
     checkA10MinimalCharacterization).
Local Abbreviation validate :=
  (AxisValidator.validate checkA2Configuration checkA3ClosureScope
     checkA4StratalNesting checkA5CapabilityEmergence
     checkA10MinimalCharacterization toFixed).

Lemma checkStep_reasons_mono (generated : GeneratedCode) (l : list AxisAxiom)
    (x : string) :
  forall acc : AxisValidator.Acc,
    In x (AxisValidator.acc_reviewReasons acc) ->
    In x (AxisValidator.acc_reviewReasons (fold_left (checkStep generated) l acc)).
Proof.
  induction l as [| a l IH]; intros acc H; cbn [fold_left]; [exact H |].
  apply IH. unfold AxisValidator.checkStep.
  destruct (violated (checkAxiom a generated));
    cbn [AxisValidator.acc_reviewReasons]; [exact H |].
  destruct (warning (checkAxiom a generated));
    cbn [AxisValidator.acc_reviewReasons]; [| exact H].
  destruct (check_requiresReview (checkAxiom a generated)); [| exact H].
  apply in_or_app. left. exact H.
Qed.

Lemma checkStep_flags (generated : GeneratedCode) (l : list AxisAxiom)
    (a : AxisAxiom) :
  In a l -> mayPass a = false ->
  existsb (GenerationType_eqb (gen_type generated)) (criticalFor a) = true ->
  forall acc : AxisValidator.Acc,
    In (axiom_id a +:+ ": " +:+ axiom_name a +:+ " requires human judgment")
       (AxisValidator.acc_reviewReasons
          (fold_left (checkStep generated) l acc)).
Proof.
  intros Hin Hm Hc. induction l as [| b l IH]; intros acc; [destruct Hin |].
  cbn [fold_left]. destruct Hin as [-> | Hin]; [| apply IH; exact Hin].
  apply checkStep_reasons_mono.
  unfold mayPass in Hm. cbn [existsb] in Hm.
  unfold AxisValidator.checkStep, AxisValidator.checkAxiom.
  destruct (String.eqb (axiom_id a) "A2"); [discriminate |].
  destruct (String.eqb (axiom_id a) "A3"); [discriminate |].
  destruct (String.eqb (axiom_id a) "A4"); [discriminate |].
  destruct (String.eqb (axiom_id a) "A5"); [discriminate |].
  destruct (String.eqb (axiom_id a) "A10"); [discriminate |].
  cbn [orb] in Hm. rewrite Hm, Hc.
  cbn [violated warning negb andb check_requiresReview reason
         AxisValidator.acc_reviewReasons].
  apply in_or_app. right. left. reflexivity.
Qed.

(** X9. Which artifacts need human review is partly fixed by their type,
    whatever the code. A generated domain always requires human review:
    the axioms A1 and A8 are critical for domains and have no automatic
    check. A connector, extractor or protocol is never checked: its
    validation is valid, without violation, passed axiom or review reason,
    and does not require human review. *)
Theorem validate_review_by_type (generated : GeneratedCode) :
  let r := validate generated in
  (gen_type generated = domain ->
   requiresHumanReview r = true
   /\ In "A1: Entity Axiom requires human judgment" (reviewReasons r)
   /\ In "A8: Boundary Constructivism requires human judgment"
         (reviewReasons r))
  /\ (gen_type generated = connector \/ gen_type generated = extractor
      \/ gen_type generated = protocol ->
      valid r = true /\ violations r = [] /\ passed r = []
      /\ reviewReasons r = [] /\ requiresHumanReview r = false).
Proof.
  intros r. split.
  - intros E.
    assert (H1 : In "A1: Entity Axiom requires human judgment"
                    (reviewReasons r)).
    { unfold r, AxisValidator.validate. cbn [reviewReasons].
      apply (checkStep_flags generated _
               {| axiom_id := "A1"; axiom_name := "Entity Axiom";
                  statement := "An entity is a difference that maintains itself and makes a difference.";
                  checkable := false; criticalFor := [domain] |}).
      - rewrite relevantAxioms_relevantFor, E. vm_compute. tauto.
      - reflexivity.
      - rewrite E. reflexivity. }
    assert (H8 : In "A8: Boundary Constructivism requires human judgment"
                    (reviewReasons r)).
    { unfold r, AxisValidator.validate. cbn [reviewReasons].
      apply (checkStep_flags generated _
               {| axiom_id := "A8"; axiom_name := "Boundary Constructivism";
                  statement := "Boundaries are drawn, not found.";
                  checkable := false; criticalFor := [domain] |}).
      - rewrite relevantAxioms_relevantFor, E. vm_compute. tauto.
      - reflexivity.
      - rewrite E. reflexivity. }
    split; [| split; assumption].
    unfold r, AxisValidator.validate in *.
    cbn [requiresHumanReview reviewReasons] in *.
    destruct (AxisValidator.acc_reviewReasons _); [destruct H1 | reflexivity].
  - intros E. unfold r, AxisValidator.validate.
    rewrite relevantAxioms_relevantFor.
    destruct E as [E | [E | E]]; rewrite E; repeat split; reflexivity.
Qed.

End ValidatorReview.

Lemma validate_review_by_type_witness :
  valid (AxisValidator.validate passingCheck passingCheck passingCheck
           passingCheck passingCheck (fun _ _ => "0.85")
           {| gen_id := "gen_connector_1_1";
              gen_type := connector;
              gen_name := "ArxivConnector";
              gen_description := "Connector for Arxiv scientific database";
              code := "";
              targetFile := "src/ingest/arxiv-connector.ts";
              insertionPoint := {|
                ins_file := "src/ingest/arxiv-connector.ts";
                ins_after := None; ins_before := None; ins_replace := None;
                ins_append := Some true |};
              dependencies := [];
              axiomJustification := CodeGenerator.justifyConnector "Arxiv";
              generatedAt := 1;
              gen_sourceGap := sampleGap |}) = true.
Proof.
  apply (validate_review_by_type passingCheck passingCheck passingCheck
           passingCheck passingCheck (fun _ _ => "0.85")).
  left. reflexivity.
Defined.

(* ================================================================== *)
(** * Statistics and listings of the review queue *)
(* ================================================================== *)

Lemma status_partition (l : list ReviewItem) :
  (length (List.filter (ReviewQueue.hasStatus pending) l)
   + length (List.filter (ReviewQueue.hasStatus approved) l)
   + length (List.filter (ReviewQueue.hasStatus rejected) l)
   + length (List.filter (ReviewQueue.hasStatus modified) l)
   + length (List.filter (ReviewQueue.hasStatus expired) l))%nat
  = length l.
Proof.
  induction l as [| x l IH]; [reflexivity |].
  cbn [List.filter]. unfold ReviewQueue.hasStatus in *.
  destruct (status x); cbn [ReviewStatus_eqb length] in *; lia.
Qed.

Lemma filter_after_sweep (now : Z) (st : ReviewStatus) (l : list ReviewItem) :
  st <> pending -> st <> expired ->
  length (List.filter (ReviewQueue.hasStatus st)
            (map (ReviewQueue.expireIfOld now) l))
  = length (List.filter (ReviewQueue.hasStatus st) l).
Proof.
  intros Hp He. induction l as [| x l IH]; [reflexivity |].
  cbn [map List.filter].
  assert (E : ReviewQueue.hasStatus st (ReviewQueue.expireIfOld now x)
              = ReviewQueue.hasStatus st x).
  { unfold ReviewQueue.hasStatus, ReviewQueue.expireIfOld.
    destruct (status x) eqn:Hs; cbn [ReviewStatus_eqb andb];
      try (rewrite Hs; reflexivity).
    destruct (expiresAt x <? now); [| rewrite Hs; reflexivity].
    cbn [status ReviewQueue.expire].
    destruct st; try reflexivity; congruence. }
  rewrite E. destruct (ReviewQueue.hasStatus st x); cbn [length]; lia.
Qed.

Lemma fold_older_spec (rest : list ReviewItem) :
  forall first : ReviewItem,
    In (fold_left ReviewQueue.older rest first) (first :: rest)
    /\ forall x, In x (first :: rest) ->
         createdAt (fold_left ReviewQueue.older rest first) <= createdAt x.
Proof.
  induction rest as [| y rest IH]; intros first; cbn [fold_left].
  - split; [left; reflexivity |]. intros x [<- | []]. lia.
  - destruct (IH (ReviewQueue.older first y)) as (Hin & Hle).
    assert (Ho : (ReviewQueue.older first y = first \/ ReviewQueue.older first y = y)
                 /\ createdAt (ReviewQueue.older first y) <= createdAt first
                 /\ createdAt (ReviewQueue.older first y) <= createdAt y).
    { unfold ReviewQueue.older.
      destruct (createdAt y <? createdAt first) eqn:E;
        [apply Z.ltb_lt in E | apply Z.ltb_ge in E];
        (split; [tauto | lia]). }
    destruct Ho as (Hor & H1 & H2). split.
    + destruct Hin as [Hin | Hin].
      * rewrite <- Hin. destruct Hor as [-> | ->];
          [left; reflexivity | right; left; reflexivity].
      * right; right; exact Hin.
    + intros x [<- | [<- | Hx]].
      * etransitivity; [apply Hle; left; reflexivity | exact H1].
      * etransitivity; [apply Hle; left; reflexivity | exact H2].
      * apply Hle. right. exact Hx.
Qed.

Lemma getStats_eq (now : Z) (q : ReviewQueue.Queue) :
  exists avg,
    ReviewQueue.getStats now q
    = (inr {|
         ReviewQueue.stats_pending :=
           length (List.filter (pendingAt now) (ReviewQueue.items q));
         ReviewQueue.stats_approved :=
           length (List.filter (ReviewQueue.hasStatus approved)
                     (ReviewQueue.items q));
         ReviewQueue.stats_rejected :=
           length (List.filter (ReviewQueue.hasStatus rejected)
                     (ReviewQueue.items q));
         ReviewQueue.stats_modified :=
           length (List.filter (ReviewQueue.hasStatus modified)
                     (ReviewQueue.items q));
         ReviewQueue.stats_expired :=
           length (List.filter (ReviewQueue.hasStatus expired)
                     (map (ReviewQueue.expireIfOld now) (ReviewQueue.items q)));
         ReviewQueue.avgReviewTimeMs := avg;
         ReviewQueue.oldestPendingAge :=
           match List.filter (pendingAt now) (ReviewQueue.items q) with
           | [] => 0%float
           | first :: rest =>
               (JS.of_Z now
                - JS.of_Z (createdAt (fold_left ReviewQueue.older rest first)))%float
           end |},
       ReviewQueue.with_items q
         (map (ReviewQueue.expireIfOld now) (ReviewQueue.items q))).
Proof.
  eexists. unfold ReviewQueue.getStats, bind, ReviewQueue.expireOldItems,
    get_state, ret.
  cbn [ReviewQueue.items ReviewQueue.with_items].
  change (ReviewQueue.hasStatus pending) with ReviewQueue.isPending.
  rewrite filter_pending_after_sweep.
  rewrite !(filter_after_sweep now approved), !(filter_after_sweep now rejected),
    !(filter_after_sweep now modified) by discriminate.
  reflexivity.
Qed.

(** X10. [getStats] sweeps the queue as [listPending] does and counts
    every item once: the five counters add up to the number of items.
    Its [pending] is the length of what [listPending] returns at the same
    time, and the three counters of reviewed items are those of the queue
    before the sweep. [oldestPendingAge] is zero when no item is pending;
    otherwise it is the clock reading minus the creation time of a
    pending item that no pending item precedes, the two times being
    subtracted as numbers (the difference of two time values can exceed
    2^53, and is then rounded). *)
Theorem getStats_spec (now : Z) (q : ReviewQueue.Queue) :
  exists (stats : ReviewQueue.QueueStats) (res : list ReviewItem),
    ReviewQueue.getStats now q = (inr stats, snd (ReviewQueue.listPending now q))
    /\ fst (ReviewQueue.listPending now q) = inr res
    /\ ReviewQueue.stats_pending stats = length res
    /\ (ReviewQueue.stats_pending stats + ReviewQueue.stats_approved stats
        + ReviewQueue.stats_rejected stats + ReviewQueue.stats_modified stats
        + ReviewQueue.stats_expired stats)%nat
       = length (ReviewQueue.items q)
    /\ ReviewQueue.stats_approved stats
       = length (List.filter (ReviewQueue.hasStatus approved) (ReviewQueue.items q))
    /\ ReviewQueue.stats_rejected stats
       = length (List.filter (ReviewQueue.hasStatus rejected) (ReviewQueue.items q))
    /\ ReviewQueue.stats_modified stats
       = length (List.filter (ReviewQueue.hasStatus modified) (ReviewQueue.items q))
    /\ (res = [] -> ReviewQueue.oldestPendingAge stats = 0%float)
    /\ (res <> [] ->
        exists item, In item res
          /\ (forall other, In other res -> createdAt item <= createdAt other)
          /\ ReviewQueue.oldestPendingAge stats
             = (JS.of_Z now - JS.of_Z (createdAt item))%float).
Proof.
  destruct (getStats_eq now q) as (avg & Hstats).
  rewrite Hstats, listPending_eq. cbn [fst snd].
  set (P := List.filter (pendingAt now) (ReviewQueue.items q)).
  pose proof (sort_perm ReviewQueue.comparePending P) as Hperm.
  do 2 eexists. split; [reflexivity |]. split; [reflexivity |].
  cbn [ReviewQueue.stats_pending ReviewQueue.stats_approved
         ReviewQueue.stats_rejected ReviewQueue.stats_modified
         ReviewQueue.stats_expired ReviewQueue.oldestPendingAge].
  split; [symmetry; apply Permutation_length; exact Hperm |].
  split.
  { pose proof (status_partition
                  (map (ReviewQueue.expireIfOld now) (ReviewQueue.items q))) as H.
    change (ReviewQueue.hasStatus pending) with ReviewQueue.isPending in H.
    rewrite filter_pending_after_sweep in H.
    rewrite !(filter_after_sweep now approved), !(filter_after_sweep now rejected),
      !(filter_after_sweep now modified) in H by discriminate.
    rewrite length_map in H. exact H. }
  split; [reflexivity |]. split; [reflexivity |]. split; [reflexivity |].
  split.
  - intros E. rewrite E in Hperm. apply Permutation_nil in Hperm.
    fold P. rewrite Hperm. reflexivity.
  - intros Hne. fold P. destruct P as [| first rest].
    + exfalso. apply Hne. apply Permutation_nil.
      apply Permutation_sym. exact Hperm.
    + destruct (fold_older_spec rest first) as (Hin & Hle).
      exists (fold_left ReviewQueue.older rest first).
      split; [| split; [| reflexivity]].
      * apply (Permutation_in _ (Permutation_sym Hperm)). exact Hin.
      * intros other Hother. apply Hle.
        apply (Permutation_in _ Hperm). exact Hother.
Qed.

Lemma compareNewest_total (a b : ReviewItem) :
  ReviewQueue.compareNewest a b <= 0 \/ ReviewQueue.compareNewest b a <= 0.
Proof. unfold ReviewQueue.compareNewest. lia. Qed.

Lemma compareNewest_trans (a b c : ReviewItem) :
  ReviewQueue.compareNewest a b <= 0 -> ReviewQueue.compareNewest b c <= 0 ->
  ReviewQueue.compareNewest a c <= 0.
Proof. unfold ReviewQueue.compareNewest. lia. Qed.

(** X11. [listAll] returns every stored item once, the newest first, as
    it is stored: an item whose deadline has passed but that no sweep has
    marked yet is listed as pending, while [listPending] at that time
    leaves it out. *)
Theorem listAll_spec (q : ReviewQueue.Queue) :
  Permutation (ReviewQueue.listAll q) (ReviewQueue.items q)
  /\ StronglySorted (fun a b => createdAt b <= createdAt a)
       (ReviewQueue.listAll q)
  /\ (forall (now : Z) (item : ReviewItem),
        In item (ReviewQueue.items q) ->
        status item = pending -> expiresAt item < now ->
        In item (ReviewQueue.listAll q)
        /\ forall res, fst (ReviewQueue.listPending now q) = inr res ->
             ~ In item res).
Proof.
  unfold ReviewQueue.listAll. split; [apply sort_perm |]. split.
  - eapply StronglySorted_weaken;
      [| apply (sort_sorted ReviewQueue.compareNewest compareNewest_total
                  compareNewest_trans)].
    intros a b. unfold ReviewQueue.compareNewest. cbv beta. lia.
  - intros now item Hin Hst Hexp. split.
    + apply (Permutation_in _ (Permutation_sym (sort_perm _ _))). exact Hin.
    + intros res Hres. rewrite listPending_eq in Hres. cbn [fst] in Hres.
      injection Hres as <-. intros Hin'.
      apply (Permutation_in _ (sort_perm _ _)) in Hin'.
      apply filter_In in Hin'. destruct Hin' as (_ & Hp).
      unfold pendingAt in Hp. apply andb_true_iff in Hp.
      destruct Hp as (_ & Hp). apply negb_true_iff in Hp.
      apply Z.ltb_ge in Hp. lia.
Qed.

(* ================================================================== *)
(** * Persistence of the engine state *)
(* ================================================================== *)

Lemma Map_set_fresh (item : ReviewItem) (l : list ReviewItem) :
  ~ In (item_id item) (map item_id l) ->
  ReviewQueue.Map_set item l = l ++ [item].
Proof.
  induction l as [| x l IH]; intros H; [reflexivity |].
  cbn [ReviewQueue.Map_set app]. cbn [map In] in H.
  destruct (String.eqb (item_id x) (item_id item)) eqn:E.
  - apply String.eqb_eq in E. tauto.
  - rewrite IH by tauto. reflexivity.
Qed.

Lemma Map_set_present (item : ReviewItem) (l : list ReviewItem) :
  List.NoDup (map item_id l) -> In item l -> ReviewQueue.Map_set item l = l.
Proof.
  induction l as [| x l IH]; intros Hnd Hin; [destruct Hin |].
  inversion Hnd as [| ? ? Hx Hl]; subst. cbn [ReviewQueue.Map_set].
  destruct Hin as [-> | Hin].
  - rewrite String.eqb_refl. reflexivity.
  - destruct (String.eqb (item_id x) (item_id item)) eqn:E.
    + apply String.eqb_eq in E. exfalso. apply Hx. rewrite E.
      apply in_map. exact Hin.
    + rewrite IH by assumption. reflexivity.
Qed.

Lemma import_fresh (l : list ReviewItem) :
  forall acc : list ReviewItem,
    List.NoDup (map item_id (acc ++ l)) ->
    fold_left (fun acc item => ReviewQueue.Map_set item acc) l acc = acc ++ l.
Proof.
  induction l as [| x l IH]; intros acc H; cbn [fold_left].
  - rewrite app_nil_r. reflexivity.
  - assert (Hx : ~ In (item_id x) (map item_id acc)).
    { rewrite map_app in H. cbn [map] in H.
      apply NoDup_remove_2 in H. intros Hin. apply H.
      apply in_or_app. left. exact Hin. }
    rewrite (Map_set_fresh x acc Hx), IH.
    + rewrite <- app_assoc. reflexivity.
    + rewrite <- app_assoc. exact H.
Qed.

Lemma import_present (l' l : list ReviewItem) :
  List.NoDup (map item_id l) -> incl l' l ->
  fold_left (fun acc item => ReviewQueue.Map_set item acc) l' l = l.
Proof.
  intros Hnd. induction l' as [| x l' IH]; intros Hincl; cbn [fold_left];
    [reflexivity |].
  rewrite (Map_set_present x l Hnd) by (apply Hincl; left; reflexivity).
  apply IH. intros y Hy. apply Hincl. right. exact Hy.
Qed.

(** X12. The state that [exportState] returns restores the engine: loaded
    by [importState] into a new engine, it gives a review queue with the
    same items in the same order and the same integration history, so
    that a further export returns the same state. The counter of the
    queue is not part of the state and starts again at zero. Loading the
    exported items of a queue into that queue itself changes nothing. *)
Theorem exportState_importState_round_trip
    (s : SelfProductionEngine.State) (cfg : ReviewQueue.ReviewQueueConfig)
    (files : gmap string string) :
  ReviewQueue.wf (SelfProductionEngine.reviewQueue s) ->
  let fresh := {|
    SelfProductionEngine.reviewQueue := ReviewQueue.new cfg;
    SelfProductionEngine.integrator :=
      {| Integrator.fs := files; Integrator.history := [] |} |} in
  exists s',
    SelfProductionEngine.importState (SelfProductionEngine.exportState s) fresh
    = (inr tt, s')
    /\ SelfProductionEngine.exportState s' = SelfProductionEngine.exportState s
    /\ ReviewQueue.items (SelfProductionEngine.reviewQueue s')
       = ReviewQueue.items (SelfProductionEngine.reviewQueue s)
    /\ ReviewQueue.itemCounter (SelfProductionEngine.reviewQueue s') = 0%nat
    /\ Integrator.history (SelfProductionEngine.integrator s')
       = Integrator.history (SelfProductionEngine.integrator s)
    /\ Integrator.fs (SelfProductionEngine.integrator s') = files
    /\ snd (ReviewQueue.import
              (ReviewQueue.export (SelfProductionEngine.reviewQueue s))
              (SelfProductionEngine.reviewQueue s))
       = SelfProductionEngine.reviewQueue s.
Proof.
  intros Hwf fresh. unfold ReviewQueue.wf in Hwf.
  assert (E : fold_left (fun acc item => ReviewQueue.Map_set item acc)
                (ReviewQueue.items (SelfProductionEngine.reviewQueue s)) []
              = ReviewQueue.items (SelfProductionEngine.reviewQueue s))
    by (apply (import_fresh _ []); exact Hwf).
  eexists. split.
  { unfold SelfProductionEngine.importState, SelfProductionEngine.exportState,
      bind, SelfProductionEngine.onQueue, SelfProductionEngine.onIntegrator,
      ReviewQueue.import, ReviewQueue.export, Integrator.importHistory,
      Integrator.exportHistory, fresh.
    cbn [fst snd SelfProductionEngine.reviewQueue SelfProductionEngine.integrator
           ReviewQueue.items ReviewQueue.new ReviewQueue.with_items
           Integrator.fs Integrator.history app].
    rewrite E. reflexivity. }
  cbn [SelfProductionEngine.reviewQueue SelfProductionEngine.integrator
         ReviewQueue.items ReviewQueue.itemCounter ReviewQueue.with_items
         ReviewQueue.queue_config Integrator.fs Integrator.history].
  repeat split.
  unfold ReviewQueue.import, ReviewQueue.export, ReviewQueue.with_items.
  cbn [snd]. rewrite (import_present _ _ Hwf) by apply incl_refl.
  destruct (SelfProductionEngine.reviewQueue s). reflexivity.
Qed.

Lemma exportState_importState_round_trip_witness :
  exists s',
    SelfProductionEngine.importState
      (SelfProductionEngine.exportState pendingEngine)
      {| SelfProductionEngine.reviewQueue :=
           ReviewQueue.new ReviewQueue.DEFAULT_CONFIG;
         SelfProductionEngine.integrator := emptyState |}
    = (inr tt, s')
    /\ SelfProductionEngine.exportState s'
       = SelfProductionEngine.exportState pendingEngine.
Proof.
  destruct (exportState_importState_round_trip pendingEngine
              ReviewQueue.DEFAULT_CONFIG ∅) as (s' & H1 & H2 & _).
  - unfold ReviewQueue.wf. cbn. constructor; [intros [] | constructor].
  - exists s'. split; assumption.
Defined.

(* ================================================================== *)
(** * Integration of an approved item by the engine *)
(* ================================================================== *)








(* ================================================================== *)
(** * Insertion of the code into an existing file *)
(* ================================================================== *)

Lemma take_drop (n : nat) (s : string) : JS.take n s +:+ JS.drop n s = s.
Proof.
  revert s. induction n as [| n IH]; intros [| c s]; try reflexivity.
  cbn [JS.take JS.drop].
  change (String c (JS.take n s +:+ JS.drop n s) = String c s).
  f_equal. apply IH.
Qed.

Lemma string_app_assoc (a b c : string) : (a +:+ b) +:+ c = a +:+ (b +:+ c).
Proof.
  induction a as [| x a IH]; [reflexivity |].
  change (String x ((a +:+ b) +:+ c) = String x (a +:+ (b +:+ c))).
  now rewrite IH.
Qed.

Lemma string_app_nil_r (a : string) : a +:+ "" = a.
Proof.
  induction a as [| x a IH]; [reflexivity |].
  change (String x (a +:+ "") = String x a). now rewrite IH.
Qed.


(** X14. Outside the [replace] strategy, [applyInsertion] loses nothing
    of the file and inserts the code verbatim: the result is the old
    content, cut in two at some point, with the new code and some glue
    (line breaks, and the marker comment when the [after] marker is
    missing) in between. *)
Theorem applyInsertion_keeps_content (content newCode : string)
    (insertion : InsertionPoint) :
  ins_append insertion = Some true \/ JS.present (ins_replace insertion) = false ->
  exists pre post glue1 glue2,
    content = pre +:+ post
    /\ Integrator.applyInsertion content newCode insertion
       = pre +:+ glue1 +:+ newCode +:+ glue2 +:+ post
    /\ In glue1 [""; Integrator.nl;
                 Integrator.nl +:+ Integrator.nl
                 +:+ "// AUTO-GENERATED CODE BELOW" +:+ Integrator.nl]
    /\ In glue2 [""; Integrator.nl; Integrator.nl +:+ Integrator.nl].
Proof.
  intros H. unfold Integrator.applyInsertion.
  assert (Happend : exists pre post glue1 glue2,
             content = pre +:+ post
             /\ content +:+ Integrator.nl +:+ newCode
                = pre +:+ glue1 +:+ newCode +:+ glue2 +:+ post
             /\ In glue1 [""; Integrator.nl;
                          Integrator.nl +:+ Integrator.nl
                          +:+ "// AUTO-GENERATED CODE BELOW" +:+ Integrator.nl]
             /\ In glue2 [""; Integrator.nl; Integrator.nl +:+ Integrator.nl]).
  { exists content, "", Integrator.nl, "".
    split; [now rewrite string_app_nil_r |].
    split; [now rewrite !string_app_nil_r |].
    split; [right; left; reflexivity | left; reflexivity]. }
  destruct (ins_append insertion) as [[] |] eqn:Ea; [exact Happend | |];
    (destruct H as [H | H]; [discriminate H |]; rewrite H;
     destruct (JS.present (ins_after insertion));
     [ destruct (JS.indexOf content (default "" (ins_after insertion)))
         as [i |];
       [ exists (JS.take (i + String.length (default "" (ins_after insertion)))
                   content),
                (JS.drop (i + String.length (default "" (ins_after insertion)))
                   content), Integrator.nl, "";
         split; [now rewrite take_drop |];
         split; [reflexivity |];
         split; [right; left; reflexivity | left; reflexivity]
       | exists content, "",
                (Integrator.nl +:+ Integrator.nl
                 +:+ "// AUTO-GENERATED CODE BELOW" +:+ Integrator.nl), "";
         split; [now rewrite string_app_nil_r |];
         split; [now rewrite !string_app_nil_r, !string_app_assoc |];
         split; [right; right; left; reflexivity | left; reflexivity] ]
     | destruct (JS.present (ins_before insertion));
       [ destruct (JS.indexOf content (default "" (ins_before insertion)))
           as [i |];
         [ exists (JS.take i content), (JS.drop i content), "", Integrator.nl;
           split; [now rewrite take_drop |];
           split; [reflexivity |];
           split; [left; reflexivity | right; left; reflexivity]
         | exists "", content, "", (Integrator.nl +:+ Integrator.nl);
           split; [reflexivity |];
           split; [now rewrite !string_app_assoc |];
           split; [left; reflexivity | right; right; left; reflexivity] ]
       | exact Happend ] ]).
Qed.

Lemma applyInsertion_keeps_content_witness :
  exists pre post glue1 glue2,
    "// AUTO-GENERATED RELATIONS BELOW" = pre +:+ post
    /\ Integrator.applyInsertion "// AUTO-GENERATED RELATIONS BELOW"
         (code sampleCode) (insertionPoint sampleCode)
       = pre +:+ glue1 +:+ code sampleCode +:+ glue2 +:+ post
    /\ In glue1 [""; Integrator.nl;
                 Integrator.nl +:+ Integrator.nl
                 +:+ "// AUTO-GENERATED CODE BELOW" +:+ Integrator.nl]
    /\ In glue2 [""; Integrator.nl; Integrator.nl +:+ Integrator.nl].
Proof.
  apply (applyInsertion_keeps_content "// AUTO-GENERATED RELATIONS BELOW"
           (code sampleCode) (insertionPoint sampleCode)).
  right. reflexivity.
Defined.



(* ================================================================== *)
(** * The reviewer's edit reaches the integrated file *)
(* ================================================================== *)






(* ================================================================== *)
(** * The integration history *)
(* ================================================================== *)






Lemma sort_sorted_id {A : Type} (cmp : A -> A -> Z) (l : list A) :
  StronglySorted (fun a b => cmp a b <= 0) l -> JS.sort cmp l = l.
Proof.
  induction 1 as [| x l Hl IH Hx]; [reflexivity |].
  cbn [JS.sort]. rewrite IH.
  destruct l as [| y l']; [reflexivity |].
  cbn [JS.insert_sorted].
  inversion Hx as [| ? ? Hxy _]; subst.
  apply Z.leb_le in Hxy. rewrite Hxy. reflexivity.
Qed.

Lemma compareRecent_total (a b : IntegrationHistoryEntry) :
  Integrator.compareRecent a b <= 0 \/ Integrator.compareRecent b a <= 0.
Proof. unfold Integrator.compareRecent. lia. Qed.

Lemma compareRecent_trans (a b c : IntegrationHistoryEntry) :
  Integrator.compareRecent a b <= 0 -> Integrator.compareRecent b c <= 0 ->
  Integrator.compareRecent a c <= 0.
Proof. unfold Integrator.compareRecent. lia. Qed.

(** X17. [getRecent] is not a pure query: it leaves the stored history
    sorted, the newest integration first, and returns the first [count]
    entries of it. The history afterwards holds the same entries (what
    [getHistory] and [exportHistory] return is a permutation of what it
    was), the files are untouched, and a second call returns the same
    entries and changes nothing more. *)
Theorem getRecent_sorts_history (count : nat) (st : Integrator.State) :
  exists recent st',
    Integrator.getRecent count st = (inr recent, st')
    /\ recent = firstn count (Integrator.getHistory st')
    /\ length recent = Nat.min count (length (Integrator.history st))
    /\ Permutation (Integrator.getHistory st') (Integrator.getHistory st)
    /\ StronglySorted (fun a b => integratedAt b <= integratedAt a)
         (Integrator.exportHistory st')
    /\ Integrator.fs st' = Integrator.fs st
    /\ Integrator.getRecent count st' = (inr recent, st').
Proof.
  unfold Integrator.getRecent, Integrator.getHistory, Integrator.exportHistory.
  do 2 eexists. split; [reflexivity |].
  cbn [Integrator.history Integrator.fs].
  pose proof (sort_perm Integrator.compareRecent (Integrator.history st))
    as Hperm.
  pose proof (sort_sorted Integrator.compareRecent compareRecent_total
                compareRecent_trans (Integrator.history st)) as Hsorted.
  split; [reflexivity |]. split.
  { rewrite length_firstn, (Permutation_length Hperm). reflexivity. }
  split; [exact Hperm |]. split.
  { eapply StronglySorted_weaken; [| exact Hsorted].
    intros a b. unfold Integrator.compareRecent. cbv beta. lia. }
  split; [reflexivity |].
  rewrite (sort_sorted_id _ _ Hsorted). reflexivity.
Qed.

(** X18. A rollback fails without touching the files or the history when
    the integration is unknown, and when its backup file is no longer
    there: the error of the file system is thrown, and the entry stays
    rollbackable. The engine passes the error on. *)
Theorem rollback_fails_cleanly
    (cfg : SelfProductionEngine.SelfProductionConfig) (id : string)
    (s : SelfProductionEngine.State) :
  let history := Integrator.history (SelfProductionEngine.integrator s) in
  (Integrator.findEntry id history = None ->
   SelfProductionEngine.rollback cfg id s = (inl (IntegrationNotFound id), s))
  /\ (forall entry bp,
        SelfProductionEngine.dryRun cfg = false ->
        Integrator.findEntry id history = Some entry ->
        canRollback entry = true ->
        backupPath entry = Some bp ->
        JS.truthy bp = true ->
        Integrator.fs (SelfProductionEngine.integrator s) !! bp = None ->
        SelfProductionEngine.rollback cfg id s = (inl (ENOENT bp), s)
        /\ Integrator.rollback (SelfProductionEngine.integratorConfig cfg) id
             (SelfProductionEngine.integrator s)
           = (inl (ENOENT bp), SelfProductionEngine.integrator s)).
Proof.
  intros history. subst history. split.
  - intros Hnone. unfold SelfProductionEngine.rollback,
      SelfProductionEngine.onIntegrator, Integrator.rollback, bind, get_state.
    rewrite Hnone. unfold throw. destruct s; reflexivity.
  - intros entry bp Hdry Hfind Hcan Hbp Htruthy Hfile.
    assert (H : Integrator.rollback (SelfProductionEngine.integratorConfig cfg) id
                  (SelfProductionEngine.integrator s)
                = (inl (ENOENT bp), SelfProductionEngine.integrator s)).
    { unfold Integrator.rollback, bind, get_state.
      rewrite Hfind, Hcan, Hbp. cbn [JS.present negb orb].
      rewrite Htruthy. cbn [negb].
      cbn [Integrator.dryRun SelfProductionEngine.integratorConfig].
      rewrite Hdry. unfold Integrator.copyFileSync.
      change (default EmptyString (Some bp)) with bp.
      rewrite Hfile. reflexivity. }
    split; [| exact H].
    unfold SelfProductionEngine.rollback, SelfProductionEngine.onIntegrator.
    rewrite H. destruct s; reflexivity.
Qed.

(* ================================================================== *)
(** * Approval through the engine *)
(* ================================================================== *)

Lemma approve_run (q : ReviewQueue.Queue) (id reviewer : string)
    (notes : option string) (now : Z) (item : ReviewItem) :
  ReviewQueue.get id q = Some item -> status item = pending ->
  ReviewQueue.approve id reviewer notes now q
  = (inr (approvedItem now item reviewer notes),
     ReviewQueue.with_items q
       (ReviewQueue.Map_set (approvedItem now item reviewer notes)
          (ReviewQueue.items q))).
Proof.
  intros Hget Hst. unfold ReviewQueue.get in Hget.
  unfold ReviewQueue.approve, bind, ReviewQueue.pendingItem.
  rewrite Hget, Hst. reflexivity.
Qed.



(* ================================================================== *)
(** * What the entry paths of the queue return *)
(* ================================================================== *)

Lemma Map_get_map (f : ReviewItem -> ReviewItem) (id : string)
    (l : list ReviewItem) :
  (forall x, item_id (f x) = item_id x) ->
  ReviewQueue.Map_get id (map f l) = option_map f (ReviewQueue.Map_get id l).
Proof.
  intros Hf. unfold ReviewQueue.Map_get.
  induction l as [| x l IH]; [reflexivity |].
  cbn [map List.find]. rewrite Hf.
  destruct (String.eqb (item_id x) id); [reflexivity | exact IH].
Qed.

Lemma expireIfOld_id (now : Z) (x : ReviewItem) :
  item_id (ReviewQueue.expireIfOld now x) = item_id x.
Proof. unfold ReviewQueue.expireIfOld. destruct (_ && _); reflexivity. Qed.








(* ================================================================== *)
(** * Integration of all approved items *)
(* ================================================================== *)









(* ================================================================== *)
(** * Every tension is reported *)
(* ================================================================== *)

Lemma tensionsOf_complete (now : Z) (c : nat) (e : Entity) :
  (closureScopeTension e = true ->
   exists g, In g (fst (GapAnalyzer.tensionsOf now c e))
     /\ g = GapAnalyzer.closureScopeGap now (gap_id g) e)
  /\ (nestingViolation e = true ->
      exists g, In g (fst (GapAnalyzer.tensionsOf now c e))
        /\ g = GapAnalyzer.nestingGap now (gap_id g) e)
  /\ length (fst (GapAnalyzer.tensionsOf now c e))
     = ((if closureScopeTension e then 1 else 0)
        + (if nestingViolation e then 1 else 0))%nat.
Proof.
  unfold closureScopeTension, nestingViolation, outsideIdeal,
    GapAnalyzer.tensionsOf, GapAnalyzer.generateGapId.
  destruct (JS.gt (closure (config e)) 0.8 && JS.gt (scope (config e)) 0.8);
    destruct (GapAnalyzer.respectsStratalNesting (GapAnalyzer.getActiveStrata e));
    destruct (entity_domain e); cbn [andb negb fst snd app length Nat.add];
    (split; [| split; [| reflexivity]]); intros H; try discriminate H;
    first [ solve [eexists; split; [left; reflexivity | reflexivity]]
          | solve [eexists; split; [right; left; reflexivity | reflexivity]] ].
Qed.

Lemma analyzeAxiomTensions_snoc_in (now : Z) (g : string -> Gap) (e : Entity)
    (entities : list Entity) :
  In e entities ->
  (forall c, exists g', In g' (fst (GapAnalyzer.tensionsOf now c e))
                        /\ g' = g (gap_id g')) ->
  forall c, exists g', In g' (fst (GapAnalyzer.analyzeAxiomTensions now c entities))
                       /\ g' = g (gap_id g').
Proof.
  intros Hin Hg. induction entities as [| x rest IH]; intros c;
    [destruct Hin |].
  rewrite analyzeAxiomTensions_cons. destruct Hin as [-> | Hin].
  - destruct (Hg c) as (g' & Hin' & Heq). exists g'.
    split; [apply in_or_app; left; exact Hin' | exact Heq].
  - destruct (IH Hin (snd (GapAnalyzer.tensionsOf now c x)))
      as (g' & Hin' & Heq).
    exists g'. split; [apply in_or_app; right; exact Hin' | exact Heq].
Qed.

(** X22. [analyzeAxiomTensions] misses no tension: every entity outside
    the IDEAL domain whose closure and scope both exceed 0.8 gets the
    closure-scope gap, every such entity whose active strata fail
    [respectsStratalNesting] gets the critical nesting gap, and the number
    of gaps is the number of the former plus the number of the latter. *)
Theorem analyzeAxiomTensions_complete (now : Z) (c : nat)
    (entities : list Entity) :
  let gaps := fst (GapAnalyzer.analyzeAxiomTensions now c entities) in
  (forall e, In e entities -> closureScopeTension e = true ->
     exists g, In g gaps /\ g = GapAnalyzer.closureScopeGap now (gap_id g) e)
  /\ (forall e, In e entities -> nestingViolation e = true ->
        exists g, In g gaps /\ g = GapAnalyzer.nestingGap now (gap_id g) e)
  /\ length gaps
     = (length (List.filter closureScopeTension entities)
        + length (List.filter nestingViolation entities))%nat.
Proof.
  intros gaps. subst gaps. split; [| split].
  - intros e Hin Ht.
    apply (analyzeAxiomTensions_snoc_in now
             (fun id => GapAnalyzer.closureScopeGap now id e) e entities Hin).
    intros c'. destruct (tensionsOf_complete now c' e) as (H & _).
    exact (H Ht).
  - intros e Hin Hv.
    apply (analyzeAxiomTensions_snoc_in now
             (fun id => GapAnalyzer.nestingGap now id e) e entities Hin).
    intros c'. destruct (tensionsOf_complete now c' e) as (_ & H & _).
    exact (H Hv).
  - revert c. induction entities as [| e rest IH]; intros c; [reflexivity |].
    rewrite analyzeAxiomTensions_cons, length_app, IH.
    destruct (tensionsOf_complete now c e) as (_ & _ & ->).
    cbn [List.filter].
    destruct (closureScopeTension e); destruct (nestingViolation e);
      cbn [length]; lia.
Qed.

(* ================================================================== *)
(** * Clusters of domain misfits *)
(* ================================================================== *)

Lemma assigned_has (id : string) (assigned : list string) :
  existsb (String.eqb id) assigned = true <-> In id assigned.
Proof.
  rewrite existsb_exists. split.
  - intros (x & Hx & E). apply String.eqb_eq in E. now subst x.
  - intros H. exists id. split; [exact H | apply String.eqb_refl].
Qed.

Lemma gather_spec (entity : Entity) (others : list Entity) :
  forall (cluster : list Entity) (assigned : list string),
  exists new,
    GapAnalyzer.gather entity others cluster assigned
    = (cluster ++ new, assigned ++ map entity_id new)
    /\ List.NoDup (map entity_id new)
    /\ forall m, In m new ->
         In m others /\ GapAnalyzer.similar entity m = true
         /\ ~ In (entity_id m) assigned.
Proof.
  induction others as [| other rest IH]; intros cluster assigned;
    cbn [GapAnalyzer.gather].
  - exists []. cbn [map]. rewrite !app_nil_r.
    split; [reflexivity |]. split; [apply List.NoDup_nil | intros m []].
  - destruct (existsb (String.eqb (entity_id other)) assigned) eqn:Ea.
    + destruct (IH cluster assigned) as (new & Hrun & Hnd & Hnew).
      exists new. split; [exact Hrun |]. split; [exact Hnd |].
      intros m Hm. destruct (Hnew m Hm) as (H1 & H2 & H3).
      split; [right; exact H1 | tauto].
    + destruct (GapAnalyzer.similar entity other) eqn:Es.
      * destruct (IH (cluster ++ [other]) (assigned ++ [entity_id other]))
          as (new & Hrun & Hnd & Hnew).
        exists (other :: new). split; [| split].
        -- rewrite Hrun. cbn [map]. rewrite <- !app_assoc. reflexivity.
        -- cbn [map]. constructor; [| exact Hnd].
           intros Hin. apply in_map_iff in Hin.
           destruct Hin as (m & Hid & Hm).
           destruct (Hnew m Hm) as (_ & _ & H3). apply H3.
           apply in_or_app. right. left. symmetry. exact Hid.
        -- intros m [<- | Hm].
           ++ split; [left; reflexivity |]. split; [exact Es |].
              intros Hin. apply assigned_has in Hin. congruence.
           ++ destruct (Hnew m Hm) as (H1 & H2 & H3).
              split; [right; exact H1 |]. split; [exact H2 |].
              intros Hin. apply H3. apply in_or_app. left. exact Hin.
      * destruct (IH cluster assigned) as (new & Hrun & Hnd & Hnew).
        exists new. split; [exact Hrun |]. split; [exact Hnd |].
        intros m Hm. destruct (Hnew m Hm) as (H1 & H2 & H3).
        split; [right; exact H1 | tauto].
Qed.

Lemma clusterLoop_spec (toFixed : float -> nat -> string)
    (entities todo : list Entity) :
  forall assigned : list string,
    let clusters := GapAnalyzer.clusterLoop toFixed entities todo assigned in
    (forall c, In c clusters ->
       exists seed members,
         GapAnalyzer.cluster_entities c = seed :: members
         /\ members <> []
         /\ In seed todo
         /\ forall m, In m members ->
              In m entities /\ GapAnalyzer.similar seed m = true)
    /\ List.NoDup
         (flat_map (fun c => map entity_id (GapAnalyzer.cluster_entities c))
            clusters)
    /\ (forall c e, In c clusters -> In e (GapAnalyzer.cluster_entities c) ->
          ~ In (entity_id e) assigned).
Proof.
  induction todo as [| entity rest IH]; intros assigned;
    cbn [GapAnalyzer.clusterLoop].
  - split; [intros c [] |]. split; [apply List.NoDup_nil | intros c e []].
  - destruct (existsb (String.eqb (entity_id entity)) assigned) eqn:Ea.
    + destruct (IH assigned) as (Ha & Hb & Hc). split; [| split; assumption].
      intros c Hin. destruct (Ha c Hin) as (seed & members & H1 & H2 & H3 & H4).
      exists seed, members. repeat split; try assumption; try (apply H4; assumption).
      right. exact H3.
    + destruct (gather_spec entity entities [entity]
                  (assigned ++ [entity_id entity]))
        as (new & Hrun & Hnd & Hnew).
      rewrite Hrun.
      set (assigned' := (assigned ++ [entity_id entity]) ++ map entity_id new).
      destruct (IH assigned') as (Ha & Hb & Hc).
      set (rest_clusters := GapAnalyzer.clusterLoop toFixed entities rest assigned')
        in *.
      assert (Hfresh : ~ In (entity_id entity) assigned).
      { intros Hin. apply assigned_has in Hin. congruence. }
      assert (Hrest_a :
                forall c, In c rest_clusters ->
                  exists seed members,
                    GapAnalyzer.cluster_entities c = seed :: members
                    /\ members <> []
                    /\ In seed (entity :: rest)
                    /\ forall m, In m members ->
                         In m entities /\ GapAnalyzer.similar seed m = true).
      { intros c Hin.
        destruct (Ha c Hin) as (seed & members & H1 & H2 & H3 & H4).
        exists seed, members. split; [exact H1 |]. split; [exact H2 |].
        split; [right; exact H3 | exact H4]. }
      assert (Hrest_c :
                forall c e, In c rest_clusters ->
                  In e (GapAnalyzer.cluster_entities c) ->
                  ~ In (entity_id e) assigned).
      { intros c e Hin He Hid. apply (Hc c e Hin He).
        unfold assigned'. apply in_or_app. left. apply in_or_app. left.
        exact Hid. }
      destruct (2 <=? length ([entity] ++ new))%nat eqn:Elen;
        [| split; [exact Hrest_a | split; [exact Hb | exact Hrest_c]]].
      cbn [app] in *. split; [| split].
      * intros c [<- | Hin]; [| apply Hrest_a; exact Hin].
        exists entity, new. cbn [GapAnalyzer.cluster_entities].
        split; [reflexivity |]. split.
        { intros ->. cbn in Elen. discriminate Elen. }
        split; [left; reflexivity |].
        intros m Hm. destruct (Hnew m Hm) as (H1 & H2 & _). tauto.
      * cbn [flat_map GapAnalyzer.cluster_entities map].
        constructor.
        { intros Hin. apply in_app_or in Hin. destruct Hin as [Hin | Hin].
          - apply in_map_iff in Hin. destruct Hin as (m & Hid & Hm).
            destruct (Hnew m Hm) as (_ & _ & H3). apply H3.
            apply in_or_app. right. left. symmetry. exact Hid.
          - apply in_flat_map in Hin. destruct Hin as (c & Hc' & Hin).
            apply in_map_iff in Hin. destruct Hin as (e & Hid & He).
            apply (Hc c e Hc' He). rewrite Hid. unfold assigned'.
            apply in_or_app. left. apply in_or_app. right. left. reflexivity. }
        apply List.NoDup_app; [exact Hnd | exact Hb |].
        intros x Hx Hin.
        apply in_flat_map in Hin. destruct Hin as (c & Hc' & Hin).
        apply in_map_iff in Hin. destruct Hin as (e & Hid & He).
        apply (Hc c e Hc' He). rewrite Hid. unfold assigned'.
        apply in_or_app. right. exact Hx.
      * intros c e [<- | Hin] He; [| apply (Hrest_c c e Hin He)].
        cbn [GapAnalyzer.cluster_entities] in He.
        destruct He as [<- | He]; [exact Hfresh |].
        destruct (Hnew e He) as (_ & _ & H3). intros Hid. apply H3.
        apply in_or_app. left. exact Hid.
Qed.

Lemma misfitGaps_spec (cfg : GapAnalyzer.GapAnalyzerConfig) (now : Z)
    (clusters : list GapAnalyzer.MisfitCluster) :
  forall c,
    Forall2 (fun g cl => g = GapAnalyzer.misfitGap cfg now (gap_id g) cl)
      (fst (GapAnalyzer.misfitGaps cfg now c clusters))
      (List.filter
         (fun cl => (GapAnalyzer.domainMinClusterSize cfg
                     <=? length (GapAnalyzer.cluster_entities cl))%nat)
         clusters).
Proof.
  induction clusters as [| cl rest IH]; intros c;
    cbn [GapAnalyzer.misfitGaps List.filter]; [constructor |].
  destruct (GapAnalyzer.domainMinClusterSize cfg
            <=? length (GapAnalyzer.cluster_entities cl))%nat; [| apply IH].
  unfold GapAnalyzer.generateGapId. cbv beta iota zeta.
  specialize (IH (S c)).
  destruct (GapAnalyzer.misfitGaps cfg now (S c) rest) as [gs c'].
  cbn [fst] in *. constructor; [reflexivity | exact IH].
Qed.

Lemma NoDup_app_apart {A : Type} (l1 l2 : list A) (b : A) :
  List.NoDup (l1 ++ l2) -> In b l1 -> In b l2 -> False.
Proof.
  induction l1 as [| x l1 IH]; intros H H1 H2; [destruct H1 |].
  cbn [app] in H. inversion H as [| ? ? Hx Hl]; subst.
  destruct H1 as [-> | H1].
  - apply Hx. apply in_or_app. right. exact H2.
  - exact (IH Hl H1 H2).
Qed.

Lemma NoDup_flat_map_filter {A B : Type} (f : A -> list B) (p : A -> bool)
    (l : list A) :
  List.NoDup (flat_map f l) -> List.NoDup (flat_map f (List.filter p l)).
Proof.
  induction l as [| x l IH]; intros H; [constructor |].
  cbn [flat_map List.filter] in *.
  assert (Hl : List.NoDup (flat_map f l))
    by (apply List.NoDup_app_remove_l in H; exact H).
  destruct (p x); [| apply IH; exact Hl].
  cbn [flat_map]. apply List.NoDup_app.
  - apply List.NoDup_app_remove_r in H. exact H.
  - apply IH. exact Hl.
  - intros b Hb Hin. apply in_flat_map in Hin.
    destruct Hin as (y & Hy & Hby). apply filter_In in Hy.
    apply (NoDup_app_apart _ _ b H Hb). apply in_flat_map. exists y. tauto.
Qed.

Lemma misfit_evidence_ids (cfg : GapAnalyzer.GapAnalyzerConfig) (now : Z)
    (gaps : list Gap) (clusters : list GapAnalyzer.MisfitCluster) :
  Forall2 (fun g cl => g = GapAnalyzer.misfitGap cfg now (gap_id g) cl)
    gaps clusters ->
  flat_map (fun g => map ev_entityId (gap_evidence g)) gaps
  = map Some
      (flat_map (fun cl => map entity_id (GapAnalyzer.cluster_entities cl))
         clusters).
Proof.
  induction 1 as [| g cl gaps clusters Hg _ IH]; [reflexivity |].
  cbn [flat_map]. rewrite map_app, IH, Hg.
  cbn [gap_evidence GapAnalyzer.misfitGap]. rewrite !map_map. reflexivity.
Qed.

(** X23. What [analyzeDomainMisfits] reports. Every gap stands for one
    cluster of misfits, entities whose fit score is below the threshold:
    a first entity and at least one more, each of them within 0.2 of the
    first in closure and in scope, and at least [domainMinClusterSize] in
    all; the severity is high from ten entities on. No entity (by id) is
    reported in two gaps or twice in one, and nothing is reported when
    there are fewer misfits than [domainMinClusterSize]. *)
Theorem analyzeDomainMisfits_spec (toFixed : float -> nat -> string)
    (cfg : GapAnalyzer.GapAnalyzerConfig) (now : Z) (c : nat)
    (entities : list Entity) :
  let gaps :=
    fst (GapAnalyzer.analyzeDomainMisfits toFixed cfg now c entities) in
  (forall g, In g gaps ->
     exists seed members,
       gap_evidence g = map (GapAnalyzer.misfitEvidence cfg) (seed :: members)
       /\ members <> []
       /\ (GapAnalyzer.domainMinClusterSize cfg <= length (seed :: members))%nat
       /\ (forall e, In e (seed :: members) ->
             In e entities /\ GapAnalyzer.isMisfit cfg e = true)
       /\ (forall m, In m members -> GapAnalyzer.similar seed m = true)
       /\ gap_type g = domain_misfit
       /\ action_type (suggestedAction g) = new_domain
       /\ gap_severity g
          = if (10 <=? length (seed :: members))%nat then high else medium)
  /\ List.NoDup (flat_map (fun g => map ev_entityId (gap_evidence g)) gaps)
  /\ ((length (GapAnalyzer.selectMisfits cfg entities)
       < GapAnalyzer.domainMinClusterSize cfg)%nat -> gaps = []).
Proof.
  intros gaps. subst gaps. unfold GapAnalyzer.analyzeDomainMisfits.
  destruct (GapAnalyzer.domainMinClusterSize cfg
            <=? length (GapAnalyzer.selectMisfits cfg entities))%nat eqn:Emin.
  2:{ cbn [fst]. split; [intros g [] |].
      split; [apply List.NoDup_nil | reflexivity]. }
  apply Nat.leb_le in Emin.
  pose proof (misfitGaps_spec cfg now
                (GapAnalyzer.clusterMisfits toFixed
                   (GapAnalyzer.selectMisfits cfg entities)) c) as HF.
  destruct (clusterLoop_spec toFixed (GapAnalyzer.selectMisfits cfg entities)
              (GapAnalyzer.selectMisfits cfg entities) [])
    as (Ha & Hb & _).
  fold (GapAnalyzer.clusterMisfits toFixed
          (GapAnalyzer.selectMisfits cfg entities)) in Ha, Hb.
  split; [| split; [| lia]].
  - intros g Hg.
    destruct (Forall2_In_l _ _ _ g HF Hg) as (cl & Hcl & Hgcl).
    apply filter_In in Hcl. destruct Hcl as (Hcl & Hsize).
    apply Nat.leb_le in Hsize.
    destruct (Ha cl Hcl) as (seed & members & Hents & Hne & Hseed & Hmem).
    exists seed, members. rewrite Hgcl.
    cbn [gap_evidence gap_type gap_severity suggestedAction action_type
           GapAnalyzer.misfitGap].
    rewrite Hents in *.
    split; [reflexivity |]. split; [exact Hne |]. split; [exact Hsize |].
    split.
    { intros e [<- | He].
      - apply filter_In in Hseed. exact Hseed.
      - destruct (Hmem e He) as (Hin & _). apply filter_In in Hin. exact Hin. }
    split; [intros m Hm; apply (Hmem m Hm) |].
    repeat split.
  - rewrite (misfit_evidence_ids cfg now _ _ HF).
    apply Injective_map_NoDup; [intros a b E; congruence |].
    apply NoDup_flat_map_filter. exact Hb.
Qed.

(* ================================================================== *)
(** * Expiry is lazy *)
(* ================================================================== *)

Lemma get_after_sweep (now : Z) (q : ReviewQueue.Queue) (id : string) :
  ReviewQueue.get id (snd (ReviewQueue.listPending now q))
  = option_map (ReviewQueue.expireIfOld now) (ReviewQueue.get id q).
Proof.
  rewrite listPending_eq. unfold ReviewQueue.get.
  cbn [snd ReviewQueue.items ReviewQueue.with_items].
  apply Map_get_map. apply expireIfOld_id.
Qed.

(** X24. The deadline of an item is enforced by the sweep only. [approve]
    does not look at the clock: it accepts a pending item whose deadline
    has passed, as long as no sweep has run. Once [listPending] (or any
    other operation that sweeps) has run past the deadline, the item is
    stored as expired and [approve], [reject] and [modifyAndApprove]
    throw the not-pending error. *)
Theorem expiry_is_lazy (q : ReviewQueue.Queue) (id : string)
    (item : ReviewItem) (now : Z) :
  ReviewQueue.get id q = Some item ->
  status item = pending ->
  expiresAt item < now ->
  (forall who notes,
     exists q',
       ReviewQueue.approve id who notes now q
       = (inr (approvedItem now item who notes), q')
       /\ ReviewQueue.get id q' = Some (approvedItem now item who notes))
  /\ (let swept := snd (ReviewQueue.listPending now q) in
      ReviewQueue.get id swept = Some (ReviewQueue.expire now item)
      /\ forall who reason mods notes now',
           ReviewQueue.approve id who notes now' swept
           = (inl (ItemNotPending id), swept)
           /\ ReviewQueue.reject id who reason now' swept
              = (inl (ItemNotPending id), swept)
           /\ ReviewQueue.modifyAndApprove id who mods notes now' swept
              = (inl (ItemNotPending id), swept)).
Proof.
  intros Hget Hst Hexp. split.
  - intros who notes. eexists. split; [apply approve_run; assumption |].
    unfold ReviewQueue.get. cbn [ReviewQueue.items ReviewQueue.with_items].
    rewrite <- (Map_get_id _ _ _ Hget) at 1.
    change (item_id item) with (item_id (approvedItem now item who notes)).
    apply Map_get_set_same.
  - cbn zeta.
    assert (Hswept : ReviewQueue.get id (snd (ReviewQueue.listPending now q))
                     = Some (ReviewQueue.expire now item)).
    { rewrite get_after_sweep, Hget. cbn [option_map].
      unfold ReviewQueue.expireIfOld. rewrite Hst.
      apply Z.ltb_lt in Hexp. rewrite Hexp. reflexivity. }
    split; [exact Hswept |].
    intros who reason mods notes now'.
    assert (Hthrow : ReviewQueue.pendingItem id
                       (snd (ReviewQueue.listPending now q))
                     = (inl (ItemNotPending id),
                        snd (ReviewQueue.listPending now q))).
    { apply (pendingItem_not_pending _ _ _ Hswept). discriminate. }
    unfold ReviewQueue.approve, ReviewQueue.reject,
      ReviewQueue.modifyAndApprove, bind.
    rewrite Hthrow. repeat split.
Qed.

Lemma expiry_is_lazy_witness :
  exists q',
    ReviewQueue.approve "r1" "alice" None 5000
      (sampleQueue 100 [sampleItem "r1" pending medium 10])
    = (inr (approvedItem 5000 (sampleItem "r1" pending medium 10) "alice" None),
       q').
Proof.
  destruct (expiry_is_lazy (sampleQueue 100 [sampleItem "r1" pending medium 10])
              "r1" (sampleItem "r1" pending medium 10) 5000)
    as (H & _).
  - reflexivity.
  - reflexivity.
  - cbn. lia.
  - destruct (H "alice" None) as (q' & Hrun & _). exists q'. exact Hrun.
Defined.
